(** * lto-backup: buffer planning, registry and job supervision

    A shallow embedding of the parts of the LTO backup tool that its
    specification makes testable statements about:

    - [modules/system_monitor.py]: size parsing, the memory check and the
      mbuffer parameter planner;
    - [modules/registry_manager.py] with [modules/file_utils.py]: the
      line-oriented backup registry;
    - [modules/tape_drive.py]: the [mt] command runner and the status query;
    - [modules/backup_job.py] and [core/backup_engine.py]: the job worker,
      its monitoring loop and the registry entry made on success.

    Python values are modelled as follows.  An [int] is a [Z].  A [float] is
    a binary64 value, kept as the exact rational it denotes, with every
    operation rounded to nearest-even ([Float64]).  A [str] is a list of
    characters, each read as a code point below 256 ([Str]).  An exception
    is a value of [pyexn] carried by the result type [pyres].  What the
    program asks of the machine and of its libraries (memory samples, the
    tape drive, the pipeline, the clock, the guess that [chardet] makes of
    an encoding and the decoders of the interpreter, the listing of a
    directory) is given to the functions as arguments. *)

From Stdlib Require Import ZArith QArith Qpower Qround Lia Lqa Bool List String Ascii.
From Stdlib Require Import DecimalString.
From Stdlib Require DecimalPos DecimalN.
From Stdlib Require Import Permutation.
Import ListNotations.

Local Open Scope Z_scope.

(** ** Exceptions *)

Inductive pyexn : Type :=
| ValueError
| OverflowError
| ZeroDivisionError
| OtherError.

Inductive pyres (A : Type) : Type :=
| Ok (a : A)
| Raise (e : pyexn).

Arguments Ok {A} a.
Arguments Raise {A} e.

Definition bind {A B : Type} (r : pyres A) (k : A -> pyres B) : pyres B :=
  match r with
  | Ok a => k a
  | Raise e => Raise e
  end.

Notation "x <- c ;; k" := (bind c (fun x => k))
  (at level 61, c at next level, right associativity).

(** ** Binary64 arithmetic *)

Module Float64.

(** A finite double is kept as the rational it denotes; the sign of zero is
    not tracked (no operation of the program observes it). *)
Inductive pyfloat : Type :=
| Fin (q : Q)
| Inf (neg : bool)
| NaN.

(** [2^e] as a rational, for any integer exponent. *)
Definition pow2 (e : Z) : Q :=
  if 0 <=? e then inject_Z (2 ^ e) else 1 # Z.to_pos (2 ^ (- e)).

(** [floor (log2 (n / d))] for [0 < n]. *)
Definition floor_log2 (n : Z) (d : positive) : Z :=
  let l := Z.log2 n - Z.log2 (Zpos d) in
  if n * 2 ^ Z.max 0 (- l) <? Zpos d * 2 ^ Z.max 0 l then l - 1 else l.

(** The integer nearest to [num / den], ties to the even one. *)
Definition rne (num den : Z) : Z :=
  let q := num / den in
  let r := num mod den in
  match 2 * r ?= den with
  | Lt => q
  | Gt => q + 1
  | Eq => if Z.even q then q else q + 1
  end.

(** Exponent of the unit in the last place of [n / d]: 53 significant bits,
    subnormals below [2^-1022]. *)
Definition ulp_exp (n : Z) (d : positive) : Z :=
  Z.max (floor_log2 n d - 52) (-1074).

(** The significand of [n / d] on the grid [2^ulp_exp]. *)
Definition significand (n : Z) (d : positive) : Z :=
  let e := ulp_exp n d in
  rne (n * 2 ^ Z.max 0 (- e)) (Zpos d * 2 ^ Z.max 0 e).

(** Rounding of a positive rational; [None] is overflow. *)
Definition round_pos (n : Z) (d : positive) : option Q :=
  let e := ulp_exp n d in
  let m := significand n d in
  if (971 <? e) || ((e =? 971) && (2 ^ 53 <=? m)) then None
  else Some (inject_Z m * pow2 e)%Q.

Definition round (q : Q) : pyfloat :=
  match Qnum q with
  | 0 => Fin 0
  | Zpos n =>
      match round_pos (Zpos n) (Qden q) with
      | Some r => Fin r
      | None => Inf false
      end
  | Zneg n =>
      match round_pos (Zpos n) (Qden q) with
      | Some r => Fin (- r)
      | None => Inf true
      end
  end.

(** [float(z)] for an [int]: too large an integer raises. *)
Definition of_int (z : Z) : pyres pyfloat :=
  match round (inject_Z z) with
  | Inf _ => Raise OverflowError
  | f => Ok f
  end.

(** [a / b] on two [int]s (true division), correctly rounded. *)
Definition int_truediv (a b : Z) : pyres pyfloat :=
  if b =? 0 then Raise ZeroDivisionError
  else
    match round (Qmake (a * Z.sgn b) (Z.to_pos (Z.abs b))) with
    | Inf _ => Raise OverflowError
    | f => Ok f
    end.

Definition is_zero (q : Q) : bool := Qnum q =? 0.
Definition is_neg (q : Q) : bool := Qnum q <? 0.

Definition mul (x y : pyfloat) : pyfloat :=
  match x, y with
  | NaN, _ | _, NaN => NaN
  | Fin a, Fin b => round (a * b)
  | Fin a, Inf s | Inf s, Fin a =>
      if is_zero a then NaN else Inf (xorb s (is_neg a))
  | Inf s, Inf t => Inf (xorb s t)
  end.

Definition sub (x y : pyfloat) : pyfloat :=
  match x, y with
  | NaN, _ | _, NaN => NaN
  | Fin a, Fin b => round (a - b)
  | Fin _, Inf s => Inf (negb s)
  | Inf s, Fin _ => Inf s
  | Inf s, Inf t => if Bool.eqb s t then NaN else Inf s
  end.

(** Division by a finite value other than zero. *)
Definition div_by (b : Q) (x : pyfloat) : pyfloat :=
  match x with
  | Fin a => round (a / b)
  | Inf s => Inf (xorb s (is_neg b))
  | NaN => NaN
  end.

Definition div (x y : pyfloat) : pyres pyfloat :=
  match x, y with
  | _, Fin b => if is_zero b then Raise ZeroDivisionError else Ok (div_by b x)
  | NaN, _ | _, NaN => Ok NaN
  | Fin _, Inf _ => Ok (Fin 0)
  | Inf _, Inf _ => Ok NaN
  end.

(** [x > y] and [x < y]; every comparison with a NaN is false. *)
Definition gtb (x y : pyfloat) : bool :=
  match x, y with
  | NaN, _ | _, NaN => false
  | Fin a, Fin b => negb (Qle_bool a b)
  | Fin _, Inf s => s
  | Inf s, Fin _ => negb s
  | Inf s, Inf t => negb s && t
  end.

Definition ltb (x y : pyfloat) : bool := gtb y x.

(** [int(x)]: truncation towards zero. *)
Definition trunc (q : Q) : Z := Z.quot (Qnum q) (Zpos (Qden q)).

Definition to_int (x : pyfloat) : pyres Z :=
  match x with
  | Fin q => Ok (trunc q)
  | Inf _ => Raise OverflowError
  | NaN => Raise ValueError
  end.

(** [i * x] and [x * i] with an [int] operand: the integer is converted
    first. *)
Definition int_mul (i : Z) (x : pyfloat) : pyres pyfloat :=
  f <- of_int i ;; Ok (mul f x).

(** A decimal literal of the source text. *)
Definition lit (q : Q) : pyfloat := round q.

End Float64.

Import Float64.

(** ** Strings *)

Module Str.

Definition pystr : Type := list ascii.

(** A string literal of the source text. *)
Definition str (s : string) : pystr := list_ascii_of_string s.

Definition code (c : ascii) : Z := Z.of_N (N_of_ascii c).

Definition eqc (a b : ascii) : bool := Ascii.eqb a b.

Fixpoint eqs (a b : pystr) : bool :=
  match a, b with
  | [], [] => true
  | x :: a', y :: b' => eqc x y && eqs a' b'
  | _, _ => false
  end.

(** [str.isspace] on one character (code points below 256). *)
Definition isspace (c : ascii) : bool :=
  let n := code c in
  ((9 <=? n) && (n <=? 13)) || ((28 <=? n) && (n <=? 32))
  || (n =? 133) || (n =? 160).

(** The line boundaries of [str.splitlines] (code points below 256). *)
Definition islinebreak (c : ascii) : bool :=
  let n := code c in
  ((10 <=? n) && (n <=? 13)) || ((28 <=? n) && (n <=? 30)) || (n =? 133).

Definition isdigit (c : ascii) : bool :=
  let n := code c in (48 <=? n) && (n <=? 57).

Definition digit_value (c : ascii) : Z := code c - 48.

(** [str.upper] on one character.  The sharp s becomes two letters; the
    micro sign and y-diaeresis, whose capitals lie above 255, are left as
    they are: none of them is a digit, a sign or a size suffix. *)
Definition upper_char (c : ascii) : pystr :=
  let n := code c in
  if ((97 <=? n) && (n <=? 122))
     || ((224 <=? n) && (n <=? 254) && negb (n =? 247))
  then [ascii_of_N (Z.to_N (n - 32))]
  else if n =? 223 then str "SS"
  else [c].

Definition upper (s : pystr) : pystr := flat_map upper_char s.

Definition lower_char (c : ascii) : ascii :=
  let n := code c in
  if (65 <=? n) && (n <=? 90) then ascii_of_N (Z.to_N (n + 32)) else c.

Fixpoint dropwhile (p : ascii -> bool) (s : pystr) : pystr :=
  match s with
  | [] => []
  | c :: t => if p c then dropwhile p t else s
  end.

Definition lstrip (s : pystr) : pystr := dropwhile isspace s.
Definition rstrip (s : pystr) : pystr := rev (dropwhile isspace (rev s)).
Definition strip (s : pystr) : pystr := rstrip (lstrip s).

Fixpoint startswith (s p : pystr) : bool :=
  match p, s with
  | [], _ => true
  | x :: p', y :: s' => eqc x y && startswith s' p'
  | _ :: _, [] => false
  end.

Definition endswith (s p : pystr) : bool := startswith (rev s) (rev p).

(** [s[:-1]] *)
Definition drop_last (s : pystr) : pystr := removelast s.

(** [needle in hay] *)
Fixpoint contains (needle hay : pystr) : bool :=
  startswith hay needle
  || match hay with
     | [] => false
     | _ :: t => contains needle t
     end.

(** [s.split(c)] for a one-character separator. *)
Fixpoint split (c : ascii) (s : pystr) : list pystr :=
  match s with
  | [] => [[]]
  | x :: t =>
      if eqc x c then [] :: split c t
      else match split c t with
           | p :: ps => (x :: p) :: ps
           | [] => [[x]]
           end
  end.

(** [sep.join(parts)] *)
Fixpoint join (sep : pystr) (parts : list pystr) : pystr :=
  match parts with
  | [] => []
  | [p] => p
  | p :: rest => p ++ sep ++ join sep rest
  end.

(** [s.splitlines()]: a carriage return followed by a line feed is one
    boundary; a final boundary opens no further line. *)
Fixpoint splitlines (s : pystr) : list pystr :=
  match s with
  | [] => []
  | c :: t =>
      if islinebreak c then
        if code c =? 13 then
          match t with
          | d :: t' => if code d =? 10 then [] :: splitlines t'
                       else [] :: splitlines t
          | [] => [[]]
          end
        else [] :: splitlines t
      else match splitlines t with
           | l :: ls => (c :: l) :: ls
           | [] => [[c]]
           end
  end.

(** The text ends where a line ends (or is empty). *)
Fixpoint on_boundary (s : pystr) : bool :=
  match s with
  | [] => true
  | b :: t =>
      match t with
      | [] => islinebreak b
      | _ :: _ => on_boundary t
      end
  end.

(** *** Numbers in text *)

(** A maximal run [digit (["_"] digit)*] at the head of [s], with what
    follows it. *)
Fixpoint digitpart (s : pystr) : list Z * pystr :=
  match s with
  | [] => ([], [])
  | c :: t =>
      if isdigit c then
        match t with
        | [] => ([digit_value c], [])
        | u :: t' =>
            if eqc u "_"%char then
              match t' with
              | d :: _ =>
                  if isdigit d
                  then let (ds, r) := digitpart t' in (digit_value c :: ds, r)
                  else ([digit_value c], t)
              | [] => ([digit_value c], t)
              end
            else let (ds, r) := digitpart t in (digit_value c :: ds, r)
        end
      else ([], s)
  end.

Definition digits_value (ds : list Z) : Z :=
  fold_left (fun a d => 10 * a + d) ds 0.

(** An optional sign: [true] is minus. *)
Definition take_sign (s : pystr) : bool * pystr :=
  match s with
  | c :: t => if eqc c "-"%char then (true, t)
              else if eqc c "+"%char then (false, t)
              else (false, s)
  | [] => (false, [])
  end.

(** The blanks that [int] and [float] skip around a number: the six of
    ASCII and the two spaces above 127; the separators 28 to 31, which
    [str.strip] removes, are not among them. *)
Definition isblank (c : ascii) : bool :=
  let n := code c in
  ((9 <=? n) && (n <=? 13)) || (n =? 32) || (n =? 133) || (n =? 160).

Definition strip_blanks (s : pystr) : pystr :=
  rev (dropwhile isblank (rev (dropwhile isblank s))).

(** The most digits that [int] converts: the interpreter's default limit
    ([sys.int_max_str_digits]). *)
Definition MAX_STR_DIGITS : nat := 4300.

(** [int(s)] on a string, base ten.  A well-formed number with more than
    4300 digits, underscores not counted, raises [ValueError] as a
    malformed one does. *)
Definition py_int (s : pystr) : pyres Z :=
  let (neg, body) := take_sign (strip_blanks s) in
  match digitpart body with
  | ((_ :: _) as ds, []) =>
      if Nat.ltb MAX_STR_DIGITS (List.length ds) then Raise ValueError
      else Ok (if neg then - digits_value ds else digits_value ds)
  | _ => Raise ValueError
  end.

(** The decimal number [mant * 10^ex]. *)
Definition decimal (mant ex : Z) : Q :=
  if 0 <=? ex then inject_Z (mant * 10 ^ ex)
  else mant # Z.to_pos (10 ^ (- ex)).

(** The exponent part of a float literal, empty or [e[+-]digits]. *)
Definition exponent_part (s : pystr) : option Z :=
  match s with
  | [] => Some 0
  | c :: t =>
      if eqc (lower_char c) "e"%char then
        let (neg, body) := take_sign t in
        match digitpart body with
        | ((_ :: _) as ds, []) =>
            Some (if neg then - digits_value ds else digits_value ds)
        | _ => None
        end
      else None
  end.

(** The unsigned decimal literal of [float(s)]. *)
Definition float_literal (s : pystr) : option Q :=
  let (ip, r1) := digitpart s in
  let (fp, r2) :=
    match r1 with
    | c :: t => if eqc c "."%char then digitpart t else ([], r1)
    | [] => ([], r1)
    end in
  match ip ++ fp with
  | [] => None
  | ds =>
      match exponent_part r2 with
      | Some ex => Some (decimal (digits_value ds) (ex - Z.of_nat (List.length fp)))
      | None => None
      end
  end.

(** [float(s)] on a string. *)
Definition py_float (s : pystr) : pyres pyfloat :=
  let (neg, body) := take_sign (strip_blanks s) in
  let word := map lower_char body in
  if eqs word (str "inf") || eqs word (str "infinity") then Ok (Inf neg)
  else if eqs word (str "nan") then Ok NaN
  else
    match float_literal body with
    | Some q => Ok (round (if neg then - q else q))
    | None => Raise ValueError
    end.

(** *** Shapes of text *)

(** A text that stripping leaves alone. *)
Definition stripped (s : pystr) : Prop := lstrip s = s /\ rstrip s = s.

(** A text without the character [c]. *)
Definition free_of (c : ascii) (s : pystr) : Prop :=
  Forall (fun x => eqc x c = false) s.

(** A text without a line boundary. *)
Definition unbroken (s : pystr) : Prop :=
  Forall (fun c => islinebreak c = false) s.

(** [s.lower()] on characters below 256. *)
Definition lower_latin (c : ascii) : ascii :=
  let n := code c in
  if ((65 <=? n) && (n <=? 90))
     || ((192 <=? n) && (n <=? 222) && negb (n =? 215))
  then ascii_of_N (Z.to_N (n + 32)) else c.

Definition lower (s : pystr) : pystr := map lower_latin s.

(** What a file holds: its bytes. *)
Definition bytes : Type := list ascii.

End Str.

Import Str.

(** ** Number formatting *)

Module Format.

Definition decimal_digits (n : Z) : pystr :=
  str (DecimalString.NilZero.string_of_uint (N.to_uint (Z.to_N n))).

Fixpoint zero_pad (width : nat) (s : pystr) : pystr :=
  match width with
  | O => s
  | S w => if Nat.ltb (List.length s) width
           then zero_pad w ("0"%char :: s) else s
  end.

(** [f"{q:.<digits>f}"] for a finite value, rounded half to even on the
    exact value. *)
Definition fixed_Q (digits : nat) (q : Q) : pystr :=
  let scale := 10 ^ Z.of_nat digits in
  let s := rne (Z.abs (Qnum q) * scale) (Zpos (Qden q)) in
  (if Qnum q <? 0 then str "-" else [])
  ++ decimal_digits (s / scale)
  ++ match digits with
     | O => []
     | _ => "."%char :: zero_pad digits (decimal_digits (s mod scale))
     end.

Definition fixed (digits : nat) (x : pyfloat) : pystr :=
  match x with
  | Fin q => fixed_Q digits q
  | Inf neg => if neg then str "-inf" else str "inf"
  | NaN => str "nan"
  end.

(** [f"{x:.1%}"]: the value is first multiplied by one hundred. *)
Definition percent1 (x : pyfloat) : pystr :=
  fixed 1 (mul x (Fin 100)) ++ str "%".

End Format.

(** ** [modules/system_monitor.py] *)

Module SystemMonitor.

Inductive ResourceStatus : Type := OK | WARNING | CRITICAL | UNKNOWN.

Definition ResourceStatus_eqb (a b : ResourceStatus) : bool :=
  match a, b with
  | OK, OK | WARNING, WARNING | CRITICAL, CRITICAL | UNKNOWN, UNKNOWN => true
  | _, _ => false
  end.

(** [ResourceStatus.value] *)
Definition status_value (s : ResourceStatus) : pystr :=
  match s with
  | OK => str "ok"
  | WARNING => str "warning"
  | CRITICAL => str "critical"
  | UNKNOWN => str "unknown"
  end.

Record ResourceMetrics : Type := {
  memory_total : Z;
  memory_available : Z;
  memory_used_percent : pyfloat;
  swap_total : Z;
  swap_used_percent : pyfloat;
  cpu_percent : pyfloat;
  disk_free : Z;
  disk_used_percent : pyfloat;
  load_average : pyfloat * pyfloat * pyfloat
}.

Definition MIN_MEMORY_FOR_MBUFFER : Z := 512 * 1024 * 1024.
Definition MIN_DISK_SPACE_FOR_TEMP : Z := 1024 * 1024 * 1024.
Definition WARNING_MEMORY_THRESHOLD : pyfloat := lit (85 # 100).
Definition CRITICAL_MEMORY_THRESHOLD : pyfloat := lit (95 # 100).

(** The dictionary of suffixes, in its insertion order. *)
Definition multipliers : list (pystr * Z) :=
  [ (str "K", 1024);
    (str "M", 1024 * 1024);
    (str "G", 1024 * 1024 * 1024);
    (str "T", 1024 * 1024 * 1024 * 1024) ].

(** How the loop over the suffixes ends: a [return] from inside it, the
    loop left (by [break] or by exhaustion), or an exception that no
    handler of the loop catches. *)
Inductive loop_exit : Type :=
| Returned (z : Z)
| LoopDone
| Escaped (e : pyexn).

(** [float(number_str) * multiplier] *)
Definition scaled_number (number_str : pystr) (multiplier : Z) : pyres pyfloat :=
  number <- py_float number_str ;;
  m <- of_int multiplier ;;
  Ok (mul number m).

(** The body of the [try] under a matching suffix. *)
Definition suffix_body (number_str : pystr) (multiplier : Z) : pyres Z :=
  product <- scaled_number number_str multiplier ;;
  to_int product.

Fixpoint suffix_loop (size_str : pystr) (ms : list (pystr * Z)) : loop_exit :=
  match ms with
  | [] => LoopDone
  | (suffix, multiplier) :: rest =>
      if endswith size_str suffix then
        match suffix_body (drop_last size_str) multiplier with
        | Ok z => Returned z
        | Raise ValueError => LoopDone
        | Raise e => Escaped e
        end
      else suffix_loop size_str rest
  end.

Definition DEFAULT_SIZE : Z := 2 * 1024 * 1024 * 1024.

Definition _parse_mbuffer_size (size_str : pystr) : pyres Z :=
  let size_str := strip (upper size_str) in
  match suffix_loop size_str multipliers with
  | Returned z => Ok z
  | Escaped e => Raise e
  | LoopDone =>
      match py_int size_str with
      | Ok z => Ok z
      | Raise ValueError => Ok DEFAULT_SIZE
      | Raise e => Raise e
      end
  end.

(** The product under the suffix of [size_str] is not an infinity. *)
Definition finite_product (size_str : pystr) : Prop :=
  forall suffix multiplier neg,
    In (suffix, multiplier) multipliers ->
    endswith size_str suffix = true ->
    scaled_number (drop_last size_str) multiplier <> Ok (Inf neg).

(** Neither reading of [size_str] gives a number: it is no integer, and
    what stands before a suffix is no float (or is not a number). *)
Definition unparseable (size_str : pystr) : Prop :=
  py_int size_str = Raise ValueError
  /\ forall suffix multiplier,
       In (suffix, multiplier) multipliers ->
       endswith size_str suffix = true ->
       py_float (drop_last size_str) = Raise ValueError
       \/ py_float (drop_last size_str) = Ok NaN.

(** The monitor object: its one field that the checks read. *)
Record monitor : Type := { mbuffer_size : Z }.

(** [SystemMonitor(mbuffer_size)] *)
Definition new_monitor (size : pystr) : pyres monitor :=
  z <- _parse_mbuffer_size size ;; Ok {| mbuffer_size := z |}.

(** [_format_bytes]: the value is an [int] on entry and a [float] after
    the first division. *)
Fixpoint format_units (units : list pystr) (x : pyfloat) : pystr :=
  match units with
  | [] => Format.fixed 1 x ++ str " PB"
  | u :: rest =>
      if ltb x (Fin 1024) then Format.fixed 1 x ++ " "%char :: u
      else format_units rest (div_by 1024 x)
  end.

Definition _format_bytes (bytes_value : Z) : pyres pystr :=
  f <- of_int bytes_value ;;
  if bytes_value <? 1024 then Ok (Format.fixed 1 f ++ str " B")
  else Ok (format_units [str "KB"; str "MB"; str "GB"; str "TB"]
                         (div_by 1024 f)).

(** [1.0 - (available / total) if total > 0 else 1.0] *)
Definition memory_usage_ratio (metrics : ResourceMetrics) : pyres pyfloat :=
  if 0 <? memory_total metrics then
    r <- int_truediv (memory_available metrics) (memory_total metrics) ;;
    Ok (sub (Fin 1) r)
  else Ok (Fin 1).

(** The status chosen under a shortage, by the usage ratio. *)
Definition shortage_status (ratio : pyfloat) : ResourceStatus :=
  if gtb ratio CRITICAL_MEMORY_THRESHOLD then CRITICAL
  else if gtb ratio WARNING_MEMORY_THRESHOLD then WARNING
  else WARNING.

(** [max(MIN_MEMORY_FOR_MBUFFER, int(available_memory * 0.8))] *)
Definition reduced_size (available_memory : Z) : pyres Z :=
  f <- int_mul available_memory (lit (8 # 10)) ;;
  z <- to_int f ;;
  Ok (Z.max MIN_MEMORY_FOR_MBUFFER z).

(** [check_memory_for_mbuffer] on given metrics.  The message is kept as
    the list of the values formatted into it; its fixed wording is left
    out. *)
Definition check_memory_for_mbuffer (self : monitor) (metrics : ResourceMetrics)
  : pyres (ResourceStatus * list pystr * Z) :=
  let required_memory := mbuffer_size self in
  let available_memory := memory_available metrics - MIN_MEMORY_FOR_MBUFFER in
  ratio <- memory_usage_ratio metrics ;;
  if memory_available metrics <? MIN_MEMORY_FOR_MBUFFER then
    a <- _format_bytes (memory_available metrics) ;;
    b <- _format_bytes MIN_MEMORY_FOR_MBUFFER ;;
    Ok (CRITICAL, [a; b], 0)
  else if available_memory <? required_memory then
    let status := shortage_status ratio in
    recommended_size <- reduced_size available_memory ;;
    a <- _format_bytes available_memory ;;
    b <- _format_bytes required_memory ;;
    c <- _format_bytes recommended_size ;;
    Ok (status, [Format.percent1 ratio; a; b; c], recommended_size)
  else if gtb ratio CRITICAL_MEMORY_THRESHOLD then
    a <- _format_bytes available_memory ;;
    Ok (CRITICAL, [Format.percent1 ratio; a], required_memory)
  else if gtb ratio WARNING_MEMORY_THRESHOLD then
    a <- _format_bytes available_memory ;;
    Ok (WARNING, [Format.percent1 ratio; a], required_memory)
  else
    a <- _format_bytes available_memory ;;
    Ok (OK, [Format.percent1 ratio; a], required_memory).

(** What [psutil.disk_usage] gives for a path, when it does not fail. *)
Record disk_usage : Type := { du_free : Z; du_percent : pyfloat }.

(** [check_disk_space]: every failure inside it becomes [UNKNOWN]. *)
Definition check_disk_space (disk : option disk_usage) (required_space : option Z)
  : ResourceStatus :=
  let required_space :=
    match required_space with
    | Some r => r
    | None => MIN_DISK_SPACE_FOR_TEMP
    end in
  match disk with
  | None => UNKNOWN
  | Some d =>
      let attempt : pyres ResourceStatus :=
        if du_free d <? required_space then
          _ <- _format_bytes (du_free d) ;;
          _ <- _format_bytes required_space ;;
          Ok CRITICAL
        else if du_free d <? required_space * 2 then
          _ <- _format_bytes (du_free d) ;; Ok WARNING
        else
          _ <- _format_bytes (du_free d) ;; Ok OK in
      match attempt with
      | Ok s => s
      | Raise _ => UNKNOWN
      end
  end.

(** [SystemMonitor()], whose size text defaults to "2G". *)
Definition default_monitor : monitor := {| mbuffer_size := 2147483648 |}.

(** What the operating system reports when the planner runs: the metrics
    sample and the usage of the temporary directory. *)
Record system_state : Type := {
  sampled : ResourceMetrics;
  temp_disk : option disk_usage
}.

(** The entries of [check_all_resources] that the callers read: memory
    and disk.  The load and swap entries depend on nothing here and can
    not fail. *)
Record resources : Type := {
  res_memory : ResourceStatus * list pystr * Z;
  res_disk : ResourceStatus
}.

Definition check_all_resources (self : monitor) (sys : system_state)
  : pyres resources :=
  m <- check_memory_for_mbuffer self (sampled sys) ;;
  Ok {| res_memory := m; res_disk := check_disk_space (temp_disk sys) None |}.

(** The bound under which an [int] converts to a [float] without fail. *)
Definition LIMIT : Z := 2 ^ 1023.

(** The double written [0.8]. *)
Definition point_eight : Q := Eval vm_compute in
  match lit (8 # 10) with Fin q => q | _ => 0%Q end.

End SystemMonitor.

Import SystemMonitor.

(** ** [MBufferOptimizer] *)

Module MBufferOptimizer.

(** The dictionary returned by [get_optimal_mbuffer_params]. *)
Record mbuffer_params : Type := {
  size : pystr;
  fill_percent : pystr;
  block_size : pystr;
  memory_status : pystr;
  warning : option (list pystr)
}.

Definition GiB : Z := 1024 * 1024 * 1024.
Definition MiB : Z := 1024 * 1024.

(** The number of bytes the planner settles on. *)
Definition plan_buffer_size (mem_status : ResourceStatus) (recommended_size : Z)
  : pyres Z :=
  match mem_status with
  | CRITICAL =>
      f <- int_mul recommended_size (lit (5 # 10)) ;;
      z <- to_int f ;;
      Ok (Z.max MIN_MEMORY_FOR_MBUFFER z)
  | WARNING =>
      f <- int_mul recommended_size (lit (75 # 100)) ;;
      to_int f
  | _ => Ok recommended_size
  end.

Definition size_string (buffer_size : Z) : pyres pystr :=
  if GiB <=? buffer_size then
    f <- int_truediv buffer_size GiB ;; Ok (Format.fixed 1 f ++ str "G")
  else if MiB <=? buffer_size then
    f <- int_truediv buffer_size MiB ;; Ok (Format.fixed 0 f ++ str "M")
  else
    f <- int_truediv buffer_size 1024 ;; Ok (Format.fixed 0 f ++ str "K").

Definition fill_for (mem_status : ResourceStatus) : pystr :=
  match mem_status with
  | CRITICAL => str "70%"
  | WARNING => str "80%"
  | _ => str "90%"
  end.

Definition block_size_for (disk_status : ResourceStatus) (buffer_size : Z)
  : pystr :=
  match disk_status with
  | CRITICAL => str "512k"
  | _ => if 2 * GiB <? buffer_size then str "1M" else str "256k"
  end.

(** [get_optimal_mbuffer_params] with a monitor given ([None] builds one
    from the size text, "2G" when that is missing or empty). *)
Definition get_optimal_mbuffer_params
    (mbuffer_size : option pystr) (system_monitor : option monitor)
    (sys : system_state) : pyres mbuffer_params :=
  system_monitor <-
    match system_monitor with
    | Some m => Ok m
    | None =>
        new_monitor match mbuffer_size with
                    | Some ((_ :: _) as s) => s
                    | _ => str "2G"
                    end
    end ;;
  results <- check_all_resources system_monitor sys ;;
  let '(mem_status, mem_msg, recommended_size) := res_memory results in
  buffer_size <- plan_buffer_size mem_status recommended_size ;;
  size_str <- size_string buffer_size ;;
  Ok {| size := size_str;
        fill_percent := fill_for mem_status;
        block_size := block_size_for (res_disk results) buffer_size;
        memory_status := status_value mem_status;
        warning := match mem_status with
                   | OK => None
                   | _ => Some mem_msg
                   end |}.

(** The block size that goes with the disk check of a system state and a
    buffer of at most 2 GiB. *)
Definition disk_block (sys : system_state) : pystr :=
  match check_disk_space (temp_disk sys) None with
  | CRITICAL => str "512k"
  | _ => str "256k"
  end.

End MBufferOptimizer.

(** ** Concrete inputs used in scenarios *)

Module Scenario.

(** A metrics sample with the given memory figures and an idle machine. *)
Definition snapshot (total available : Z) : ResourceMetrics :=
  {| memory_total := total;
     memory_available := available;
     memory_used_percent := Fin 0;
     swap_total := 0;
     swap_used_percent := Fin 0;
     cpu_percent := Fin 0;
     disk_free := 0;
     disk_used_percent := Fin 0;
     load_average := (Fin 0, Fin 0, Fin 0) |}.

(** A temporary directory with a terabyte free. *)
Definition roomy_disk : option disk_usage :=
  Some {| du_free := 1024 * 1024 * 1024 * 1024; du_percent := Fin 10 |}.

Definition machine (total available : Z) : system_state :=
  {| sampled := snapshot total available; temp_disk := roomy_disk |}.

End Scenario.

(** ** [modules/file_utils.py]: reading a file of unknown encoding *)

Module SafeFileHandler.

Import Float64.

Definition DEFAULT_ENCODING : pystr := str "utf-8".

Definition FALLBACK_ENCODINGS : list pystr :=
  [str "utf-8"; str "cp1251"; str "koi8-r"; str "iso-8859-5"; str "ascii"].

Section Reader.

(** [chardet.detect] on a sample of bytes: the encoding it names, if it
    names one, and its confidence. *)
Variable detect : bytes -> pyres (option pystr * pyfloat).

(** The bytes decoded under a named encoding with [errors='replace'], as
    [codecs.open(...).read()] does.  [Raise ValueError] is the
    [UnicodeDecodeError], which is a [ValueError]; a name that the
    interpreter does not know raises otherwise.  The text decoded is, as
    every text here, one of characters below 256. *)
Variable decode : pystr -> bytes -> pyres pystr.

(** [detect_encoding] on a file that holds the given bytes: the guess is
    made on the first 1024 bytes and taken when its confidence is above
    0.7; an empty file, no guess and a failed guess give the default. *)
Definition detect_encoding (content : bytes) : pystr :=
  match firstn 1024 content with
  | [] => DEFAULT_ENCODING
  | raw_data =>
      match detect raw_data with
      | Ok (Some [], _) => DEFAULT_ENCODING
      | Ok (Some encoding, confidence) =>
          if gtb confidence (lit (7 # 10)) then lower encoding
          else DEFAULT_ENCODING
      | Ok (None, _) => DEFAULT_ENCODING
      | Raise _ => DEFAULT_ENCODING
      end
  end.

(** The loop over the fallback encodings, after a decoding error under
    [encoding]; when none decodes, [FileEncodingError] is raised. *)
Fixpoint try_fallbacks (encoding : pystr) (alternatives : list pystr)
    (content : bytes) : pyres pystr :=
  match alternatives with
  | [] => Raise OtherError
  | alt_encoding :: rest =>
      if eqs alt_encoding encoding then try_fallbacks encoding rest content
      else
        match decode alt_encoding content with
        | Ok text => Ok text
        | Raise ValueError => try_fallbacks encoding rest content
        | Raise e => Raise e
        end
  end.

(** [read_file(path)] on an existing file that holds the given bytes, the
    encoding not being given. *)
Definition read_file (content : bytes) : pyres pystr :=
  let encoding := detect_encoding content in
  match decode encoding content with
  | Ok text => Ok text
  | Raise ValueError => try_fallbacks encoding FALLBACK_ENCODINGS content
  | Raise e => Raise e
  end.

End Reader.

End SafeFileHandler.

(** ** [modules/registry_manager.py] over [SafeFileHandler.read_lines] *)

Module Registry.

(** One backup as the registry records it. *)
Record entry : Type := {
  timestamp : pystr;
  label : pystr;
  tapes : pystr;
  file_index : pystr;
  manifest : pystr
}.

(** A copy of the registry in [registry_backups]: its name, its bytes and
    its modification time, in seconds. *)
Record snapshot : Type := {
  snap_name : pystr;
  snap_content : bytes;
  snap_mtime : Q
}.

(** The files the manager touches: the registry itself ([None] when it
    does not exist) and the copies in [registry_backups] that carry the
    name of a snapshot.  File operations on these files are taken to
    succeed. *)
Record store : Type := {
  registry_file : option bytes;
  snapshots : list snapshot
}.

Definition nonempty (s : pystr) : bool :=
  match s with
  | [] => false
  | _ :: _ => true
  end.

(** The UTF-8 bytes of a character below 256 and of a text, as a file
    opened with [encoding='utf-8'] is written on a POSIX system. *)
Definition utf8_char (c : ascii) : bytes :=
  if code c <? 128 then [c]
  else [ascii_of_N (Z.to_N (192 + code c / 64));
        ascii_of_N (Z.to_N (128 + code c mod 64))].

Definition utf8 (text : pystr) : bytes := flat_map utf8_char text.

(** The part of [SafeFileHandler.read_lines(path, skip_empty=True)] that
    follows the reading: the text is split into lines, the lines are
    stripped, and the empty ones dropped. *)
Definition text_lines (content : pystr) : list pystr :=
  filter nonempty (map strip (splitlines content)).

(** The first five fields of a line, when it has that many. *)
Definition parse_line (line : pystr) : option entry :=
  match split ";"%char (strip line) with
  | p0 :: p1 :: p2 :: p3 :: p4 :: _ =>
      Some {| timestamp := p0; label := p1; tapes := p2;
              file_index := p3; manifest := p4 |}
  | _ => None
  end.

(** The line written for an entry, without its newline. *)
Definition format_entry (e : entry) : pystr :=
  timestamp e ++ str ";" ++ label e ++ str ";"
  ++ tapes e ++ str ";" ++ file_index e ++ str ";"
  ++ manifest e.

Definition newline : pystr := str (String "010"%char EmptyString).

(** [add_registry_entry]: the bytes of one line appended to whatever the
    file holds. *)
Definition add_registry_entry (st : store) (e : entry) : store * bool :=
  let old := match registry_file st with
             | Some c => c
             | None => []
             end in
  ({| registry_file := Some (old ++ utf8 (format_entry e ++ newline));
      snapshots := snapshots st |}, true).

(** What [find_backup_by_label] returns for a hit. *)
Record found : Type := {
  line_number : nat;
  fields : entry;
  raw_line : pystr
}.

(** The scan of [find_backup_by_label]: the first line that contains the
    label anywhere and has five fields. *)
Fixpoint scan (lbl : pystr) (line_num : nat) (lines : list pystr) : option found :=
  match lines with
  | [] => None
  | line :: rest =>
      if contains lbl line then
        match parse_line line with
        | Some e => Some {| line_number := line_num; fields := e;
                            raw_line := strip line |}
        | None => scan lbl (S line_num) rest
        end
      else scan lbl (S line_num) rest
  end.

(** The loop of [get_all_backups]. *)
Fixpoint collect (line_num : nat) (lines : list pystr) : list (nat * entry) :=
  match lines with
  | [] => []
  | line :: rest =>
      match parse_line line with
      | Some e => (line_num, e) :: collect (S line_num) rest
      | None => collect (S line_num) rest
      end
  end.

(** A field text: no separator and no line boundary in it. *)
Definition plain (s : pystr) : Prop :=
  Forall (fun c => eqc c ";"%char = false /\ islinebreak c = false) s.

(** An entry that its line carries unchanged: plain fields, no blank
    at the head of the line nor at its end. *)
Definition representable (e : entry) : Prop :=
  plain (timestamp e) /\ plain (label e) /\ plain (tapes e)
  /\ plain (file_index e) /\ plain (manifest e)
  /\ lstrip (timestamp e) = timestamp e
  /\ rstrip (manifest e) = manifest e.

(** An entry as a line of the file yields it: plain fields, no blank at
    the head of the line. *)
Definition readable (e : entry) : Prop :=
  plain (timestamp e) /\ plain (label e) /\ plain (tapes e)
  /\ plain (file_index e) /\ plain (manifest e)
  /\ lstrip (timestamp e) = timestamp e.

(** The entry as its rewritten line reads back: blanks at the end of the
    line are gone. *)
Definition trimmed (e : entry) : entry :=
  {| timestamp := timestamp e; label := label e; tapes := tapes e;
     file_index := file_index e; manifest := rstrip (manifest e) |}.

Definition semi : ascii := ";"%char.

(** The line of an entry, cut before its last field. *)
Definition line_head (e : entry) : pystr :=
  timestamp e ++ semi :: label e ++ semi :: tapes e ++ semi :: file_index e.

(** The name of the snapshot taken at the moment [stamp]. *)
Definition snapshot_name (stamp : pystr) : pystr :=
  str "registry_" ++ stamp ++ str ".csv".

(** [backups.sort(key=lambda x: x[1])]: by modification time, files of
    the same time in the order they were listed. *)
Fixpoint insert_by_mtime (x : snapshot) (l : list snapshot) : list snapshot :=
  match l with
  | [] => [x]
  | y :: t =>
      if Qle_bool (snap_mtime x) (snap_mtime y) then x :: l
      else y :: insert_by_mtime x t
  end.

Definition sort_by_mtime (l : list snapshot) : list snapshot :=
  fold_right insert_by_mtime [] l.

(** [l[len(l) - n:]], what is left when the first [len(l) - n] are
    removed. *)
Definition keep_last (n : nat) (l : list snapshot) : list snapshot :=
  skipn (List.length l - n) l.

Section Machine.

(** The reader of files, [SafeFileHandler.read_file]: what it makes of
    the bytes of a file rests on the guess of [chardet] and on the
    decoders of the interpreter, which lie outside the program; the
    functions below take it as it is given. *)
Variable read_file : bytes -> pyres pystr.

(** [os.listdir] on [registry_backups]: the files in the order in which
    the file system yields them. *)
Variable listdir : list snapshot -> list snapshot.

(** [SafeFileHandler.read_lines(path, skip_empty=True)] *)
Definition read_lines (content : bytes) : pyres (list pystr) :=
  text <- read_file content ;;
  Ok (text_lines text).

(** [find_backup_by_label]: a missing file and a failed reading give
    [None]. *)
Definition find_backup_by_label (st : store) (lbl : pystr) : option found :=
  match registry_file st with
  | None => None
  | Some content =>
      match read_lines content with
      | Ok lines => scan lbl 1 lines
      | Raise _ => None
      end
  end.

(** [get_all_backups]: a missing file and a failed reading give the empty
    list. *)
Definition get_all_backups (st : store) : list (nat * entry) :=
  match registry_file st with
  | None => []
  | Some content =>
      match read_lines content with
      | Ok lines => collect 1 lines
      | Raise _ => []
      end
  end.

(** [_cleanup_old_backups(keep_last=10)] on the files of the directory:
    listed, sorted by modification time, and all but the last ten
    removed. *)
Definition _cleanup_old_backups (files : list snapshot) : list snapshot :=
  keep_last 10 (sort_by_mtime (listdir files)).

(** [backup_registry] at a moment whose formatted time is [stamp], the
    registry having the modification time [mtime]: [shutil.copy2] gives
    the copy the bytes and the modification time of the registry, in
    place of a snapshot of the same second. *)
Definition backup_registry (stamp : pystr) (mtime : Q) (st : store)
  : store * bool :=
  match registry_file st with
  | None => (st, false)
  | Some content =>
      let name := snapshot_name stamp in
      let others :=
        filter (fun f => negb (eqs (snap_name f) name)) (snapshots st) in
      let copy := {| snap_name := name; snap_content := content;
                     snap_mtime := mtime |} in
      ({| registry_file := registry_file st;
          snapshots := _cleanup_old_backups (others ++ [copy]) |}, true)
  end.

(** The lines that the readers of the registry go through: none for a
    missing file or a failed reading. *)
Definition registry_lines (st : store) : list pystr :=
  match registry_file st with
  | Some content =>
      match read_lines content with
      | Ok lines => lines
      | Raise _ => []
      end
  | None => []
  end.

(** The reader makes the given text of the registry; of a missing
    registry, the empty text. *)
Definition reads_as (st : store) (text : pystr) : Prop :=
  match registry_file st with
  | Some content => read_file content = Ok text
  | None => text = []
  end.

(** [datetime.strptime(text, "%Y-%m-%d %H:%M:%S").timestamp()], in seconds;
    [None] when the text does not parse.  It depends on the time zone of
    the machine. *)
Variable strptime_timestamp : pystr -> option Q.

(** [now - max_age_days * 86400] *)
Definition cutoff_date (now : Q) (max_age_days : Z) : pyres pyfloat :=
  span <- of_int (max_age_days * 86400) ;;
  Ok (sub (Fin now) span).

(** The test of the pruning loop: an entry stays when its time does not
    parse or is later than the cutoff. *)
Definition is_kept (cutoff : pyfloat) (e : entry) : bool :=
  match strptime_timestamp (timestamp e) with
  | Some t => gtb (Fin t) cutoff
  | None => true
  end.

Fixpoint prune_loop (cutoff : pyfloat) (backups : list (nat * entry))
  : list (nat * entry) * Z :=
  match backups with
  | [] => ([], 0)
  | b :: rest =>
      let (kept, removed) := prune_loop cutoff rest in
      if is_kept cutoff (snd b) then (b :: kept, removed)
      else (kept, removed + 1)
  end.

(** The text of the rewritten registry. *)
Definition rewritten (kept : list (nat * entry)) : pystr :=
  List.concat (map (fun b => format_entry (snd b) ++ newline) kept).

(** [cleanup_old_backups_from_registry] at time [now], whose formatted
    form is [stamp], the registry having the modification time [mtime]. *)
Definition cleanup_old_backups_from_registry
    (now : Q) (stamp : pystr) (mtime : Q) (st : store) (max_age_days : Z)
  : pyres (store * Z) :=
  match get_all_backups st with
  | [] => Ok (st, 0)
  | backups =>
      cutoff <- cutoff_date now max_age_days ;;
      let (kept, removed_count) := prune_loop cutoff backups in
      if 0 <? removed_count then
        let (st1, _) := backup_registry stamp mtime st in
        Ok ({| registry_file := Some (utf8 (rewritten kept));
               snapshots := snapshots st1 |}, removed_count)
      else Ok (st, removed_count)
  end.

(** The entries that the pruning loop counts as removed. *)
Definition is_stale (cutoff : pyfloat) (e : entry) : bool :=
  negb (is_kept cutoff e).

End Machine.

End Registry.

(** ** Registry scenarios *)

Module RegistryScenario.

Import Registry.

Definition two_digits (a b : ascii) : option Z :=
  if isdigit a && isdigit b then Some (10 * digit_value a + digit_value b)
  else None.

Definition is_leap (y : Z) : bool :=
  ((y mod 4 =? 0) && negb (y mod 100 =? 0)) || (y mod 400 =? 0).

Definition days_in_month (y m : Z) : Z :=
  if m =? 2 then (if is_leap y then 29 else 28)
  else if (m =? 4) || (m =? 6) || (m =? 9) || (m =? 11) then 30
  else 31.

(** Days from 1970-01-01 to the given date of the Gregorian calendar. *)
Definition days_from_civil (y m d : Z) : Z :=
  let y' := if m <=? 2 then y - 1 else y in
  let era := y' / 400 in
  let yoe := y' - era * 400 in
  let doy := (153 * (if 2 <? m then m - 3 else m + 9) + 2) / 5 + d - 1 in
  let doe := yoe * 365 + yoe / 4 - yoe / 100 + doy in
  era * 146097 + doe - 719468.

(** The clock of a machine on UTC, reading the fixed-width form
    [YYYY-MM-DD HH:MM:SS] that the program itself writes. *)
Definition utc_timestamp (s : pystr) : option Q :=
  match s with
  | [y1; y2; y3; y4; c1; m1; m2; c2; d1; d2; c3; h1; h2; c4; n1; n2; c5; s1; s2] =>
      if eqc c1 "-"%char && eqc c2 "-"%char && eqc c3 " "%char
         && eqc c4 ":"%char && eqc c5 ":"%char then
        match two_digits y1 y2, two_digits y3 y4, two_digits m1 m2,
              two_digits d1 d2, two_digits h1 h2, two_digits n1 n2,
              two_digits s1 s2 with
        | Some yh, Some yl, Some m, Some d, Some h, Some n, Some sec =>
            let y := 100 * yh + yl in
            if (1 <=? y) && (1 <=? m) && (m <=? 12) && (1 <=? d)
               && (d <=? days_in_month y m) && (h <=? 23) && (n <=? 59)
               && (sec <=? 59)
            then Some (inject_Z (days_from_civil y m d * 86400
                                 + h * 3600 + n * 60 + sec))
            else None
        | _, _, _, _, _, _, _ => None
        end
      else None
  | _ => None
  end.

Definition empty_store : store := {| registry_file := None; snapshots := [] |}.

(** [chardet] on a sample of ASCII text without escape sequences: it
    names [ascii] with full confidence. *)
Definition sure_of_ascii (sample : bytes) : pyres (option pystr * pyfloat) :=
  Ok (Some (str "ascii"), Float64.Fin 1).

(** The decoding of bytes below 128 under [ascii], and under every
    encoding that agrees with it there: every byte is its character. *)
Definition byte_for_byte (encoding : pystr) (content : bytes) : pyres pystr :=
  Ok content.

(** The reader on files of ASCII text without escape sequences, as those
    of the scenarios below are. *)
Definition as_written : bytes -> pyres pystr :=
  SafeFileHandler.read_file sure_of_ascii byte_for_byte.

(** A directory that is listed in the order in which it is kept. *)
Definition as_kept (files : list snapshot) : list snapshot := files.

Definition backup_entry (when lbl index path : string) : entry :=
  {| timestamp := str when; label := str lbl; tapes := str "[N/A]";
     file_index := str index; manifest := str path |}.

Definition daily_old : entry :=
  backup_entry "2024-01-15 02:00:00" "Daily" "3" "./manifests/20240115_0200_Daily.txt".

Definition daily_new : entry :=
  backup_entry "2024-06-01 02:00:00" "Daily" "7" "./manifests/20240601_0200_Daily.txt".

Definition weekly : entry :=
  backup_entry "2024-01-14 02:00:00" "Weekly" "2" "./manifests/20240114_0200_Weekly.txt".

Definition daily_full : entry :=
  backup_entry "2024-01-13 02:00:00" "Daily_Full" "1" "./manifests/20240113_0200_Full.txt".

Definition weekly_of_daily_tree : entry :=
  backup_entry "2024-01-12 02:00:00" "Weekly" "0"
               "./manifests/Daily_tree/20240112_0200_Weekly.txt".

(** A registry built by appending the given entries in turn. *)
Definition registry_of (es : list entry) : store :=
  fold_left (fun st e => fst (add_registry_entry st e)) es empty_store.

(** Noon of 2024-06-02, UTC, and its formatted form. *)
Definition noon : Q := inject_Z 1717329600.
Definition noon_stamp : pystr := str "20240602_120000".

(** The morning of that day, when the registry was last written. *)
Definition morning : Q := inject_Z 1717315200.

(** A snapshot of an empty registry, named after the moment it was taken
    and carrying the modification time that the registry had. *)
Definition snapshot_of (stamp : string) (mtime : Z) : snapshot :=
  {| snap_name := snapshot_name (str stamp); snap_content := [];
     snap_mtime := inject_Z mtime |}.

(** Ten snapshots taken on ten days of May 2024, each of a registry
    written an hour before. *)
Definition may_snapshots : list snapshot :=
  [snapshot_of "20240510_030000" 1715306400;
   snapshot_of "20240511_030000" 1715392800;
   snapshot_of "20240512_030000" 1715479200;
   snapshot_of "20240513_030000" 1715565600;
   snapshot_of "20240514_030000" 1715652000;
   snapshot_of "20240515_030000" 1715738400;
   snapshot_of "20240516_030000" 1715824800;
   snapshot_of "20240517_030000" 1715911200;
   snapshot_of "20240518_030000" 1715997600;
   snapshot_of "20240519_030000" 1716084000].

(** The modification time of a registry brought back from a copy of
    2024-01-15, 02:00 UTC. *)
Definition january : Q := inject_Z 1705284000.

End RegistryScenario.

(** ** [modules/tape_drive.py] *)

Module TapeDrive.

Inductive TapeStatus : Type :=
| READY | BUSY | OFFLINE | CLEANING_REQUIRED | ERROR | UNKNOWN.

(** How one [subprocess.run] ends. *)
Inductive run_outcome : Type :=
| Exited (returncode : Z) (stdout stderr : pystr)
| TimeoutExpired
| RunError.

(** What the command runner does to the outside, in order. *)
Inductive effect : Type :=
| Ran (attempt : nat)
| Slept (seconds : Z).

(** The text returned next to the success flag. *)
Inductive mt_output : Type :=
| Stdout (text : pystr)
| Stderr (text : pystr)
| TimeoutText (command : pystr)
| ErrorText
| RetriesExceeded.

Record drive : Type := { device : pystr; max_retries : nat }.

(** [TapeDrive(device_path)] *)
Definition new_drive (device_path : pystr) : drive :=
  {| device := device_path; max_retries := 3 |}.

(** The loop of [_execute_mt_command] from [attempt] on, with [remaining]
    rounds left; [respond] tells how each run ends. *)
Fixpoint attempts (self : drive) (command : pystr) (retry_on_error : bool)
    (respond : nat -> run_outcome) (attempt remaining : nat)
  : bool * mt_output * list effect :=
  match remaining with
  | O => (false, RetriesExceeded, [])
  | S k =>
      match respond attempt with
      | Exited returncode stdout stderr =>
          if returncode =? 0 then (true, Stdout stdout, [Ran attempt])
          else if (Z.of_nat attempt <? Z.of_nat (max_retries self) - 1)
                  && retry_on_error
          then let '(ok, out, trace) :=
                 attempts self command retry_on_error respond (S attempt) k in
               (ok, out, Ran attempt :: Slept 2 :: trace)
          else (false, Stderr (strip stderr), [Ran attempt])
      | TimeoutExpired => (false, TimeoutText command, [Ran attempt])
      | RunError => (false, ErrorText, [Ran attempt])
      end
  end.

Definition _execute_mt_command (self : drive) (command : pystr)
    (retry_on_error : bool) (respond : nat -> run_outcome)
  : bool * mt_output * list effect :=
  attempts self command retry_on_error respond 0
           (if retry_on_error then max_retries self else 1%nat).

(** The fields of [TapeInfo] that the status query decides; the
    descriptive ones (vendor, product, revision, serial, density, block
    size) are left out. *)
Record TapeInfo : Type := {
  info_device : pystr;
  status : TapeStatus;
  file_number : Z;
  block_number : Z;
  is_write_protected : bool;
  cleaning_required : bool;
  last_error : option mt_output
}.

Fixpoint take_digits (s : pystr) : list Z :=
  match s with
  | c :: t => if isdigit c then digit_value c :: take_digits t else []
  | [] => []
  end.

(** [re.search(key + "([0-9]+)", text)], as the integer of the group. *)
Fixpoint search_number (key text : pystr) : option Z :=
  let here :=
    if startswith text key
    then match take_digits (skipn (List.length key) text) with
         | [] => None
         | ds => Some (digits_value ds)
         end
    else None in
  match here with
  | Some z => Some z
  | None =>
      match text with
      | [] => None
      | _ :: t => search_number key t
      end
  end.

Definition or_zero (o : option Z) : Z :=
  match o with
  | Some z => z
  | None => 0
  end.

(** [get_status]: the [mt status] command goes through the runner with
    its default, retrying, setting; [tapeinfo] is run once. *)
Definition get_status (self : drive) (respond : nat -> run_outcome)
    (tapeinfo : run_outcome) : TapeInfo * list effect :=
  let '(success, output, trace) :=
    _execute_mt_command self (str "status") true respond in
  match success, output with
  | true, Stdout text =>
      let base := if contains (str "ONLINE") text then READY
                  else if contains (str "DR_OPEN") text
                          || contains (str "OFFLINE") text then OFFLINE
                  else UNKNOWN in
      let cleaning :=
        match tapeinfo with
        | Exited 0 out _ => contains (str "Cleaning bit: yes") out
        | _ => false
        end in
      ({| info_device := device self;
          status := if cleaning then CLEANING_REQUIRED else base;
          file_number := or_zero (search_number (str "file number=") text);
          block_number := or_zero (search_number (str "block number=") text);
          is_write_protected :=
            contains (str "WRITE PROTECT") text && contains (str "ON") text;
          cleaning_required := cleaning;
          last_error := None |}, trace)
  | _, _ =>
      ({| info_device := device self;
          status := ERROR;
          file_number := 0;
          block_number := 0;
          is_write_protected := false;
          cleaning_required := false;
          last_error := Some output |}, trace)
  end.

(** The runs of the command in a trace. *)
Definition runs (trace : list effect) : nat :=
  List.length (filter (fun e => match e with Ran _ => true | _ => false end) trace).

Inductive readiness : Type :=
| DriveOffline
| DriveError (last : option mt_output)
| NeedsCleaning
| WriteProtected
| ReadyToWrite.

Definition is_ready_for_write (self : drive) (respond : nat -> run_outcome)
    (tapeinfo : run_outcome) : bool * readiness :=
  let info := fst (get_status self respond tapeinfo) in
  match status info with
  | OFFLINE => (false, DriveOffline)
  | ERROR => (false, DriveError (last_error info))
  | _ =>
      if cleaning_required info then (false, NeedsCleaning)
      else if is_write_protected info then (false, WriteProtected)
      else (true, ReadyToWrite)
  end.

End TapeDrive.

(** ** Tape scenarios *)

Module TapeScenario.

Import TapeDrive.

Definition nst0 : drive := new_drive (str "/dev/nst0").

Definition io_error : run_outcome :=
  Exited 2 [] (str "mt: /dev/nst0: Input/output error").

Definition online_at_file_3 : run_outcome :=
  Exited 0 (str "SCSI 2 tape drive: file number=3 block number=0 General status bits on (41010000): BOT ONLINE IM_REP_EN")
         [].

Definition no_tapeinfo : run_outcome := RunError.

(** A drive that fails every status command. *)
Definition always_failing (attempt : nat) : run_outcome := io_error.

(** A drive whose first status command fails and whose next ones work. *)
Definition failing_once (attempt : nat) : run_outcome :=
  match attempt with
  | O => io_error
  | S _ => online_at_file_3
  end.

(** A drive that does not answer. *)
Definition hanging (attempt : nat) : run_outcome := TimeoutExpired.

(** A drive that answers at once. *)
Definition healthy (attempt : nat) : run_outcome := online_at_file_3.

End TapeScenario.

(** ** [modules/backup_job.py] *)

Module BackupJob.

Import TapeDrive MBufferOptimizer.

Inductive JobStatus : Type :=
| PENDING | RUNNING | PAUSED | COMPLETED | FAILED | CANCELLED.

Inductive JobType : Type := BACKUP | RESTORE | VERIFY | CLEAN.


(** What the error message of a result reports. *)
Inductive failure : Type :=
| MissingParameters
| SourceNotFound
| SystemNotReady
| TapeNotReady (why : readiness)
| PipelineFailed (returncode : Z) (tail : list pystr)
| BackupException
| CleanException
| CriticalError.

(** [JobResult], without the job id, the times and the free-form details. *)
Record JobResult : Type := {
  result_type : JobType;
  result_status : JobStatus;
  error_message : option failure;
  tapes_used : list pystr;
  manifest_path : pystr;
  registry_entry : option Registry.entry
}.

Definition failed_result (t : JobType) (why : failure) : JobResult :=
  {| result_type := t; result_status := FAILED; error_message := Some why;
     tapes_used := []; manifest_path := []; registry_entry := None |}.

Definition completed_result (t : JobType) : JobResult :=
  {| result_type := t; result_status := COMPLETED; error_message := None;
     tapes_used := []; manifest_path := []; registry_entry := None |}.

(** The fields of a job that its worker and its canceller write. *)
Record job : Type := {
  job_type : JobType;
  status : JobStatus;
  cancellation_event : bool;
  result : option JobResult
}.

(** [BackupJob(job_id, job_type)] *)
Definition new_job (t : JobType) : job :=
  {| job_type := t; status := PENDING; cancellation_event := false;
     result := None |}.

Definition set_status (j : job) (s : JobStatus) : job :=
  {| job_type := job_type j; status := s;
     cancellation_event := cancellation_event j; result := result j |}.

Definition set_result (j : job) (r : JobResult) : job :=
  {| job_type := job_type j; status := status j;
     cancellation_event := cancellation_event j; result := Some r |}.

(** [cancel] *)
Definition cancel (j : job) : job :=
  match status j with
  | RUNNING | PAUSED =>
      {| job_type := job_type j; status := CANCELLED;
         cancellation_event := true; result := result j |}
  | _ => j
  end.

(** [pause] and [resume] *)
Definition pause (j : job) : job :=
  match status j with
  | RUNNING => set_status j PAUSED
  | _ => j
  end.

Definition resume (j : job) : job :=
  match status j with
  | PAUSED => set_status j RUNNING
  | _ => j
  end.

(** The keyword arguments of [start]. *)
Record params : Type := {
  source : option pystr;
  label : option pystr;
  destination : option pystr
}.

(** [not value] for an optional text. *)
Definition missing (v : option pystr) : bool :=
  match v with
  | Some (_ :: _) => false
  | _ => true
  end.

Definition text_of (v : option pystr) : pystr :=
  match v with
  | Some s => s
  | None => []
  end.

(** What lies outside the job while it runs. *)
Record world : Type := {
  source_exists : bool;
  (** the samples taken by the readiness check and by the planner *)
  system_at_check : system_state;
  system_at_planning : system_state;
  (** the drive, before the pipeline and after it *)
  tape : drive;
  status_before : nat -> run_outcome;
  tapeinfo_before : run_outcome;
  status_after : nat -> run_outcome;
  tapeinfo_after : run_outcome;
  (** the manifest directory can be made, and the pipeline started *)
  makedirs_ok : bool;
  popen_ok : bool;
  configured_size : pystr;
  manifest_dir : pystr;
  manifest_stamp : pystr;
  (** the lines of the pipeline, its exit code when left alone, and its
      exit code when terminated *)
  output : list pystr;
  returncode : Z;
  returncode_terminated : Z;
  (** the formatted time of the registry entry *)
  entry_time : pystr
}.

(** When the manager's [cancel] lands: before the check of the given
    round of the monitoring loop, or, when the worker never gets to that
    round, just before it records the outcome. *)
Definition cancel_time : Type := option nat.

Definition lands (c : cancel_time) (round : nat) : bool :=
  match c with
  | Some k => Nat.eqb k round
  | None => false
  end.

(** [_check_system_readiness]; the logging that follows the checks is
    taken not to fail. *)
Definition _check_system_readiness (w : world) : bool :=
  match check_all_resources default_monitor (system_at_check w) with
  | Ok r =>
      match fst (fst (res_memory r)), res_disk r with
      | SystemMonitor.CRITICAL, _ | _, SystemMonitor.CRITICAL => false
      | _, _ => true
      end
  | Raise _ => false
  end.

(** The monitoring loop: one round per line read.  It gives the job as
    the loop leaves it, whether the pipeline was terminated, and the lines
    kept. *)
Fixpoint monitor (j : job) (c : cancel_time) (round : nat) (lines : list pystr)
  : job * bool * list pystr :=
  match lines with
  | [] => (j, false, [])
  | line :: rest =>
      let j := if lands c round then cancel j else j in
      if cancellation_event j then (j, true, [])
      else
        let '(j', terminated, kept) := monitor j c (S round) rest in
        let line := strip line in
        (j', terminated, match line with
                         | [] => kept
                         | _ :: _ => line :: kept
                         end)
  end.

(** A cancel that has not landed when the work is over lands before
    the worker records the outcome. *)
Definition late_cancel (j : job) (c : cancel_time) : job :=
  match c with
  | Some _ => if cancellation_event j then j else cancel j
  | None => j
  end.

(** [l[-n:]] *)
Definition last_n (n : nat) (l : list pystr) : list pystr :=
  skipn (List.length l - n) l.

(** [os.path.join] of a directory and a relative file name. *)
Definition path_join (dir file : pystr) : pystr :=
  match dir with
  | [] => file
  | _ :: _ => if endswith dir (str "/") then dir ++ file
              else dir ++ str "/" ++ file
  end.

(** [_execute_backup]: the job as the call leaves it, its result ([None]
    when an exception escapes), and whether the pipeline was terminated. *)
Definition _execute_backup (j : job) (p : params) (w : world) (c : cancel_time)
  : job * option JobResult * bool :=
  if missing (source p) || missing (label p) then
    (j, Some (failed_result (job_type j) MissingParameters), false)
  else if negb (source_exists w) then
    (j, Some (failed_result (job_type j) SourceNotFound), false)
  else if negb (_check_system_readiness w) then
    (j, Some (failed_result (job_type j) SystemNotReady), false)
  else
    let (ready, why) := is_ready_for_write (tape w) (status_before w)
                                           (tapeinfo_before w) in
    if negb ready then
      (j, Some (failed_result (job_type j) (TapeNotReady why)), false)
    else if negb (makedirs_ok w) then (j, None, false)
    else
      let path := path_join (manifest_dir w)
                            (manifest_stamp w ++ str "_" ++ text_of (label p)
                             ++ str ".txt") in
      match get_optimal_mbuffer_params (Some (configured_size w))
              (Some default_monitor) (system_at_planning w) with
      | Raise _ => (j, Some (failed_result (job_type j) BackupException), false)
      | Ok _ =>
          if negb (popen_ok w) then
            (j, Some (failed_result (job_type j) BackupException), false)
          else
            let '(j2, terminated, lines) := monitor j c 0 (output w) in
            let code := if terminated then returncode_terminated w
                        else returncode w in
            if negb (code =? 0) then
              (j2, Some (failed_result (job_type j)
                           (PipelineFailed code (last_n 10 lines))), terminated)
            else
              let tape_info := fst (get_status (tape w) (status_after w)
                                               (tapeinfo_after w)) in
              let entry :=
                {| Registry.timestamp := entry_time w;
                   Registry.label := text_of (label p);
                   Registry.tapes := str "[N/A]";
                   Registry.file_index :=
                     Format.decimal_digits (file_number tape_info);
                   Registry.manifest := path |} in
              (j2, Some {| result_type := job_type j;
                           result_status := COMPLETED;
                           error_message := None;
                           tapes_used := [];
                           manifest_path := path;
                           registry_entry := Some entry |}, terminated)
      end.

Definition _execute_restore (j : job) (p : params) : JobResult :=
  if missing (destination p) || missing (label p)
  then failed_result (job_type j) MissingParameters
  else completed_result (job_type j).

Definition _execute_verify (j : job) (p : params) : JobResult :=
  if missing (label p) then failed_result (job_type j) MissingParameters
  else completed_result (job_type j).

(** [_execute_clean]: both branches complete. *)
Definition _execute_clean (j : job) (w : world) : JobResult :=
  let tape_info := fst (get_status (tape w) (status_before w)
                                   (tapeinfo_before w)) in
  if negb (cleaning_required tape_info) then completed_result (job_type j)
  else completed_result (job_type j).

(** [_execute_task], the body of the worker thread. *)
Definition _execute_task (j : job) (p : params) (w : world) (c : cancel_time)
  : job * bool :=
  let j := set_status j RUNNING in
  let '(j, outcome, terminated) :=
    match job_type j with
    | BACKUP => _execute_backup j p w c
    | RESTORE => (j, Some (_execute_restore j p), false)
    | VERIFY => (j, Some (_execute_verify j p), false)
    | CLEAN => (j, Some (_execute_clean j w), false)
    end in
  let j := late_cancel j c in
  match outcome with
  | Some r =>
      let j := set_result j r in
      (match result_status r with
       | COMPLETED => set_status j COMPLETED
       | _ => set_status j FAILED
       end, terminated)
  | None =>
      (set_status (set_result j (failed_result (job_type j) CriticalError)) FAILED,
       terminated)
  end.

(** [start] followed by the worker running to its end; a job that is not
    pending is left as it is. *)
Definition run (j : job) (p : params) (w : world) (c : cancel_time) : job * bool :=
  match status j with
  | PENDING =>
      _execute_task
        {| job_type := job_type j; status := status j;
           cancellation_event := false; result := result j |} p w c
  | _ => (j, false)
  end.

(** The registry entries that a job has produced. *)
Definition entries_produced (j : job) : nat :=
  match result j with
  | Some r => match registry_entry r with
              | Some _ => 1
              | None => 0
              end
  | None => 0
  end.



End BackupJob.

(** ** [core/backup_engine.py] with [core/registry_manager.py] *)

Module BackupEngine.






End BackupEngine.

(** ** Job scenarios *)

Module JobScenario.

Import TapeDrive BackupJob TapeScenario.

Definition gib : Z := 1024 * 1024 * 1024.

(** A machine with memory to spare, a healthy drive loaded at file 3, and
    a pipeline that lists three files; terminated, the pipeline exits with
    the code of the signal. *)
Definition calm : world :=
  {| source_exists := true;
     system_at_check := Scenario.machine (16 * gib) (8 * gib);
     system_at_planning := Scenario.machine (16 * gib) (8 * gib);
     tape := nst0;
     status_before := healthy;
     tapeinfo_before := no_tapeinfo;
     status_after := healthy;
     tapeinfo_after := no_tapeinfo;
     makedirs_ok := true;
     popen_ok := true;
     configured_size := str "2G";
     manifest_dir := str "./manifests";
     manifest_stamp := str "20240602_1200";
     output := [str "./a"; str "./b"; str "./c"];
     returncode := 0;
     returncode_terminated := -15;
     entry_time := str "2024-06-02 12:05:00" |}.

Definition backup_of_data : params :=
  {| source := Some (str "/data"); label := Some (str "Weekly_001");
     destination := None |}.

Definition restore_of_weekly : params :=
  {| source := None; label := Some (str "Weekly_001");
     destination := Some (str "/restore") |}.

End JobScenario.

(** * Further parts of the program *)

(** ** Sizes written in digits *)

Module SizeText.

(** A text of decimal digits, at least one. *)
Definition digits (s : pystr) : Prop :=
  s <> [] /\ Forall (fun c => isdigit c = true) s.

(** The number that a text of digits writes. *)
Definition number_of (s : pystr) : Z := digits_value (map digit_value s).

(** The suffix letters, in either case, with their multipliers. *)
Definition suffix_letters : list (ascii * Z) :=
  [ ("k"%char, 1024); ("K"%char, 1024);
    ("m"%char, 1024 * 1024); ("M"%char, 1024 * 1024);
    ("g"%char, 1024 * 1024 * 1024); ("G"%char, 1024 * 1024 * 1024);
    ("t"%char, 1024 * 1024 * 1024 * 1024);
    ("T"%char, 1024 * 1024 * 1024 * 1024) ].

(** The units of [_format_bytes], in its order. *)
Definition unit_names : list pystr :=
  [str "B"; str "KB"; str "MB"; str "GB"; str "TB"].

End SizeText.

(** ** Checking the registry and rebuilding it from the manifests *)

Module RegistryRecovery.

Import Registry.

(** What [verify_registry] reports; the wording of the messages is left
    out, the values formatted into them are kept. *)
Inductive report : Type :=
| NoRegistryFile
| TooFewFields (line_num : nat) (count : nat)
| ManifestNotFound (line_num : nat) (manifest_file : pystr)
| EmptyLabel (line_num : nat)
| BadFileIndex (line_num : nat) (text : pystr)
| ReadingFailed (e : pyexn)
| VerifiedOk.

(** The body of the loop of [verify_registry] for one line: the issues it
    appends. *)
Definition check_line (path_exists : pystr -> bool) (line_num : nat)
    (line : pystr) : pyres (list report) :=
  let line := strip line in
  match line with
  | [] => Ok []
  | _ :: _ =>
      let parts := split ";"%char line in
      match parts with
      | _ :: label :: _ :: index :: p4 :: _ =>
          let manifest_file := strip p4 in
          let missing := if path_exists manifest_file then []
                         else [ManifestNotFound line_num manifest_file] in
          let unnamed := if nonempty label then [] else [EmptyLabel line_num] in
          match py_int index with
          | Ok _ => Ok (missing ++ unnamed)
          | Raise ValueError =>
              Ok (missing ++ unnamed ++ [BadFileIndex line_num index])
          | Raise e => Raise e
          end
      | _ => Ok [TooFewFields line_num (List.length parts)]
      end
  end.

Fixpoint check_lines (path_exists : pystr -> bool) (line_num : nat)
    (lines : list pystr) : pyres (list report) :=
  match lines with
  | [] => Ok []
  | line :: rest =>
      here <- check_line path_exists line_num line ;;
      later <- check_lines path_exists (S line_num) rest ;;
      Ok (here ++ later)
  end.

(** [verify_registry], with the reader of the files and [os.path.exists]
    given for the manifests. *)
Definition verify_registry (read_file : bytes -> pyres pystr)
    (path_exists : pystr -> bool) (st : store) : bool * list report :=
  match registry_file st with
  | None => (false, [NoRegistryFile])
  | Some content =>
      match (lines <- read_lines read_file content ;;
             check_lines path_exists 1 lines) with
      | Ok [] => (true, [VerifiedOk])
      | Ok issues => (false, issues)
      | Raise e => (false, [ReadingFailed e])
      end
  end.

Definition underscore : ascii := "_"%char.

(** [filename[:-4]] *)
Definition without_ext (filename : pystr) : pystr :=
  firstn (List.length filename - 4) filename.

(** The date and the label that a manifest's file name
    [<date>_<time>_<label>.txt] carries, as [rebuild_registry_from_manifests]
    and [ManifestProcessor.read_manifest] read them. *)
Definition manifest_label (filename : pystr) : option (pystr * pystr) :=
  if contains (str "_") filename && endswith filename (str ".txt") then
    match split "_"%char (without_ext filename) with
    | p0 :: p1 :: ((_ :: _) as rest) =>
        Some (p0 ++ str "_" ++ p1, join (str "_") rest)
    | _ => None
    end
  else None.

(** A manifest found by the [*.txt] pattern: its name and its full path. *)
Record manifest_file : Type := { file_name : pystr; file_path : pystr }.

(** The entries gathered by the loop over the manifests; [clock] is the
    formatted time read while the file of a given position is handled. *)
Fixpoint gather (clock : nat -> pystr) (position : nat)
    (files : list manifest_file) : list entry :=
  match files with
  | [] => []
  | f :: rest =>
      match manifest_label (file_name f) with
      | Some (_, lbl) =>
          {| timestamp := clock position; label := lbl; tapes := str "[N/A]";
             file_index := str "0"; manifest := file_path f |}
          :: gather clock (S position) rest
      | None => gather clock (S position) rest
      end
  end.

(** The text of the registry written from the entries. *)
Definition registry_text (entries : list entry) : pystr :=
  List.concat (map (fun e => format_entry e ++ newline) entries).

(** [rebuild_registry_from_manifests]: the store afterwards, the copy of
    the old registry kept beside it (the suffix of its name and its
    bytes), and the value returned.  [manifests] is [None] when the
    directory does not exist. *)
Definition rebuild_registry_from_manifests
    (manifests : option (list manifest_file)) (clock : nat -> pystr)
    (stamp : pystr) (st : store)
  : store * option (pystr * bytes) * bool :=
  match manifests with
  | None => (st, None, false)
  | Some [] => (st, None, false)
  | Some files =>
      match gather clock 0 files with
      | [] => (st, None, false)
      | entries =>
          ({| registry_file := Some (utf8 (registry_text entries));
              snapshots := snapshots st |},
           match registry_file st with
           | Some content => Some (str ".bak." ++ stamp, content)
           | None => None
           end,
           true)
      end
  end.

(** The name a job gives the manifest of a backup:
    [f"{stamp}_{label}.txt"], the stamp being the day and the time of the
    start, joined by an underscore. *)
Definition manifest_name (stamp lbl : pystr) : pystr :=
  stamp ++ str "_" ++ lbl ++ str ".txt".

End RegistryRecovery.

(** ** Positioning the tape *)

Module TapePositioning.

Import TapeDrive.

(** One call of the command runner: the command, its arguments, and what
    the runner did for it. *)
Record call : Type := {
  command : pystr;
  args : pystr;
  did : list effect
}.

(** [rewind] *)
Definition rewind (self : drive) (respond : nat -> run_outcome)
  : bool * list call :=
  let '(success, _, trace) :=
    _execute_mt_command self (str "rewind") true respond in
  (success, [{| command := str "rewind"; args := []; did := trace |}]).

(** [forward_space_file] *)
Definition forward_space_file (self : drive) (count : Z)
    (respond : nat -> run_outcome) : bool * list call :=
  if count <=? 0 then (true, [])
  else
    let '(success, _, trace) :=
      _execute_mt_command self (str "fsf") true respond in
    (success, [{| command := str "fsf"; args := Format.decimal_digits count;
                  did := trace |}]).

(** [seek_to_file]; the drive answers the rewind by [on_rewind] and the
    forward spacing by [on_fsf]. *)
Definition seek_to_file (self : drive) (file_number : Z)
    (on_rewind on_fsf : nat -> run_outcome) : bool * list call :=
  let (rewound, calls) := rewind self on_rewind in
  if negb rewound then (false, calls)
  else if 0 <? file_number then
    let (spaced, more) := forward_space_file self file_number on_fsf in
    (spaced, calls ++ more)
  else (true, calls).

(** The commands of a list of calls, with their arguments. *)
Definition issued (calls : list call) : list (pystr * pystr) :=
  map (fun c => (command c, args c)) calls.

End TapePositioning.

(** ** Further scenarios *)

Module MoreScenarios.

Import TapeDrive BackupJob TapeScenario JobScenario.


(** The entry and the result that the backup of the job scenarios leaves
    on the calm machine. *)
Definition weekly_001 : Registry.entry :=
  {| Registry.timestamp := str "2024-06-02 12:05:00";
     Registry.label := str "Weekly_001";
     Registry.tapes := str "[N/A]";
     Registry.file_index := str "3";
     Registry.manifest := str "./manifests/20240602_1200_Weekly_001.txt" |}.

Definition weekly_001_result : JobResult :=
  {| result_type := BACKUP;
     result_status := COMPLETED;
     error_message := None;
     tapes_used := [];
     manifest_path := str "./manifests/20240602_1200_Weekly_001.txt";
     registry_entry := Some weekly_001 |}.

End MoreScenarios.

(** ** The manifest names of the backup engine *)

Module EngineManifest.

(** [str.isalnum] on one character (code points below 256): the digits
    and letters of ASCII, the superscript digits, the fractions, the
    ordinal indicators, the micro sign and the letters above 191. *)
Definition isalnum (c : ascii) : bool :=
  let n := code c in
  ((48 <=? n) && (n <=? 57)) || ((65 <=? n) && (n <=? 90))
  || ((97 <=? n) && (n <=? 122))
  || (n =? 170) || (n =? 178) || (n =? 179) || (n =? 181) || (n =? 185)
  || (n =? 186) || ((188 <=? n) && (n <=? 190))
  || ((192 <=? n) && (n <=? 214)) || ((216 <=? n) && (n <=? 246))
  || ((248 <=? n) && (n <=? 255)).

(** A character that [create_manifest_path] lets into a file name. *)
Definition is_safe (c : ascii) : bool :=
  isalnum c || eqc c "_"%char || eqc c "-"%char.

(** ["".join(c for c in label if c.isalnum() or c in ('_', '-'))] *)
Definition safe_label (label : pystr) : pystr := filter is_safe label.

(** The file name under which [create_manifest_path] puts the manifest,
    the directory left aside: [f"{timestamp}_{safe_label}.txt"]. *)
Definition manifest_file_name (timestamp label : pystr) : pystr :=
  timestamp ++ str "_" ++ safe_label label ++ str ".txt".

End EngineManifest.

(** * Facts about the models *)

(** ** Rounding to binary64 *)

Module Float64Facts.

Lemma pow2_pos (e : Z) : (0 < pow2 e)%Q.
Proof.
  unfold pow2. destruct (0 <=? e) eqn:E.
  - unfold Qlt; simpl. pose proof (Z.pow_pos_nonneg 2 e). lia.
  - reflexivity.
Qed.

Lemma pow2_nonneg_exp (e : Z) : 0 <= e -> pow2 e = inject_Z (2 ^ e).
Proof. intros H. unfold pow2. destruct (Z.leb_spec 0 e); [reflexivity | lia]. Qed.

Lemma pow2_neg_exp (e : Z) : e < 0 -> pow2 e = 1 # Z.to_pos (2 ^ (- e)).
Proof. intros H. unfold pow2. destruct (Z.leb_spec 0 e); [lia | reflexivity]. Qed.

(** [p / d <= q] read on integers, for the two shapes of [pow2]. *)
Lemma pow2_le_frac (e n : Z) (d : positive) :
  Zpos d * 2 ^ Z.max 0 e <= n * 2 ^ Z.max 0 (- e) ->
  (pow2 e <= n # d)%Q.
Proof.
  intros H. destruct (Z_lt_le_dec e 0) as [Hn | Hp].
  - rewrite pow2_neg_exp by exact Hn.
    rewrite Z.max_l in H by lia. rewrite Z.max_r in H by lia.
    unfold Qle; simpl. rewrite Z2Pos.id by (apply Z.pow_pos_nonneg; lia). lia.
  - rewrite pow2_nonneg_exp by exact Hp.
    rewrite Z.max_r in H by lia. rewrite Z.max_l in H by lia.
    unfold Qle; simpl. lia.
Qed.

Lemma floor_log2_lower (n : Z) (d : positive) :
  0 < n ->
  let e := floor_log2 n d in
  Zpos d * 2 ^ Z.max 0 e <= n * 2 ^ Z.max 0 (- e).
Proof.
  intros Hn. unfold floor_log2.
  set (l := Z.log2 n - Z.log2 (Zpos d)).
  destruct (Z.ltb_spec (n * 2 ^ Z.max 0 (- l)) (Zpos d * 2 ^ Z.max 0 l)) as [Hlt | Hge];
    cbv zeta; [| lia].
  pose proof (Z.log2_spec n Hn) as [Hn1 _].
  pose proof (Z.log2_spec (Zpos d) (Pos2Z.is_pos d)) as [_ Hd2].
  pose proof (Z.log2_nonneg n) as Hln.
  pose proof (Z.log2_nonneg (Zpos d)) as Hld.
  destruct (Z_lt_le_dec (l - 1) 0) as [Hneg | Hpos].
  - rewrite Z.max_l by lia. rewrite Z.max_r by lia. rewrite Z.pow_0_r.
    assert (Hp : 2 ^ Z.log2 n * 2 ^ (- (l - 1)) = 2 ^ Z.succ (Z.log2 (Zpos d))).
    { rewrite <- Z.pow_add_r by lia. f_equal. unfold l. lia. }
    assert (0 < 2 ^ (- (l - 1))) by (apply Z.pow_pos_nonneg; lia).
    nia.
  - rewrite Z.max_r by lia. rewrite Z.max_l by lia. rewrite Z.pow_0_r.
    assert (Hp : 2 ^ Z.succ (Z.log2 (Zpos d)) * 2 ^ (l - 1) = 2 ^ Z.log2 n).
    { rewrite <- Z.pow_add_r by lia. f_equal. unfold l. lia. }
    assert (0 < 2 ^ (l - 1)) by (apply Z.pow_pos_nonneg; lia).
    nia.
Qed.

Lemma floor_log2_le (n : Z) (d : positive) :
  0 < n -> (pow2 (floor_log2 n d) <= n # d)%Q.
Proof. intros H. apply pow2_le_frac. apply floor_log2_lower. exact H. Qed.

Lemma pow2_mono (a b : Z) : a <= b -> (pow2 a <= pow2 b)%Q.
Proof.
  intros H. destruct (Z_lt_le_dec a 0) as [Ha | Ha];
    destruct (Z_lt_le_dec b 0) as [Hb | Hb].
  - rewrite !pow2_neg_exp by assumption. unfold Qle; simpl.
    rewrite !Z2Pos.id by (apply Z.pow_pos_nonneg; lia).
    apply Z.pow_le_mono_r; lia.
  - rewrite pow2_neg_exp by assumption. rewrite pow2_nonneg_exp by assumption.
    unfold Qle; simpl.
    assert (0 < 2 ^ b) by (apply Z.pow_pos_nonneg; lia). lia.
  - lia.
  - rewrite !pow2_nonneg_exp by assumption. unfold Qle; simpl.
    rewrite !Z.mul_1_r. apply Z.pow_le_mono_r; lia.
Qed.

Lemma pow2_add (a b : Z) : (pow2 (a + b) == pow2 a * pow2 b)%Q.
Proof.
  assert (P : forall e, (pow2 e == Qpower 2 e)%Q).
  { intros e. destruct (Z_lt_le_dec e 0) as [He | He].
    - rewrite pow2_neg_exp by exact He.
      destruct e as [| p | p]; try lia.
      change (- Z.neg p) with (Z.pos p).
      change (Qpower 2 (Z.neg p)) with (/ Qpower 2 (Z.pos p))%Q.
      rewrite <- (Zpower_Qpower 2 (Z.pos p)) by lia.
      assert (0 < 2 ^ Z.pos p) by (apply Z.pow_pos_nonneg; lia).
      destruct (2 ^ Z.pos p) eqn:E; try lia. reflexivity.
    - rewrite pow2_nonneg_exp by exact He.
      apply (Zpower_Qpower 2 e He). }
  rewrite !P. apply Qpower_plus. discriminate.
Qed.

Lemma rne_nonneg (num den : Z) : 0 <= num -> 0 < den -> 0 <= rne num den.
Proof.
  intros Hn Hd. unfold rne.
  pose proof (Z.div_pos num den Hn Hd).
  destruct (2 * (num mod den) ?= den); [destruct (Z.even _) | |]; lia.
Qed.

Lemma rne_upper (num den : Z) : 0 < den -> (rne num den - 1) * den <= num.
Proof.
  intros Hd. unfold rne.
  pose proof (Z.div_mod num den ltac:(lia)) as E.
  pose proof (Z.mod_pos_bound num den Hd) as B.
  destruct (2 * (num mod den) ?= den); [destruct (Z.even _) | |]; nia.
Qed.

(** A rounded value exceeds the exact one by less than one unit in the
    last place. *)
Lemma round_pos_above (n : Z) (d : positive) (r : Q) :
  0 < n -> round_pos n d = Some r ->
  (r <= (n # d) + pow2 (ulp_exp n d))%Q.
Proof.
  intros Hn. unfold round_pos.
  destruct (_ || _); [discriminate |]. intros [= <-].
  unfold significand. set (e := ulp_exp n d).
  pose proof (rne_upper (n * 2 ^ Z.max 0 (- e)) (Z.pos d * 2 ^ Z.max 0 e)) as U.
  set (m := rne _ _) in *.
  destruct (Z_lt_le_dec e 0) as [He | He].
  - rewrite pow2_neg_exp by exact He.
    rewrite (Z.max_l 0 e) in U by lia. rewrite (Z.max_r 0 (- e)) in U by lia.
    rewrite Z.pow_0_r in U.
    assert (P : 0 < 2 ^ (- e)) by (apply Z.pow_pos_nonneg; lia).
    specialize (U ltac:(lia)).
    unfold Qle, Qplus, Qmult; simpl.
    rewrite !Pos2Z.inj_mul, !Z2Pos.id by exact P. nia.
  - rewrite pow2_nonneg_exp by exact He.
    rewrite (Z.max_r 0 e) in U by lia. rewrite (Z.max_l 0 (- e)) in U by lia.
    rewrite Z.pow_0_r in U.
    assert (P : 0 < 2 ^ e) by (apply Z.pow_pos_nonneg; lia).
    specialize (U ltac:(nia)).
    unfold Qle, Qplus, Qmult; simpl. nia.
Qed.

Lemma round_pos_nonneg (n : Z) (d : positive) (r : Q) :
  0 < n -> round_pos n d = Some r -> (0 <= r)%Q.
Proof.
  intros Hn. unfold round_pos.
  destruct (_ || _); [discriminate |]. intros [= <-].
  apply Qmult_le_0_compat; [| apply Qlt_le_weak, pow2_pos].
  unfold significand. change 0%Q with (inject_Z 0). rewrite <- Zle_Qle.
  apply rne_nonneg.
  - apply Z.mul_nonneg_nonneg; [lia | apply Z.pow_nonneg; lia].
  - apply Z.mul_pos_pos; [lia | apply Z.pow_pos_nonneg; lia].
Qed.

(** The unit in the last place is at most [x * 2^-52], or the smallest
    subnormal. *)
Lemma ulp_bound (n : Z) (d : positive) :
  0 < n ->
  (pow2 (ulp_exp n d) <= (n # d) * pow2 (-52) + pow2 (-1074))%Q.
Proof.
  intros Hn. unfold ulp_exp.
  pose proof (floor_log2_le n d Hn) as L.
  pose proof (pow2_pos (-1074)) as P1.
  pose proof (pow2_pos (-52)) as P2.
  destruct (Z.max_spec (floor_log2 n d - 52) (-1074)) as [[_ ->] | [_ ->]].
  - assert (0 <= (n # d) * pow2 (-52))%Q.
    { apply Qmult_le_0_compat; [unfold Qle; simpl; lia | apply Qlt_le_weak, P2]. }
    revert H P1. generalize ((n # d) * pow2 (-52))%Q (pow2 (-1074)).
    clear; intros; lra.
  - replace (floor_log2 n d - 52) with (floor_log2 n d + -52) by lia.
    rewrite pow2_add.
    assert ((pow2 (floor_log2 n d)) * pow2 (-52) <= (n # d) * pow2 (-52))%Q.
    { apply Qmult_le_compat_r; [exact L | apply Qlt_le_weak, P2]. }
    revert H P1.
    generalize (pow2 (floor_log2 n d) * pow2 (-52))%Q
               ((n # d) * pow2 (-52))%Q (pow2 (-1074)).
    clear; intros; lra.
Qed.

(** Relative accuracy, from above. *)
Lemma round_pos_rel (n : Z) (d : positive) (r : Q) :
  0 < n -> round_pos n d = Some r ->
  (r <= (n # d) * (1 + pow2 (-52)) + pow2 (-1074))%Q.
Proof.
  intros Hn H.
  pose proof (round_pos_above n d r Hn H) as A.
  pose proof (ulp_bound n d Hn) as B.
  rewrite Qmult_plus_distr_r, Qmult_1_r.
  revert A B.
  generalize (pow2 (ulp_exp n d)) ((n # d) * pow2 (-52))%Q (pow2 (-1074))
             (n # d).
  clear; intros; lra.
Qed.

(** Below [2^1023] nothing overflows. *)
Lemma round_pos_finite (n : Z) (d : positive) :
  0 < n -> n < Zpos d * 2 ^ 1023 -> exists r, round_pos n d = Some r.
Proof.
  intros Hn Hlt. unfold round_pos.
  assert (E : ulp_exp n d < 971).
  { unfold ulp_exp.
    pose proof (floor_log2_lower n d Hn) as L. cbv zeta in L.
    set (e := floor_log2 n d) in *.
    destruct (Z_lt_le_dec e 1023) as [|Hbig]; [lia | exfalso].
    rewrite Z.max_r in L by lia. rewrite Z.max_l in L by lia.
    rewrite Z.pow_0_r in L.
    assert (2 ^ 1023 <= 2 ^ e) by (apply Z.pow_le_mono_r; lia).
    nia. }
  destruct (Z.ltb_spec 971 (ulp_exp n d)); [lia |].
  destruct (Z.eqb_spec (ulp_exp n d) 971); [lia |].
  simpl. eauto.
Qed.

Lemma round_cases (q : Q) :
  (0 <= q)%Q ->
  (Qnum q = 0 /\ round q = Fin 0)
  \/ (0 < Qnum q /\
      match round_pos (Qnum q) (Qden q) with
      | Some r => round q = Fin r
      | None => round q = Inf false
      end).
Proof.
  intros H. unfold round. destruct q as [[| p | p] d]; simpl.
  - left; auto.
  - right. split; [lia |]. destruct (round_pos _ _); reflexivity.
  - unfold Qle in H; simpl in H. lia.
Qed.

(** Rounding a non-negative rational below [2^1023]. *)
Lemma round_nonneg_spec (q : Q) :
  (0 <= q)%Q -> (q < inject_Z (2 ^ 1023))%Q ->
  exists r, round q = Fin r /\ (0 <= r)%Q
            /\ (r <= q * (1 + pow2 (-52)) + pow2 (-1074))%Q.
Proof.
  intros H0 Hlt. destruct (round_cases q H0) as [[Hz ->] | [Hp Hr]].
  - exists 0%Q. split; [reflexivity |]. split; [apply Qle_refl |].
    pose proof (pow2_pos (-1074)) as P1. pose proof (pow2_pos (-52)) as P2.
    assert (0 <= q * (1 + pow2 (-52)))%Q as P3.
    { apply Qmult_le_0_compat; [exact H0 |].
      revert P2; generalize (pow2 (-52)); clear; intros; lra. }
    revert P1 P3. generalize (q * (1 + pow2 (-52)))%Q (pow2 (-1074)).
    clear; intros; lra.
  - destruct (round_pos_finite (Qnum q) (Qden q) Hp) as [r Er].
    { unfold Qlt in Hlt; simpl in Hlt. lia. }
    rewrite Er in Hr. exists r. split; [exact Hr |]. split.
    + eapply round_pos_nonneg; eauto.
    + pose proof (round_pos_rel _ _ _ Hp Er) as R.
      destruct q as [qn qd]; exact R.
Qed.

Lemma trunc_le (q : Q) (z : Z) :
  (0 <= q)%Q -> (q < inject_Z (z + 1))%Q -> 0 <= trunc q <= z.
Proof.
  intros H0 Hlt. unfold trunc. destruct q as [n d]; simpl.
  unfold Qle in H0; simpl in H0. unfold Qlt in Hlt; simpl in Hlt.
  rewrite Z.quot_div_nonneg by lia.
  split; [apply Z.div_pos; lia |].
  apply Z.lt_succ_r. apply Z.div_lt_upper_bound; lia.
Qed.

End Float64Facts.

(** ** The memory check *)

Module MonitorFacts.

Import Float64Facts.

Lemma tiny_le_quarter : (pow2 (-1074) <= 1 # 4)%Q.
Proof. unfold Qle. vm_compute. discriminate. Qed.

Lemma eps_value : (pow2 (-52) == 1 # 4503599627370496)%Q.
Proof. vm_compute. reflexivity. Qed.

(** Converting a non-negative [int] below [2^1023] never raises, and the
    double obtained is at most a relative [2^-52] above it. *)
Lemma of_int_nonneg (z : Z) :
  0 <= z < LIMIT ->
  exists r, of_int z = Ok (Fin r) /\ (0 <= r)%Q
            /\ (r <= inject_Z z * (1 + (1 # 4503599627370496)) + (1 # 4))%Q.
Proof.
  intros [H0 H1]. unfold of_int.
  destruct (round_nonneg_spec (inject_Z z)) as (r & -> & R0 & R1).
  - change 0%Q with (inject_Z 0). rewrite <- Zle_Qle. exact H0.
  - rewrite <- Zlt_Qlt. exact H1.
  - exists r. split; [reflexivity |]. split; [exact R0 |].
    rewrite eps_value in R1. pose proof tiny_le_quarter as T.
    revert R1 T. generalize (pow2 (-1074)) (inject_Z z). clear. intros. lra.
Qed.

Lemma format_bytes_ok (z : Z) :
  0 <= z < LIMIT -> exists s, _format_bytes z = Ok s.
Proof.
  intros H. unfold _format_bytes.
  destruct (of_int_nonneg z H) as (r & -> & _). simpl.
  destruct (z <? 1024); eauto.
Qed.

Lemma int_truediv_ok (a b : Z) :
  0 <= a < LIMIT -> 0 < b -> exists r, int_truediv a b = Ok (Fin r).
Proof.
  intros [H0 H1] Hb. unfold int_truediv.
  destruct (Z.eqb_spec b 0); [lia |].
  destruct (round_nonneg_spec ((a * Z.sgn b) # Z.to_pos (Z.abs b))) as (r & -> & _).
  - unfold Qle; simpl. nia.
  - unfold Qlt. cbn [Qnum Qden inject_Z]. fold LIMIT.
    rewrite Z2Pos.id by lia. rewrite Z.sgn_pos by lia.
    assert (0 < LIMIT) by (apply Z.pow_pos_nonneg; lia). nia.
  - eauto.
Qed.

Lemma memory_usage_ratio_ok (metrics : ResourceMetrics) :
  0 <= memory_available metrics < LIMIT ->
  exists ratio, memory_usage_ratio metrics = Ok ratio.
Proof.
  intros H. unfold memory_usage_ratio.
  destruct (Z.ltb_spec 0 (memory_total metrics)) as [Ht | Ht]; [| eauto].
  destruct (int_truediv_ok _ _ H Ht) as (r & ->). simpl. eauto.
Qed.

Lemma lit_point_eight : lit (8 # 10) = Fin point_eight.
Proof. vm_compute. reflexivity. Qed.

(** [int(a * 0.8)] exists and does not exceed [a]. *)
Lemma scaled_by_point_eight (a : Z) :
  0 <= a < LIMIT ->
  exists z, (f <- int_mul a (lit (8 # 10)) ;; to_int f) = Ok z /\ 0 <= z <= a.
Proof.
  intros H. unfold int_mul.
  destruct (of_int_nonneg a H) as (r & -> & R0 & R1). unfold bind.
  rewrite lit_point_eight. unfold mul.
  assert (P0 : (0 <= r * point_eight)%Q).
  { apply Qmult_le_0_compat; [exact R0 | unfold Qle; vm_compute; discriminate]. }
  assert (P1 : (r * point_eight < inject_Z a + 1)%Q).
  { unfold point_eight. revert R0 R1. generalize (inject_Z a). clear. intros. lra. }
  destruct (round_nonneg_spec (r * point_eight)) as (r2 & -> & S0 & S1).
  - exact P0.
  - eapply Qlt_le_trans; [exact P1 |].
    change 1%Q with (inject_Z 1). rewrite <- inject_Z_plus. rewrite <- Zle_Qle.
    fold LIMIT. lia.
  - exists (trunc r2). split; [reflexivity |].
    apply trunc_le; [exact S0 |].
    rewrite inject_Z_plus. change (inject_Z 1) with 1%Q.
    rewrite eps_value in S1. pose proof tiny_le_quarter as T.
    assert (A0 : (0 <= inject_Z a)%Q).
    { change 0%Q with (inject_Z 0). rewrite <- Zle_Qle. lia. }
    unfold point_eight in *.
    revert R0 R1 S1 T A0. generalize (pow2 (-1074)) (inject_Z a). clear.
    intros. lra.
Qed.

Lemma reduced_size_spec (a : Z) :
  0 <= a < LIMIT ->
  exists z, (f <- int_mul a (lit (8 # 10)) ;; to_int f) = Ok z /\ 0 <= z <= a
            /\ reduced_size a = Ok (Z.max MIN_MEMORY_FOR_MBUFFER z).
Proof.
  intros H. destruct (scaled_by_point_eight a H) as (z & E & B).
  exists z. split; [exact E |]. split; [exact B |].
  unfold reduced_size. destruct (int_mul a (lit (8 # 10))) as [f |]; [| discriminate].
  simpl in *. rewrite E. reflexivity.
Qed.

Lemma MIN_lt_LIMIT : MIN_MEMORY_FOR_MBUFFER < LIMIT.
Proof. vm_compute. reflexivity. Qed.

(** C8.  Whenever the sampled available memory is below the 512 MiB floor
    the memory check answers CRITICAL (with a recommendation of zero),
    whatever size was requested and whatever the rest of the sample is. *)
Theorem below_floor_is_critical (self : monitor) (metrics : ResourceMetrics) :
  0 <= memory_available metrics < MIN_MEMORY_FOR_MBUFFER ->
  exists msg, check_memory_for_mbuffer self metrics = Ok (CRITICAL, msg, 0).
Proof.
  intros H. pose proof MIN_lt_LIMIT as L.
  unfold check_memory_for_mbuffer.
  destruct (memory_usage_ratio_ok metrics) as (ratio & ->); [lia |].
  unfold bind at 1.
  destruct (Z.ltb_spec (memory_available metrics) MIN_MEMORY_FOR_MBUFFER); [| lia].
  destruct (format_bytes_ok (memory_available metrics)) as (a & ->); [lia |].
  destruct (format_bytes_ok MIN_MEMORY_FOR_MBUFFER) as (b & ->).
  { split; [vm_compute; discriminate | exact L]. }
  unfold bind. eauto.
Qed.

Lemma below_floor_is_critical_witness :
  exists msg,
    check_memory_for_mbuffer {| mbuffer_size := 2147483648 |}
      (Scenario.snapshot 8589934592 268435456) = Ok (CRITICAL, msg, 0).
Proof.
  apply below_floor_is_critical. vm_compute. split; [discriminate | reflexivity].
Defined.

(** C2, as the code has it.  For a requested size of at least the 512 MiB
    floor the check returns, and its recommendation is at most the
    request.  When the monitor reduces the buffer (the sample is not below
    the floor and what is left above the floor is less than the request)
    the recommendation is [max(floor, int(0.8 * (available - floor)))],
    which for such a request is also the minimum of that and the
    request. *)
Theorem recommended_at_most_requested (self : monitor) (metrics : ResourceMetrics) :
  0 <= memory_available metrics < LIMIT ->
  MIN_MEMORY_FOR_MBUFFER <= mbuffer_size self < LIMIT ->
  exists status msg recommended,
    check_memory_for_mbuffer self metrics = Ok (status, msg, recommended)
    /\ recommended <= mbuffer_size self
    /\ (MIN_MEMORY_FOR_MBUFFER <= memory_available metrics ->
        memory_available metrics - MIN_MEMORY_FOR_MBUFFER < mbuffer_size self ->
        exists z,
          (f <- int_mul (memory_available metrics - MIN_MEMORY_FOR_MBUFFER)
                        (lit (8 # 10)) ;; to_int f) = Ok z
          /\ 0 <= z <= memory_available metrics - MIN_MEMORY_FOR_MBUFFER
          /\ recommended = Z.max MIN_MEMORY_FOR_MBUFFER z
          /\ recommended = Z.min (mbuffer_size self)
                                 (Z.max MIN_MEMORY_FOR_MBUFFER z)).
Proof.
  intros Ha Hr. pose proof MIN_lt_LIMIT as L.
  assert (M0 : 0 < MIN_MEMORY_FOR_MBUFFER) by (vm_compute; reflexivity).
  unfold check_memory_for_mbuffer.
  destruct (memory_usage_ratio_ok metrics Ha) as (ratio & ->).
  unfold bind at 1.
  destruct (Z.ltb_spec (memory_available metrics) MIN_MEMORY_FOR_MBUFFER) as [Hlow | Hhigh].
  - destruct (format_bytes_ok (memory_available metrics) Ha) as (a & ->).
    destruct (format_bytes_ok MIN_MEMORY_FOR_MBUFFER) as (b & ->); [lia |].
    unfold bind. do 3 eexists. split; [reflexivity |]. split; lia.
  - set (am := memory_available metrics - MIN_MEMORY_FOR_MBUFFER) in *.
    assert (Ham : 0 <= am < LIMIT) by (unfold am; lia).
    destruct (format_bytes_ok am Ham) as (a & Ea).
    destruct (Z.ltb_spec am (mbuffer_size self)) as [Hred | Hfit].
    + destruct (reduced_size_spec am Ham) as (z & Ez & Bz & ->).
      unfold bind at 1. rewrite Ea. unfold bind at 1.
      destruct (format_bytes_ok (mbuffer_size self)) as (b & ->); [lia |].
      unfold bind at 1.
      destruct (format_bytes_ok (Z.max MIN_MEMORY_FOR_MBUFFER z)) as (c & ->); [lia |].
      unfold bind at 1.
      do 3 eexists. split; [reflexivity |]. split; [lia |].
      intros _ _. exists z. split; [exact Ez |]. split; [exact Bz |]. split; lia.
    + rewrite Ea. unfold bind.
      destruct (gtb ratio CRITICAL_MEMORY_THRESHOLD);
        [| destruct (gtb ratio WARNING_MEMORY_THRESHOLD)];
        (do 3 eexists; split; [reflexivity |]; split; [lia |]; intros; lia).
Qed.

Lemma recommended_at_most_requested_witness :
  exists status msg recommended,
    check_memory_for_mbuffer {| mbuffer_size := 2147483648 |}
      (Scenario.snapshot 8589934592 1073741824) = Ok (status, msg, recommended)
    /\ recommended <= 2147483648.
Proof.
  destruct (recommended_at_most_requested {| mbuffer_size := 2147483648 |}
              (Scenario.snapshot 8589934592 1073741824))
    as (status & msg & recommended & E & B & _).
  - vm_compute. split; [discriminate | reflexivity].
  - vm_compute. split; [discriminate | reflexivity].
  - exists status, msg, recommended. split; [exact E | exact B].
Defined.

(** C2 as stated fails.  A request of 100 MiB with 600 MiB available is
    answered with the 512 MiB floor, more than was asked for; and with
    2 GiB requested and 2 GiB available the recommendation is 0.8 of what
    lies above the floor (1288490188), not 0.8 of the available memory
    capped by the request (1717986918). *)
Lemma recommended_can_exceed_requested :
  (exists status msg,
      check_memory_for_mbuffer {| mbuffer_size := 104857600 |}
        (Scenario.snapshot 8589934592 629145600)
      = Ok (status, msg, 536870912)
      /\ 104857600 < 536870912)
  /\ (exists status msg,
         check_memory_for_mbuffer {| mbuffer_size := 2147483648 |}
           (Scenario.snapshot 8589934592 2147483648)
         = Ok (status, msg, 1288490188)
         /\ 1288490188
            <> Z.min 2147483648 (Z.max MIN_MEMORY_FOR_MBUFFER (2147483648 * 8 / 10))).
Proof.
  split; do 2 eexists; (split; [vm_compute; reflexivity | vm_compute; congruence]).
Qed.

End MonitorFacts.

(** ** The size parser *)

Module ParserFacts.

Lemma py_int_outcome (s : pystr) :
  (exists z, py_int s = Ok z) \/ py_int s = Raise ValueError.
Proof.
  unfold py_int. destruct (take_sign _) as [neg body].
  destruct (digitpart body) as [[| d ds] [| c r]]; eauto.
  destruct (Nat.ltb _ _); eauto.
Qed.

Lemma py_float_outcome (s : pystr) :
  (exists f, py_float s = Ok f) \/ py_float s = Raise ValueError.
Proof.
  unfold py_float. destruct (take_sign _) as [neg body].
  destruct (_ || _); [eauto |].
  destruct (eqs _ _); [eauto |].
  destruct (float_literal body); eauto.
Qed.

Lemma multiplier_converts (suffix : pystr) (multiplier : Z) :
  In (suffix, multiplier) multipliers ->
  exists q, of_int multiplier = Ok (Fin q).
Proof.
  unfold multipliers. simpl.
  intros [E | [E | [E | [E | []]]]]; inversion E; subst; eexists;
    vm_compute; reflexivity.
Qed.

Lemma suffix_loop_outcome (size_str : pystr) (ms : list (pystr * Z)) :
  incl ms multipliers ->
  finite_product size_str ->
  ((exists z, suffix_loop size_str ms = Returned z)
   \/ suffix_loop size_str ms = LoopDone)
  /\ (unparseable size_str -> suffix_loop size_str ms = LoopDone).
Proof.
  intros Hincl Hfin. induction ms as [| [suffix multiplier] rest IH].
  - simpl. split; auto.
  - assert (Hin : In (suffix, multiplier) multipliers) by (apply Hincl; left; reflexivity).
    assert (Hrest : incl rest multipliers) by (intros x Hx; apply Hincl; right; exact Hx).
    specialize (IH Hrest). cbn [suffix_loop].
    destruct (endswith size_str suffix) eqn:Ends; [| exact IH].
    unfold suffix_body.
    pose proof (Hfin suffix multiplier) as Hfin'.
    assert (U : unparseable size_str ->
                py_float (drop_last size_str) = Raise ValueError
                \/ py_float (drop_last size_str) = Ok NaN).
    { intros [_ U]. exact (U suffix multiplier Hin Ends). }
    destruct (multiplier_converts suffix multiplier Hin) as (q & Hq).
    assert (Hfin'' : forall neg,
               (number <- py_float (drop_last size_str) ;;
                Ok (mul number (Fin q))) <> Ok (Inf neg)).
    { intros neg. specialize (Hfin' neg Hin Ends).
      unfold scaled_number in Hfin'. rewrite Hq in Hfin'. exact Hfin'. }
    unfold scaled_number. rewrite Hq. clear Hfin' Hq.
    destruct (py_float_outcome (drop_last size_str)) as [[number E] | E];
      rewrite E in *.
    + unfold bind in *. destruct number as [x | neg |].
      * assert (Hu : ~ unparseable size_str).
        { intros Hu. destruct (U Hu); discriminate. }
        cbn [mul] in *. destruct (round (x * q)) as [y | neg |].
        -- cbn [to_int]. split; [left; eexists; reflexivity | intros; tauto].
        -- exfalso. eapply Hfin''; eauto.
        -- cbn [to_int]. split; auto.
      * cbn [mul] in *. destruct (is_zero q).
        -- cbn [to_int]. split; auto.
        -- exfalso. eapply Hfin''; eauto.
      * cbn [mul to_int]. split; auto.
    + unfold bind. split; auto.
Qed.

(** C10, as the code has it.  Unless the product of the number and its
    multiplier is an infinity, the parser returns an integer and raises
    nothing; and a text that is neither an integer nor a float before a
    suffix gives the 2 GiB default.  Nothing makes the integer positive. *)
Theorem parse_returns_or_defaults (s : pystr) :
  finite_product (strip (upper s)) ->
  exists z, _parse_mbuffer_size s = Ok z
            /\ (unparseable (strip (upper s)) -> z = DEFAULT_SIZE).
Proof.
  intros Hfin. unfold _parse_mbuffer_size.
  destruct (suffix_loop_outcome (strip (upper s)) multipliers
              (incl_refl _) Hfin) as [[[z E] | E] U].
  - rewrite E. exists z. split; [reflexivity |].
    intros Hu. rewrite (U Hu) in E. discriminate.
  - rewrite E.
    destruct (py_int_outcome (strip (upper s))) as [[z Ez] | Ez]; rewrite Ez.
    + exists z. split; [reflexivity |]. intros [Hu _]. rewrite Hu in Ez. discriminate.
    + exists DEFAULT_SIZE. split; [reflexivity | reflexivity].
Qed.

Lemma parse_returns_or_defaults_witness :
  exists z, _parse_mbuffer_size (str "2g") = Ok z
            /\ (unparseable (strip (upper (str "2g"))) -> z = DEFAULT_SIZE).
Proof.
  apply parse_returns_or_defaults. unfold finite_product.
  intros suffix multiplier neg Hin. simpl in Hin.
  destruct Hin as [E | [E | [E | [E | []]]]]; inversion E; subst;
    vm_compute; discriminate.
Defined.

(** C10 as stated fails twice over: the result need not be positive, and
    an infinite number before the suffix makes the parser raise. *)
Lemma parse_not_positive_nor_total :
  _parse_mbuffer_size (str "0") = Ok 0
  /\ _parse_mbuffer_size (str "-1k") = Ok (-1024)
  /\ _parse_mbuffer_size (str "infK") = Raise OverflowError.
Proof. repeat split; vm_compute; reflexivity. Qed.

End ParserFacts.

(** ** The buffer planner on the 2 GiB / 1 GiB scenario *)

Module PlannerFacts.

Import MonitorFacts MBufferOptimizer.

Lemma new_monitor_2G : new_monitor (str "2G") = Ok default_monitor.
Proof. vm_compute. reflexivity. Qed.

Lemma check_memory_one_gib (metrics : ResourceMetrics) :
  memory_available metrics = 1073741824 ->
  exists ratio msg,
    memory_usage_ratio metrics = Ok ratio
    /\ check_memory_for_mbuffer default_monitor metrics
       = Ok (shortage_status ratio, msg, 536870912).
Proof.
  intros Ha. unfold check_memory_for_mbuffer.
  destruct (memory_usage_ratio_ok metrics) as (ratio & E).
  { rewrite Ha. vm_compute. split; [discriminate | reflexivity]. }
  rewrite E, Ha. unfold bind at 1.
  change (1073741824 <? MIN_MEMORY_FOR_MBUFFER) with false.
  change (1073741824 - MIN_MEMORY_FOR_MBUFFER <? mbuffer_size default_monitor) with true.
  cbv iota.
  replace (reduced_size (1073741824 - MIN_MEMORY_FOR_MBUFFER))
    with (Ok (A := Z) 536870912) by (vm_compute; reflexivity).
  unfold bind at 1.
  destruct (_format_bytes (1073741824 - MIN_MEMORY_FOR_MBUFFER)) as [a |] eqn:Ea;
    [| vm_compute in Ea; discriminate].
  destruct (_format_bytes (mbuffer_size default_monitor)) as [b |] eqn:Eb;
    [| vm_compute in Eb; discriminate].
  destruct (_format_bytes 536870912) as [c |] eqn:Ec;
    [| vm_compute in Ec; discriminate].
  unfold bind. eauto.
Qed.

(** C3, as the code has it.  With "2G" requested and exactly 1 GiB
    available, whatever the rest of the sample: the recommendation is the
    512 MiB floor; the classification is CRITICAL only when the usage ratio
    exceeds 95% and WARNING otherwise; the plan is 512M at 70% fill when
    CRITICAL and 384M at 80% fill when WARNING; the block size is 256k
    unless the disk check is CRITICAL, and only then 512k. *)
Theorem plan_for_2G_with_1GiB (sys : system_state) :
  memory_available (sampled sys) = 1073741824 ->
  exists ratio msg p,
    memory_usage_ratio (sampled sys) = Ok ratio
    /\ (m <- new_monitor (str "2G") ;; check_memory_for_mbuffer m (sampled sys))
       = Ok (shortage_status ratio, msg, 536870912)
    /\ get_optimal_mbuffer_params (Some (str "2G")) None sys = Ok p
    /\ memory_status p = status_value (shortage_status ratio)
    /\ block_size p = disk_block sys
    /\ ((gtb ratio CRITICAL_MEMORY_THRESHOLD = true
         /\ memory_status p = str "critical"
         /\ size p = str "512M" /\ fill_percent p = str "70%")
        \/ (gtb ratio CRITICAL_MEMORY_THRESHOLD = false
            /\ memory_status p = str "warning"
            /\ size p = str "384M" /\ fill_percent p = str "80%")).
Proof.
  intros Ha.
  destruct (check_memory_one_gib (sampled sys) Ha) as (ratio & msg & Er & Ec).
  exists ratio, msg.
  unfold get_optimal_mbuffer_params, check_all_resources.
  rewrite new_monitor_2G.
  replace (new_monitor _) with (Ok default_monitor) by (vm_compute; reflexivity).
  unfold bind at 1 2 3 4. rewrite Ec.
  cbn [res_memory res_disk]. unfold disk_block.
  unfold shortage_status.
  destruct (gtb ratio CRITICAL_MEMORY_THRESHOLD).
  - eexists. split; [exact Er |]. split; [reflexivity |].
    replace (plan_buffer_size CRITICAL 536870912) with (Ok (A := Z) 536870912)
      by (vm_compute; reflexivity).
    unfold bind at 1.
    replace (size_string 536870912) with (Ok (str "512M"))
      by (vm_compute; reflexivity).
    unfold bind. split; [reflexivity |]. cbn [memory_status block_size size fill_percent].
    split; [reflexivity |]. split.
    + unfold block_size_for. destruct (check_disk_space _ _); reflexivity.
    + left. repeat split; reflexivity.
  - assert (S : (if gtb ratio WARNING_MEMORY_THRESHOLD then WARNING else WARNING)
                = WARNING) by (destruct (gtb _ _); reflexivity).
    rewrite S in *.
    eexists. split; [exact Er |]. split; [reflexivity |].
    replace (plan_buffer_size WARNING 536870912) with (Ok (A := Z) 402653184)
      by (vm_compute; reflexivity).
    unfold bind at 1.
    replace (size_string 402653184) with (Ok (str "384M"))
      by (vm_compute; reflexivity).
    unfold bind. split; [reflexivity |]. cbn [memory_status block_size size fill_percent].
    split; [reflexivity |]. split.
    + unfold block_size_for. destruct (check_disk_space _ _); reflexivity.
    + right. repeat split; reflexivity.
Qed.

Lemma plan_for_2G_with_1GiB_witness :
  exists p,
    get_optimal_mbuffer_params (Some (str "2G")) None
      (Scenario.machine 8589934592 1073741824) = Ok p
    /\ block_size p = str "256k".
Proof.
  destruct (plan_for_2G_with_1GiB (Scenario.machine 8589934592 1073741824))
    as (ratio & msg & p & _ & _ & E & _ & B & _).
  - reflexivity.
  - exists p. split; [exact E | exact B].
Defined.

(** C3 as stated fails.  On a machine with 8 GiB of memory the scenario is
    classified WARNING, not CRITICAL, and planned as 384M at 80% with 256k
    blocks; on one with 32 GiB it is CRITICAL, yet the recommendation is
    still 512 MiB (not about 462 MiB), the plan 512M (not about 231 MiB)
    and the block size 256k (not 512 KiB). *)
Lemma scenario_2G_1GiB_differs :
  (exists msg,
      check_memory_for_mbuffer default_monitor (Scenario.snapshot 8589934592 1073741824)
      = Ok (WARNING, msg, 536870912)
      /\ get_optimal_mbuffer_params (Some (str "2G")) None
           (Scenario.machine 8589934592 1073741824)
         = Ok {| size := str "384M"; fill_percent := str "80%";
                 block_size := str "256k"; memory_status := str "warning";
                 warning := Some msg |})
  /\ (exists msg,
         check_memory_for_mbuffer default_monitor (Scenario.snapshot 34359738368 1073741824)
         = Ok (CRITICAL, msg, 536870912)
         /\ get_optimal_mbuffer_params (Some (str "2G")) None
              (Scenario.machine 34359738368 1073741824)
            = Ok {| size := str "512M"; fill_percent := str "70%";
                    block_size := str "256k"; memory_status := str "critical";
                    warning := Some msg |}).
Proof.
  split; eexists; (split; vm_compute; reflexivity).
Qed.

End PlannerFacts.

(** ** Text operations *)

Module StrFacts.

Lemma eqc_true (a b : ascii) : eqc a b = true <-> a = b.
Proof. apply Ascii.eqb_eq. Qed.

Lemma eqc_same (a : ascii) : eqc a a = true.
Proof. apply Ascii.eqb_refl. Qed.

Lemma linebreak_isspace (c : ascii) : islinebreak c = true -> isspace c = true.
Proof. unfold islinebreak, isspace. generalize (code c). intros n. lia. Qed.

Lemma linefeed_is_break (c : ascii) : code c = 10 -> islinebreak c = true.
Proof. unfold islinebreak. intros ->. reflexivity. Qed.

(** *** Stripping *)

Lemma dropwhile_head (p : ascii -> bool) (s : pystr) (x : ascii) (t : pystr) :
  dropwhile p s = x :: t -> p x = false.
Proof.
  induction s as [| y s IH]; simpl; [discriminate |].
  destruct (p y) eqn:E; [exact IH |]. intros [= <- _]. exact E.
Qed.

Lemma dropwhile_stop (p : ascii -> bool) (x : ascii) (t : pystr) :
  p x = false -> dropwhile p (x :: t) = x :: t.
Proof. intros H. simpl. rewrite H. reflexivity. Qed.

Lemma dropwhile_app (p : ascii -> bool) (a : pystr) (x : ascii) (b : pystr) :
  p x = false -> dropwhile p (a ++ x :: b) = dropwhile p a ++ x :: b.
Proof.
  intros H. induction a as [| y a IH]; simpl.
  - rewrite H. reflexivity.
  - destruct (p y); [exact IH | reflexivity].
Qed.

Lemma dropwhile_idem (p : ascii -> bool) (s : pystr) :
  dropwhile p (dropwhile p s) = dropwhile p s.
Proof.
  induction s as [| y s IH]; simpl; [reflexivity |].
  destruct (p y) eqn:E; [exact IH |]. simpl. rewrite E. reflexivity.
Qed.

Lemma dropwhile_Forall (P : ascii -> Prop) (p : ascii -> bool) (s : pystr) :
  Forall P s -> Forall P (dropwhile p s).
Proof.
  induction 1 as [| y s Hy Hs IH]; simpl; [constructor |].
  destruct (p y); [exact IH | constructor; assumption].
Qed.

Lemma rstrip_after (s : pystr) (x : ascii) (m : pystr) :
  isspace x = false -> rstrip (s ++ x :: m) = s ++ x :: rstrip m.
Proof.
  intros H. unfold rstrip.
  rewrite rev_app_distr. simpl. rewrite <- app_assoc. simpl.
  rewrite dropwhile_app by exact H.
  rewrite rev_app_distr. simpl. rewrite rev_involutive, <- app_assoc.
  reflexivity.
Qed.

Lemma rstrip_idem (s : pystr) : rstrip (rstrip s) = rstrip s.
Proof. unfold rstrip. rewrite rev_involutive, dropwhile_idem. reflexivity. Qed.

Lemma rstrip_Forall (P : ascii -> Prop) (s : pystr) :
  Forall P s -> Forall P (rstrip s).
Proof.
  intros H. unfold rstrip. apply Forall_rev, dropwhile_Forall, Forall_rev, H.
Qed.

Lemma strip_Forall (P : ascii -> Prop) (s : pystr) :
  Forall P s -> Forall P (strip s).
Proof. intros H. apply rstrip_Forall, dropwhile_Forall, H. Qed.

Lemma stripped_strip (s : pystr) : stripped s -> strip s = s.
Proof. intros [L R]. unfold strip. rewrite L. exact R. Qed.

Lemma strip_stripped (s : pystr) : stripped (strip s).
Proof.
  unfold stripped, strip. split; [| apply rstrip_idem].
  destruct (lstrip s) as [| x t] eqn:E.
  - reflexivity.
  - pose proof (dropwhile_head _ _ _ _ E) as Hx.
    change (x :: t) with ([] ++ x :: t).
    rewrite (rstrip_after [] x t Hx). simpl.
    unfold lstrip. apply dropwhile_stop. exact Hx.
Qed.

Lemma stripped_head (x : ascii) (t : pystr) :
  stripped (x :: t) -> isspace x = false.
Proof. intros [L _]. unfold lstrip in L. eapply dropwhile_head. exact L. Qed.

Lemma lstrip_head (x : ascii) (t : pystr) :
  isspace x = false -> lstrip (x :: t) = x :: t.
Proof. apply dropwhile_stop. Qed.

(** *** Splitting at a separator *)

Lemma split_field (c : ascii) (a rest : pystr) :
  free_of c a -> split c (a ++ c :: rest) = a :: split c rest.
Proof.
  induction 1 as [| x a Hx Ha IH]; simpl.
  - rewrite eqc_same. reflexivity.
  - rewrite Hx, IH. reflexivity.
Qed.

Lemma split_last (c : ascii) (a : pystr) :
  free_of c a -> split c a = [a].
Proof.
  induction 1 as [| x a Hx Ha IH]; simpl; [reflexivity |].
  rewrite Hx, IH. reflexivity.
Qed.

Lemma split_parts_free (c : ascii) (s : pystr) :
  Forall (free_of c) (split c s).
Proof.
  induction s as [| x s IH]; simpl.
  - repeat constructor.
  - destruct (eqc x c) eqn:E.
    + constructor; [constructor | exact IH].
    + destruct (split c s) as [| p ps]; [repeat constructor; exact E |].
      inversion IH; subst. constructor; [constructor; assumption | assumption].
Qed.

Lemma split_parts_Forall (P : ascii -> Prop) (c : ascii) (s : pystr) :
  Forall P s -> Forall (Forall P) (split c s).
Proof.
  induction 1 as [| x s Hx Hs IH]; simpl.
  - repeat constructor.
  - destruct (eqc x c).
    + constructor; [constructor | exact IH].
    + destruct (split c s) as [| p ps]; [repeat constructor; exact Hx |].
      inversion IH; subst. constructor; [constructor; assumption | assumption].
Qed.

Lemma split_head (c x : ascii) (t : pystr) :
  exists p ps, split c (x :: t) = p :: ps
               /\ (p = [] \/ exists p', p = x :: p').
Proof.
  simpl. destruct (eqc x c).
  - exists [], (split c t). auto.
  - destruct (split c t) as [| p ps]; do 2 eexists; split; eauto.
Qed.

(** *** Substrings *)

Lemma startswith_app (p b : pystr) : startswith (p ++ b) p = true.
Proof.
  induction p as [| x p IH]; simpl; [destruct b; reflexivity |].
  rewrite eqc_same. exact IH.
Qed.

Lemma contains_here (needle hay : pystr) :
  startswith hay needle = true -> contains needle hay = true.
Proof. intros H. destruct hay; simpl in *; rewrite H; reflexivity. Qed.

Lemma contains_infix (needle a b : pystr) :
  contains needle (a ++ needle ++ b) = true.
Proof.
  induction a as [| x a IH].
  - cbn [app]. apply contains_here. apply startswith_app.
  - simpl. rewrite IH. apply orb_true_r.
Qed.

(** *** Lines *)

Lemma splitlines_nonempty (s : pystr) : s <> [] -> splitlines s <> [].
Proof.
  destruct s as [| c t]; [congruence |]. intros _. simpl.
  destruct (islinebreak c).
  - destruct (code c =? 13); [destruct t as [| d t']; [| destruct (code d =? 10)] |];
      discriminate.
  - destruct (splitlines t); discriminate.
Qed.

(** A line and its terminator, ahead of more text. *)
Lemma splitlines_line (l : pystr) (b : ascii) (rest : pystr) :
  unbroken l -> islinebreak b = true -> code b <> 13 ->
  splitlines (l ++ b :: rest) = l :: splitlines rest.
Proof.
  intros Hl Hb Hcr. induction Hl as [| x l Hx Hl IH]; simpl.
  - rewrite Hb. destruct (Z.eqb_spec (code b) 13); [contradiction | reflexivity].
  - rewrite Hx. simpl in IH. rewrite IH. reflexivity.
Qed.

Lemma splitlines_unbroken (s : pystr) : Forall unbroken (splitlines s).
Proof.
  assert (G : forall n s, (List.length s <= n)%nat -> Forall unbroken (splitlines s)).
  { induction n as [| n IH]; intros [| c t] Hlen; simpl in *;
      try (constructor; fail); try lia.
    destruct (islinebreak c) eqn:Eb.
    - destruct (code c =? 13).
      + destruct t as [| d t'].
        * repeat constructor.
        * destruct (code d =? 10); (constructor; [constructor |]);
            apply IH; simpl in *; lia.
      + constructor; [constructor |]. apply IH; lia.
    - pose proof (IH t ltac:(lia)) as Ht.
      destruct (splitlines t) as [| l ls]; [repeat constructor; exact Eb |].
      inversion Ht; subst. constructor; [constructor; assumption | assumption]. }
  apply (G (List.length s)). lia.
Qed.

Lemma on_boundary_tail (x : ascii) (t : pystr) :
  on_boundary (x :: t) = true -> on_boundary t = true.
Proof. destruct t; [reflexivity | exact (fun H => H)]. Qed.

(** Text appended after a line end is split on its own. *)
Lemma splitlines_app (c s : pystr) :
  on_boundary c = true ->
  match s with
  | d :: _ => islinebreak d = false
  | [] => True
  end ->
  splitlines (c ++ s) = splitlines c ++ splitlines s.
Proof.
  intros Hc Hs.
  assert (G : forall n c, (List.length c <= n)%nat -> on_boundary c = true ->
                          splitlines (c ++ s) = splitlines c ++ splitlines s).
  { clear c Hc. induction n as [| n IH]; intros [| x t] Hlen Hb;
      try reflexivity; simpl in Hlen; try lia.
    pose proof (on_boundary_tail x t Hb) as Ht.
    cbn [app splitlines].
    destruct (islinebreak x) eqn:Ex.
    - destruct (code x =? 13).
      + destruct t as [| d t'].
        * cbn [app]. destruct s as [| d s']; [reflexivity |].
          destruct (Z.eqb_spec (code d) 10) as [E | E]; [| reflexivity].
          apply linefeed_is_break in E. congruence.
        * cbn [app]. destruct (code d =? 10).
          -- rewrite IH; [reflexivity | simpl in *; lia |].
             apply (on_boundary_tail d t' Ht).
          -- change (d :: t' ++ s) with ((d :: t') ++ s).
             rewrite IH; [reflexivity | simpl in *; lia | exact Ht].
      + rewrite IH; [reflexivity | lia | exact Ht].
    - destruct t as [| d t']; [simpl in Hb; congruence |].
      rewrite IH; [| lia | exact Ht].
      pose proof (splitlines_nonempty (d :: t') ltac:(discriminate)) as N.
      destruct (splitlines (d :: t')); [congruence | reflexivity]. }
  apply (G (List.length c)); [lia | exact Hc].
Qed.

(** *** Substrings and fields, spelled out *)

Lemma startswith_prefix (s p : pystr) :
  startswith s p = true -> exists b, s = p ++ b.
Proof.
  revert s. induction p as [| x p IH]; intros s; simpl.
  - intros _. exists s. reflexivity.
  - destruct s as [| y s]; [discriminate |].
    intros H. apply andb_prop in H. destruct H as [E H].
    apply eqc_true in E. subst y.
    destruct (IH s H) as (b & ->). exists b. reflexivity.
Qed.

(** [needle in hay] holds exactly when the text lies somewhere in [hay]. *)
Lemma contains_infix_iff (needle hay : pystr) :
  contains needle hay = true <-> exists a b, hay = a ++ needle ++ b.
Proof.
  split.
  - induction hay as [| h t IH]; cbn [contains]; intros H.
    + rewrite orb_false_r in H. destruct (startswith_prefix _ _ H) as (b & E).
      exists [], b. exact E.
    + apply orb_prop in H. destruct H as [H | H].
      * destruct (startswith_prefix _ _ H) as (b & E). exists [], b. exact E.
      * destruct (IH H) as (a & b & ->). exists (h :: a), b. reflexivity.
  - intros (a & b & ->). apply contains_infix.
Qed.

Lemma split_nonempty (c : ascii) (s : pystr) : split c s <> [].
Proof.
  destruct s as [| x t]; simpl; [discriminate |].
  destruct (eqc x c); [discriminate |].
  destruct (split c t); discriminate.
Qed.

Lemma join_head (sep : pystr) (x : ascii) (p : pystr) (ps : list pystr) :
  join sep ((x :: p) :: ps) = x :: join sep (p :: ps).
Proof. destruct ps; reflexivity. Qed.

(** The parts of a split, joined by the separator, give the text back. *)
Lemma join_split (c : ascii) (s : pystr) : join [c] (split c s) = s.
Proof.
  induction s as [| x t IH]; [reflexivity |]. simpl split.
  destruct (eqc x c) eqn:E.
  - apply eqc_true in E. subst x.
    pose proof (split_nonempty c t) as N.
    destruct (split c t) as [| p ps]; [congruence |].
    change (join [c] ([] :: p :: ps)) with ([] ++ [c] ++ join [c] (p :: ps)).
    rewrite IH. reflexivity.
  - pose proof (split_nonempty c t) as N.
    destruct (split c t) as [| p ps]; [congruence |].
    rewrite join_head, IH. reflexivity.
Qed.

(** A split gives one part more than the text has separators. *)
Lemma split_length (c : ascii) (s : pystr) :
  List.length (split c s) = S (count_occ ascii_dec s c).
Proof.
  induction s as [| x t IH]; [reflexivity |]. simpl split.
  destruct (eqc x c) eqn:E.
  - apply eqc_true in E. subst x. rewrite count_occ_cons_eq by reflexivity.
    cbn [List.length]. rewrite IH. reflexivity.
  - assert (N : x <> c).
    { intros ->. rewrite eqc_same in E. discriminate. }
    rewrite count_occ_cons_neq by exact N. rewrite <- IH.
    pose proof (split_nonempty c t) as Ne.
    destruct (split c t); [congruence | reflexivity].
Qed.

End StrFacts.

(** ** The reader of files *)

Module ReaderFacts.

Import SafeFileHandler.

Section Reader.

Variable detect : bytes -> pyres (option pystr * pyfloat).
Variable decode : pystr -> bytes -> pyres pystr.

(** Only the first 1024 bytes of a file bear on the encoding guessed. *)
Lemma detect_encoding_sample (content : bytes) :
  detect_encoding detect content
  = detect_encoding detect (firstn 1024 content).
Proof. unfold detect_encoding. rewrite firstn_firstn. reflexivity. Qed.

(** A guess is taken, in lower case, when its confidence is above 0.7. *)
Lemma detect_encoding_confident (content : bytes) (x : ascii) (t : pystr)
    (confidence : pyfloat) :
  content <> [] ->
  detect (firstn 1024 content) = Ok (Some (x :: t), confidence) ->
  detect_encoding detect content
  = if gtb confidence (lit (7 # 10)) then lower (x :: t) else DEFAULT_ENCODING.
Proof.
  intros Hne Hd. unfold detect_encoding.
  destruct (firstn 1024 content) as [| b sample] eqn:Es.
  - exfalso. apply Hne. apply length_zero_iff_nil.
    apply (f_equal (@List.length ascii)) in Es.
    rewrite length_firstn in Es. cbn [List.length] in Es. lia.
  - rewrite Hd. reflexivity.
Qed.

(** What decodes under the encoding guessed is what is read. *)
Lemma read_file_decoded (content : bytes) (text : pystr) :
  decode (detect_encoding detect content) content = Ok text ->
  read_file detect decode content = Ok text.
Proof. intros H. unfold read_file. rewrite H. reflexivity. Qed.

End Reader.

End ReaderFacts.

(** ** The registry *)

Module RegistryFacts.

Import StrFacts Registry.

Lemma plain_free (s : pystr) : plain s -> free_of semi s.
Proof. apply Forall_impl. intros c [H _]. exact H. Qed.

Lemma plain_unbroken (s : pystr) : plain s -> unbroken s.
Proof. apply Forall_impl. intros c [_ H]. exact H. Qed.

Lemma plain_both (s : pystr) : free_of semi s -> unbroken s -> plain s.
Proof.
  intros F U. unfold plain. rewrite Forall_forall. intros c Hc. split.
  - exact (proj1 (Forall_forall _ _) F c Hc).
  - exact (proj1 (Forall_forall _ _) U c Hc).
Qed.

Lemma plain_app (a b : pystr) : plain a -> plain b -> plain (a ++ b).
Proof. intros A B. apply Forall_app. split; assumption. Qed.

Lemma plain_rstrip (s : pystr) : plain s -> plain (rstrip s).
Proof. apply rstrip_Forall. Qed.

Lemma semi_unbroken : islinebreak semi = false.
Proof. reflexivity. Qed.

Lemma semi_not_space : isspace semi = false.
Proof. reflexivity. Qed.

Lemma format_entry_cut (e : entry) :
  format_entry e = line_head e ++ semi :: manifest e.
Proof.
  unfold format_entry, line_head. change (str ";") with [semi].
  repeat (first [rewrite <- app_assoc | progress cbn [app]]). reflexivity.
Qed.

Lemma format_entry_fields (e : entry) :
  format_entry e
  = timestamp e ++ semi :: label e ++ semi :: tapes e ++ semi
      :: file_index e ++ semi :: manifest e.
Proof.
  rewrite format_entry_cut. unfold line_head.
  repeat (first [rewrite <- app_assoc | progress cbn [app]]). reflexivity.
Qed.

Lemma format_entry_unbroken (e : entry) :
  plain (timestamp e) -> plain (label e) -> plain (tapes e) ->
  plain (file_index e) -> plain (manifest e) ->
  unbroken (format_entry e).
Proof.
  intros H0 H1 H2 H3 H4. rewrite format_entry_fields. unfold unbroken.
  repeat (apply Forall_app; split; [apply plain_unbroken; assumption |];
          apply Forall_cons; [exact semi_unbroken |]).
  apply plain_unbroken. assumption.
Qed.

Lemma format_entry_nonempty (e : entry) : exists x t, format_entry e = x :: t.
Proof.
  rewrite format_entry_fields.
  destruct (timestamp e) as [| x t]; cbn [app]; eauto.
Qed.

Lemma lstrip_format_entry (e : entry) :
  lstrip (timestamp e) = timestamp e ->
  lstrip (format_entry e) = format_entry e.
Proof.
  intros H. rewrite format_entry_fields.
  destruct (timestamp e) as [| x t]; cbn [app].
  - apply lstrip_head. exact semi_not_space.
  - apply lstrip_head. unfold lstrip in H. eapply dropwhile_head. exact H.
Qed.

Lemma strip_format_entry (e : entry) :
  lstrip (timestamp e) = timestamp e ->
  strip (format_entry e) = format_entry (trimmed e).
Proof.
  intros H. unfold strip. rewrite (lstrip_format_entry e H).
  rewrite !format_entry_cut. rewrite rstrip_after by exact semi_not_space.
  reflexivity.
Qed.

Lemma trimmed_representable (e : entry) :
  plain (timestamp e) -> plain (label e) -> plain (tapes e) ->
  plain (file_index e) -> plain (manifest e) ->
  lstrip (timestamp e) = timestamp e ->
  representable (trimmed e).
Proof.
  intros H0 H1 H2 H3 H4 L. unfold representable, trimmed; cbn.
  repeat split; try assumption.
  - apply plain_rstrip. exact H4.
  - apply rstrip_idem.
Qed.

Lemma trimmed_same (e : entry) : representable e -> trimmed e = e.
Proof.
  intros (_ & _ & _ & _ & _ & _ & R). destruct e as [a b c d m].
  unfold trimmed; cbn in *. rewrite R. reflexivity.
Qed.

Lemma split_format_entry (e : entry) :
  plain (timestamp e) -> plain (label e) -> plain (tapes e) ->
  plain (file_index e) -> plain (manifest e) ->
  split semi (format_entry e)
  = [timestamp e; label e; tapes e; file_index e; manifest e].
Proof.
  intros H0 H1 H2 H3 H4. rewrite format_entry_fields.
  rewrite !split_field by (apply plain_free; assumption).
  rewrite split_last by (apply plain_free; assumption).
  reflexivity.
Qed.

(** A representable entry is read back from its line as it is. *)
Lemma parse_format_entry (e : entry) :
  representable e -> parse_line (format_entry e) = Some e.
Proof.
  intros R. pose proof R as (H0 & H1 & H2 & H3 & H4 & L & _).
  unfold parse_line. rewrite (strip_format_entry e L), (trimmed_same e R).
  fold semi. rewrite (split_format_entry e H0 H1 H2 H3 H4).
  destruct e; reflexivity.
Qed.

Lemma stripped_format_entry (e : entry) :
  representable e -> strip (format_entry e) = format_entry e.
Proof.
  intros R. pose proof R as (_ & _ & _ & _ & _ & L & _).
  rewrite (strip_format_entry e L), (trimmed_same e R). reflexivity.
Qed.

(** The lines of a text that ends with one more line. *)
Lemma text_lines_app_line (content line : pystr) :
  on_boundary content = true -> unbroken line -> strip line = line ->
  line <> [] ->
  text_lines (content ++ line ++ newline) = text_lines content ++ [line].
Proof.
  intros Hb Hu Hs Hn. unfold text_lines.
  rewrite splitlines_app.
  - change newline with ["010"%char].
    rewrite (splitlines_line line "010"%char [] Hu) by (reflexivity || discriminate).
    cbn [splitlines]. rewrite map_app, filter_app. cbn [map filter].
    rewrite Hs. destruct line; [congruence | reflexivity].
  - exact Hb.
  - destruct line as [| x t]; [congruence |]. cbn [app].
    inversion Hu; assumption.
Qed.

(** The lines of a text written line by line. *)
Lemma text_lines_of_lines (ls : list pystr) :
  Forall (fun l => unbroken l /\ strip l = l /\ l <> []) ls ->
  text_lines (List.concat (map (fun l => l ++ newline) ls)) = ls.
Proof.
  induction 1 as [| l ls (Hu & Hs & Hn) _ IH]; [reflexivity |].
  cbn [map List.concat]. rewrite <- app_assoc.
  change newline with ["010"%char]. cbn [app].
  unfold text_lines.
  rewrite (splitlines_line l "010"%char _ Hu) by (reflexivity || discriminate).
  cbn [map filter]. rewrite Hs.
  destruct l as [| x t]; [congruence |]. cbn [nonempty]. f_equal. exact IH.
Qed.

Lemma utf8_app (a b : pystr) : utf8 (a ++ b) = utf8 a ++ utf8 b.
Proof. apply flat_map_app. Qed.

Section Reading.

Variable read_file : bytes -> pyres pystr.

Lemma read_lines_of (content : bytes) (text : pystr) :
  read_file content = Ok text ->
  read_lines read_file content = Ok (text_lines text).
Proof. intros H. unfold read_lines. rewrite H. reflexivity. Qed.

(** What the readers of the registry go through, once the reader has
    made a text of the file. *)
Lemma registry_lines_of (st : store) (text : pystr) :
  reads_as read_file st text ->
  registry_lines read_file st = text_lines text.
Proof.
  unfold reads_as, registry_lines.
  destruct (registry_file st) as [content |].
  - intros H. rewrite (read_lines_of content text H). reflexivity.
  - intros ->. reflexivity.
Qed.

Lemma find_scans_lines (st : store) (lbl : pystr) :
  find_backup_by_label read_file st lbl
  = scan lbl 1 (registry_lines read_file st).
Proof.
  unfold find_backup_by_label, registry_lines.
  destruct (registry_file st) as [content |]; [| reflexivity].
  destruct (read_lines read_file content); reflexivity.
Qed.

Lemma get_all_backups_lines (st : store) :
  get_all_backups read_file st = collect 1 (registry_lines read_file st).
Proof.
  unfold get_all_backups, registry_lines.
  destruct (registry_file st) as [content |]; [| reflexivity].
  destruct (read_lines read_file content); reflexivity.
Qed.

End Reading.

Lemma scan_skip (lbl : pystr) (ls rest : list pystr) (n : nat) :
  (forall l, In l ls -> contains lbl l = false) ->
  scan lbl n (ls ++ rest) = scan lbl (n + List.length ls) rest.
Proof.
  revert n. induction ls as [| l ls IH]; intros n H; cbn [app scan List.length].
  - rewrite Nat.add_0_r. reflexivity.
  - rewrite (H l (or_introl eq_refl)).
    rewrite IH by (intros l' Hl'; apply H; right; exact Hl').
    f_equal. lia.
Qed.

Lemma label_in_line (e : entry) : contains (label e) (format_entry e) = true.
Proof.
  rewrite format_entry_fields.
  change (timestamp e ++ semi :: label e ++ semi :: tapes e ++ semi
            :: file_index e ++ semi :: manifest e)
    with (timestamp e ++ [semi] ++ label e ++ semi :: tapes e ++ semi
            :: file_index e ++ semi :: manifest e).
  rewrite app_assoc. apply contains_infix.
Qed.

(** The lines after an append, when the file then reads as some text
    that ends on a line end, followed by the line of the entry. *)
Lemma lines_after_append (read_file : bytes -> pyres pystr) (st : store)
    (e : entry) (before : pystr) :
  representable e ->
  reads_as read_file (fst (add_registry_entry st e))
           (before ++ format_entry e ++ newline) ->
  on_boundary before = true ->
  registry_lines read_file (fst (add_registry_entry st e))
  = text_lines before ++ [format_entry e].
Proof.
  intros R Hread Hb. pose proof R as (H0 & H1 & H2 & H3 & H4 & _ & _).
  rewrite (registry_lines_of read_file _ _ Hread).
  destruct (format_entry_nonempty e) as (x & t & Ex).
  apply text_lines_app_line.
  - exact Hb.
  - apply format_entry_unbroken; assumption.
  - apply stripped_format_entry. exact R.
  - rewrite Ex. discriminate.
Qed.

(** C5, as the code has it.  The entry is representable: its fields hold
    no separator and no line boundary, and no blank starts or ends its
    line.  The file after the append is read as a text that ends with the
    line of the entry and a line end; what precedes that line is empty or
    ends on a line end, and none of its lines contains the label.  Then
    the entry appended is the one found by its label, field for field, on
    the line after those. *)
Theorem append_then_find (read_file : bytes -> pyres pystr) (st : store)
    (e : entry) (before : pystr) :
  representable e ->
  reads_as read_file (fst (add_registry_entry st e))
           (before ++ format_entry e ++ newline) ->
  on_boundary before = true ->
  (forall line, In line (text_lines before) ->
                contains (label e) line = false) ->
  find_backup_by_label read_file (fst (add_registry_entry st e)) (label e)
  = Some {| line_number := S (List.length (text_lines before));
            fields := e;
            raw_line := format_entry e |}.
Proof.
  intros R Hread Hb Hun.
  rewrite find_scans_lines, (lines_after_append read_file st e before R Hread Hb).
  rewrite scan_skip by exact Hun. cbn [scan].
  rewrite label_in_line, (parse_format_entry e R), (stripped_format_entry e R).
  reflexivity.
Qed.

Import RegistryScenario.

Ltac plain_text :=
  unfold plain; repeat (apply Forall_cons; [split; reflexivity |]); apply Forall_nil.

Ltac representable_text :=
  unfold representable; cbn;
  repeat (split; [first [plain_text | reflexivity] |]);
  first [plain_text | reflexivity].

Lemma append_then_find_witness :
  find_backup_by_label as_written
    (fst (add_registry_entry (registry_of [weekly]) daily_old)) (str "Daily")
  = Some {| line_number := 2; fields := daily_old;
            raw_line := format_entry daily_old |}.
Proof.
  apply (append_then_find as_written (registry_of [weekly]) daily_old
           (format_entry weekly ++ newline)).
  - representable_text.
  - vm_compute. reflexivity.
  - reflexivity.
  - intros line Hin. vm_compute in Hin. destruct Hin as [<- | []].
    vm_compute. reflexivity.
Defined.

(** C5 as stated fails: a registry that already holds a backup of the same
    label answers with that older entry, not with the one just appended. *)
Lemma find_returns_older_entry :
  exists f,
    find_backup_by_label as_written
      (fst (add_registry_entry (registry_of [daily_old]) daily_new))
      (label daily_new) = Some f
    /\ fields f = daily_old
    /\ timestamp (fields f) <> timestamp daily_new
    /\ file_index (fields f) <> file_index daily_new.
Proof.
  eexists. split; [vm_compute; reflexivity |].
  split; [reflexivity |]. split; vm_compute; discriminate.
Qed.

(** *** What a hit is *)

(** The text lies somewhere in the line. *)
Lemma scan_first (lbl : pystr) (lines : list pystr) (n : nat) (f : found) :
  scan lbl n lines = Some f ->
  exists before line after,
    lines = before ++ line :: after
    /\ line_number f = (n + List.length before)%nat
    /\ contains lbl line = true
    /\ parse_line line = Some (fields f)
    /\ raw_line f = strip line
    /\ (forall l, In l before ->
                  contains lbl l = false \/ parse_line l = None).
Proof.
  revert n. induction lines as [| l ls IH]; intros n; cbn [scan]; [discriminate |].
  assert (Skip : (contains lbl l = false \/ parse_line l = None) ->
                 scan lbl (S n) ls = Some f ->
                 exists before line after,
                   l :: ls = before ++ line :: after
                   /\ line_number f = (n + List.length before)%nat
                   /\ contains lbl line = true
                   /\ parse_line line = Some (fields f)
                   /\ raw_line f = strip line
                   /\ (forall l0, In l0 before ->
                         contains lbl l0 = false \/ parse_line l0 = None)).
  { intros Hl H. destruct (IH _ H) as (before & line & after & E & N & C & P & Rw & B).
    exists (l :: before), line, after. cbn [app List.length].
    split; [rewrite E; reflexivity |]. split; [lia |].
    split; [exact C |]. split; [exact P |]. split; [exact Rw |].
    intros l0 [<- | Hin]; [exact Hl | exact (B l0 Hin)]. }
  destruct (contains lbl l) eqn:C.
  - destruct (parse_line l) as [e |] eqn:P.
    + intros [= <-]. exists [], l, ls. cbn [app List.length line_number fields raw_line].
      split; [reflexivity |]. split; [lia |]. split; [exact C |].
      split; [exact P |]. split; [reflexivity |]. intros l0 [].
    + apply Skip. right. reflexivity.
  - apply Skip. left. reflexivity.
Qed.

Lemma scan_none (lbl : pystr) (lines : list pystr) (n : nat) :
  scan lbl n lines = None
  <-> (forall line, In line lines -> contains lbl line = true ->
                    parse_line line = None).
Proof.
  revert n. induction lines as [| l ls IH]; intros n; cbn [scan].
  - split; [intros _ line [] | reflexivity].
  - destruct (contains lbl l) eqn:C.
    + destruct (parse_line l) as [e |] eqn:P.
      * split; [discriminate |]. intros H.
        specialize (H l (or_introl eq_refl) C). congruence.
      * rewrite IH. split.
        -- intros H line [<- | Hin] Hc; [exact P | exact (H line Hin Hc)].
        -- intros H line Hin. apply H. right. exact Hin.
    + rewrite IH. split.
      * intros H line [<- | Hin] Hc; [congruence | exact (H line Hin Hc)].
      * intros H line Hin. apply H. right. exact Hin.
Qed.

(** A line yields an entry exactly when it has four separators or more,
    which make five fields or more. *)
Lemma parse_line_none_iff (line : pystr) :
  parse_line line = None
  <-> (count_occ ascii_dec (strip line) semi < 4)%nat.
Proof.
  unfold parse_line. fold semi.
  pose proof (split_length semi (strip line)) as L.
  destruct (split semi (strip line)) as [| p0 [| p1 [| p2 [| p3 [| p4 rest]]]]];
    cbn [List.length] in L; split; intros H; try reflexivity; try lia;
    discriminate.
Qed.

(** The fields of the entry that a line yields are the first five parts
    of the stripped line, cut at the separators. *)
Lemma parse_line_fields (line : pystr) (e : entry) :
  parse_line line = Some e ->
  (exists rest,
      strip line
      = timestamp e ++ semi :: label e ++ semi :: tapes e ++ semi
          :: file_index e ++ semi :: manifest e ++ rest
      /\ (rest = [] \/ exists t, rest = semi :: t))
  /\ free_of semi (timestamp e) /\ free_of semi (label e)
  /\ free_of semi (tapes e) /\ free_of semi (file_index e)
  /\ free_of semi (manifest e).
Proof.
  unfold parse_line. fold semi.
  pose proof (join_split semi (strip line)) as J.
  pose proof (split_parts_free semi (strip line)) as F.
  destruct (split semi (strip line)) as [| p0 [| p1 [| p2 [| p3 [| p4 rest]]]]];
    try discriminate.
  intros [= <-]. cbn [timestamp label tapes file_index manifest].
  repeat match goal with
         | H : Forall _ (_ :: _) |- _ => inversion H; clear H; subst
         end.
  split; [| repeat split; assumption].
  rewrite <- J. destruct rest as [| r rs].
  - exists []. split; [| left; reflexivity].
    cbn [join app]. rewrite app_nil_r. reflexivity.
  - exists (semi :: join [semi] (r :: rs)). split; [| right; eauto].
    change (join [semi] (p0 :: p1 :: p2 :: p3 :: p4 :: r :: rs))
      with (p0 ++ [semi] ++ p1 ++ [semi] ++ p2 ++ [semi] ++ p3 ++ [semi]
              ++ p4 ++ [semi] ++ join [semi] (r :: rs)).
    reflexivity.
Qed.

(** C9.  [find] takes the lines that the reader yields, in their order,
    and returns the first one that has the queried text somewhere in it,
    in whatever field, and has five fields or more; the entry returned is
    made of the first five fields of that line.  So the entry can carry
    another label: the text may sit in the manifest path of an earlier
    entry, or inside a longer label that comes earlier in the file. *)
Theorem find_matches_whole_line :
  (forall read_file st lbl f,
      find_backup_by_label read_file st lbl = Some f ->
      exists before line after,
        registry_lines read_file st = before ++ line :: after
        /\ line_number f = S (List.length before)
        /\ raw_line f = strip line
        /\ (exists a b, line = a ++ lbl ++ b)
        /\ (exists rest,
               strip line
               = timestamp (fields f) ++ semi :: label (fields f) ++ semi
                   :: tapes (fields f) ++ semi :: file_index (fields f) ++ semi
                   :: manifest (fields f) ++ rest
               /\ (rest = [] \/ exists t, rest = semi :: t))
        /\ Forall (free_of semi)
                  [timestamp (fields f); label (fields f); tapes (fields f);
                   file_index (fields f); manifest (fields f)]
        /\ (forall l, In l before ->
               (~ exists a b, l = a ++ lbl ++ b)
               \/ (count_occ ascii_dec (strip l) semi < 4)%nat))
  /\ (forall read_file st lbl line,
         In line (registry_lines read_file st) ->
         (exists a b, line = a ++ lbl ++ b) ->
         (4 <= count_occ ascii_dec (strip line) semi)%nat ->
         exists f, find_backup_by_label read_file st lbl = Some f)
  /\ (forall read_file content snaps ls,
         Forall (fun l => unbroken l /\ strip l = l /\ l <> []) ls ->
         read_file content
         = Ok (List.concat (map (fun l => l ++ newline) ls)) ->
         registry_lines read_file
           {| registry_file := Some content; snapshots := snaps |} = ls)
  /\ find_backup_by_label as_written
       (registry_of [weekly; weekly_of_daily_tree; daily_old]) (str "Daily")
     = Some {| line_number := 2; fields := weekly_of_daily_tree;
               raw_line := format_entry weekly_of_daily_tree |}
  /\ label weekly_of_daily_tree = str "Weekly"
  /\ (exists a b, manifest weekly_of_daily_tree = a ++ str "Daily" ++ b)
  /\ find_backup_by_label as_written
       (registry_of [weekly; daily_full; daily_old]) (str "Daily")
     = Some {| line_number := 2; fields := daily_full;
               raw_line := format_entry daily_full |}
  /\ label daily_full = str "Daily_Full"
  /\ find_backup_by_label as_written
       (registry_of [weekly_of_daily_tree; daily_old]) (str "Daily")
     = Some {| line_number := 1; fields := weekly_of_daily_tree;
               raw_line := format_entry weekly_of_daily_tree |}
  /\ find_backup_by_label as_written
       (registry_of [weekly; daily_old]) (str "Monthly")
     = None.
Proof.
  split; [| split; [| split]].
  - intros read_file st lbl f. rewrite find_scans_lines. intros H.
    destruct (scan_first _ _ _ _ H) as (before & line & after & E & N & C & P & Rw & B).
    exists before, line, after.
    destruct (parse_line_fields _ _ P) as (Hrest & F0 & F1 & F2 & F3 & F4).
    split; [exact E |]. split; [exact N |]. split; [exact Rw |].
    split; [apply contains_infix_iff; exact C |].
    split; [exact Hrest |].
    split; [repeat constructor; assumption |].
    intros l Hl. destruct (B l Hl) as [Hc | Hp].
    + left. intros Hex. apply contains_infix_iff in Hex. congruence.
    + right. apply parse_line_none_iff. exact Hp.
  - intros read_file st lbl line Hin Hex Hcount. rewrite find_scans_lines.
    destruct (scan lbl 1 (registry_lines read_file st)) as [f |] eqn:S;
      [eauto |].
    exfalso. rewrite scan_none in S.
    apply contains_infix_iff in Hex.
    pose proof (proj1 (parse_line_none_iff line) (S line Hin Hex)). lia.
  - intros read_file content snaps ls Hls Hread.
    rewrite (registry_lines_of read_file
               {| registry_file := Some content; snapshots := snaps |}
               _ Hread).
    apply text_lines_of_lines. exact Hls.
  - split; [vm_compute; reflexivity |]. split; [reflexivity |].
    split; [exists (str "./manifests/"), (str "_tree/20240112_0200_Weekly.txt");
            reflexivity |].
    split; [vm_compute; reflexivity |]. split; [reflexivity |].
    split; vm_compute; reflexivity.
Qed.

End RegistryFacts.

(** ** Pruning the registry *)

Module PruneFacts.

Import StrFacts Registry RegistryFacts.

Lemma text_lines_member (content l : pystr) :
  In l (text_lines content) -> stripped l /\ unbroken l /\ l <> [].
Proof.
  unfold text_lines. rewrite filter_In, in_map_iff.
  intros [(x & <- & Hx) Hn]. split; [apply strip_stripped |]. split.
  - apply strip_Forall.
    exact (proj1 (Forall_forall _ _) (splitlines_unbroken content) x Hx).
  - destruct (strip x); [discriminate | discriminate].
Qed.

(** Whatever the reader makes of the file, the lines are stripped, hold
    no line boundary and are not empty. *)
Lemma registry_lines_member (read_file : bytes -> pyres pystr) (st : store)
    (l : pystr) :
  In l (registry_lines read_file st) -> stripped l /\ unbroken l /\ l <> [].
Proof.
  unfold registry_lines, read_lines.
  destruct (registry_file st) as [content |]; [| intros []].
  destruct (read_file content) as [text | e]; cbn [bind]; [| intros []].
  apply text_lines_member.
Qed.

Lemma parse_line_readable (l : pystr) (e : entry) :
  stripped l -> unbroken l -> parse_line l = Some e -> readable e.
Proof.
  intros Hs Hu. unfold parse_line. rewrite (stripped_strip l Hs). fold semi.
  pose proof (split_parts_free semi l) as F.
  pose proof (split_parts_Forall _ semi l Hu) as U.
  assert (L : forall p ps, split semi l = p :: ps -> lstrip p = p).
  { intros p ps E. destruct l as [| x t].
    - cbn in E. injection E as <- _. reflexivity.
    - destruct (split_head semi x t) as (p' & ps' & E' & [-> | [q ->]]);
        rewrite E' in E; injection E as <- _; [reflexivity |].
      apply lstrip_head. apply (stripped_head x t Hs). }
  destruct (split semi l) as [| p0 [| p1 [| p2 [| p3 [| p4 rest]]]]];
    try discriminate.
  intros [= <-]. specialize (L _ _ eq_refl).
  repeat match goal with
         | H : Forall _ (_ :: _) |- _ => inversion H; clear H; subst
         end.
  unfold readable; cbn. repeat split; try (apply plain_both; assumption).
  exact L.
Qed.

Lemma collect_readable (lines : list pystr) (n : nat) :
  (forall l, In l lines -> stripped l /\ unbroken l) ->
  Forall readable (map snd (collect n lines)).
Proof.
  revert n. induction lines as [| l ls IH]; intros n H; cbn [collect map].
  - constructor.
  - assert (Hl : stripped l /\ unbroken l) by (apply H; left; reflexivity).
    assert (Hls : forall l', In l' ls -> stripped l' /\ unbroken l')
      by (intros l' Hl'; apply H; right; exact Hl').
    destruct (parse_line l) as [e |] eqn:P.
    + cbn [map snd]. constructor; [| apply IH; exact Hls].
      destruct Hl as [Hs Hu]. exact (parse_line_readable l e Hs Hu P).
    + apply IH. exact Hls.
Qed.

Lemma get_all_backups_readable (read_file : bytes -> pyres pystr) (st : store) :
  Forall readable (map snd (get_all_backups read_file st)).
Proof.
  rewrite get_all_backups_lines. apply collect_readable. intros l Hl.
  destruct (registry_lines_member read_file st l Hl) as (Hs & Hu & _). auto.
Qed.

Lemma readable_trimmed (e : entry) : readable e -> representable (trimmed e).
Proof.
  intros (H0 & H1 & H2 & H3 & H4 & L). apply trimmed_representable; assumption.
Qed.

(** The text of the rewritten registry: the lines of the entries kept. *)
Lemma rewritten_of_entries (kept : list (nat * entry)) :
  rewritten kept
  = List.concat (map (fun e => format_entry e ++ newline) (map snd kept)).
Proof. unfold rewritten. rewrite map_map. reflexivity. Qed.

(** The rewritten text holds the lines of the trimmed entries. *)
Lemma text_lines_rewritten (kept : list (nat * entry)) :
  Forall readable (map snd kept) ->
  text_lines (rewritten kept)
  = map (fun b => format_entry (trimmed (snd b))) kept.
Proof.
  induction kept as [| b kept IH]; intros H; [reflexivity |].
  cbn [map] in H. inversion H as [| e es He Hes]; subst.
  unfold rewritten. cbn [map List.concat]. fold (rewritten kept).
  pose proof He as (H0 & H1 & H2 & H3 & H4 & L).
  unfold text_lines. rewrite <- app_assoc. change newline with ["010"%char].
  cbn [app].
  rewrite splitlines_line;
    [| apply format_entry_unbroken; assumption | reflexivity | discriminate].
  cbn [map filter]. rewrite (strip_format_entry _ L).
  destruct (format_entry_nonempty (trimmed (snd b))) as (x & t & ->).
  cbn [nonempty]. f_equal. apply IH. exact Hes.
Qed.

Lemma collect_formatted (kept : list (nat * entry)) (n : nat) :
  Forall readable (map snd kept) ->
  map snd (collect n (map (fun b => format_entry (trimmed (snd b))) kept))
  = map trimmed (map snd kept).
Proof.
  revert n. induction kept as [| b kept IH]; intros n H; [reflexivity |].
  cbn [map] in H. inversion H as [| e es He Hes]; subst.
  cbn [map collect].
  rewrite (parse_format_entry _ (readable_trimmed _ He)).
  cbn [map snd]. f_equal. apply IH. exact Hes.
Qed.

(** The listing of a rewritten registry that the reader decodes as it
    was written. *)
Lemma listing_of_rewritten (read_file : bytes -> pyres pystr)
    (kept : list (nat * entry)) (snaps : list snapshot) :
  Forall readable (map snd kept) ->
  read_file (utf8 (rewritten kept)) = Ok (rewritten kept) ->
  map snd (get_all_backups read_file
             {| registry_file := Some (utf8 (rewritten kept));
                snapshots := snaps |})
  = map trimmed (map snd kept).
Proof.
  intros Hr Hread. unfold get_all_backups. cbn [registry_file].
  rewrite (read_lines_of read_file _ _ Hread).
  rewrite (text_lines_rewritten kept Hr). apply collect_formatted. exact Hr.
Qed.

Section Loop.

Variable strptime_timestamp : pystr -> option Q.
Variable cutoff : pyfloat.

Lemma prune_loop_spec (backups : list (nat * entry)) :
  prune_loop strptime_timestamp cutoff backups
  = (filter (fun b => is_kept strptime_timestamp cutoff (snd b)) backups,
     Z.of_nat (List.length
                 (filter (fun b => is_stale strptime_timestamp cutoff (snd b))
                    backups))).
Proof.
  induction backups as [| b rest IH]; [reflexivity |].
  cbn [prune_loop filter]. rewrite IH.
  unfold is_stale.
  destruct (is_kept strptime_timestamp cutoff (snd b)); cbn [negb].
  - reflexivity.
  - cbn [List.length]. f_equal. lia.
Qed.

Lemma filter_snd (p : entry -> bool) (backups : list (nat * entry)) :
  map snd (filter (fun b => p (snd b)) backups) = filter p (map snd backups).
Proof.
  induction backups as [| b rest IH]; [reflexivity |].
  cbn [filter map]. destruct (p (snd b)); cbn [map]; rewrite IH; reflexivity.
Qed.

Lemma is_kept_trimmed (e : entry) :
  is_kept strptime_timestamp cutoff (trimmed e)
  = is_kept strptime_timestamp cutoff e.
Proof. reflexivity. Qed.

End Loop.

(** *** The snapshots kept *)

Lemma insert_by_mtime_perm (x : snapshot) (l : list snapshot) :
  Permutation (insert_by_mtime x l) (x :: l).
Proof.
  induction l as [| y t IH]; cbn [insert_by_mtime]; [apply Permutation_refl |].
  destruct (Qle_bool (snap_mtime x) (snap_mtime y)); [apply Permutation_refl |].
  apply perm_trans with (y :: x :: t); [| apply perm_swap].
  apply perm_skip. exact IH.
Qed.

(** Sorting loses no file and makes none. *)
Lemma sort_by_mtime_perm (l : list snapshot) : Permutation (sort_by_mtime l) l.
Proof.
  induction l as [| x l IH]; [apply perm_nil |].
  cbn [sort_by_mtime fold_right]. fold (sort_by_mtime l).
  apply perm_trans with (x :: sort_by_mtime l);
    [apply insert_by_mtime_perm | apply perm_skip; exact IH].
Qed.

(** Ten files or fewer are all kept. *)
Lemma keep_last_all (n : nat) (l : list snapshot) :
  (List.length l <= n)%nat -> keep_last n l = l.
Proof.
  intros H. unfold keep_last.
  replace (List.length l - n)%nat with 0%nat by lia. reflexivity.
Qed.

Lemma cleanup_keeps_few (listdir : list snapshot -> list snapshot)
    (files : list snapshot) (x : snapshot) :
  (List.length files <= 10)%nat -> Permutation (listdir files) files ->
  In x files -> In x (_cleanup_old_backups listdir files).
Proof.
  intros Hlen Hperm Hin. unfold _cleanup_old_backups.
  assert (P : Permutation (sort_by_mtime (listdir files)) files).
  { apply perm_trans with (listdir files);
      [apply sort_by_mtime_perm | exact Hperm]. }
  rewrite keep_last_all.
  - apply (Permutation_in x (Permutation_sym P)). exact Hin.
  - rewrite (Permutation_length P). exact Hlen.
Qed.

Lemma filter_none_all {A : Type} (p : A -> bool) (l : list A) :
  filter (fun x => negb (p x)) l = [] -> Forall (fun x => p x = true) l.
Proof.
  induction l as [| x l IH]; cbn [filter]; [constructor |].
  destruct (p x) eqn:E; cbn [negb]; [| discriminate].
  intros H. constructor; [exact E | exact (IH H)].
Qed.

Lemma Forall_filter {A : Type} (P : A -> Prop) (p : A -> bool) (l : list A) :
  Forall P l -> Forall P (filter p l).
Proof.
  induction 1 as [| x l Hx Hl IH]; cbn [filter]; [constructor |].
  destruct (p x); [constructor; assumption | assumption].
Qed.

(** What a pruning does, in full. *)
Lemma prune_stale_spec
    (read_file : bytes -> pyres pystr)
    (listdir : list snapshot -> list snapshot)
    (strptime_timestamp : pystr -> option Q) (now : Q) (stamp : pystr)
    (mtime : Q) (st : store) (max_age_days : Z) (cutoff : pyfloat) :
  cutoff_date now max_age_days = Ok cutoff ->
  let before := map snd (get_all_backups read_file st) in
  let stale := filter (is_stale strptime_timestamp cutoff) before in
  let fresh := filter (is_kept strptime_timestamp cutoff) before in
  let text := List.concat (map (fun e => format_entry e ++ newline) fresh) in
  exists st',
    cleanup_old_backups_from_registry read_file listdir strptime_timestamp
      now stamp mtime st max_age_days
    = Ok (st', Z.of_nat (List.length stale))
    /\ (stale = [] -> st' = st)
    /\ (stale <> [] ->
        exists content,
          registry_file st = Some content
          /\ let copy := {| snap_name := snapshot_name stamp;
                            snap_content := content;
                            snap_mtime := mtime |} in
             let files :=
               filter (fun f => negb (eqs (snap_name f) (snapshot_name stamp)))
                      (snapshots st) ++ [copy] in
             registry_file st' = Some (utf8 text)
             /\ snapshots st' = keep_last 10 (sort_by_mtime (listdir files))
             /\ ((List.length files <= 10)%nat ->
                 Permutation (listdir files) files ->
                 In copy (snapshots st'))
             /\ (read_file (utf8 text) = Ok text ->
                 map snd (get_all_backups read_file st') = map trimmed fresh))
    /\ (stale = [] \/ read_file (utf8 text) = Ok text ->
        Forall (fun e => is_kept strptime_timestamp cutoff e = true)
               (map snd (get_all_backups read_file st'))).
Proof.
  intros Hcut before stale fresh text.
  pose proof (get_all_backups_readable read_file st) as Hread.
  fold before in Hread.
  unfold cleanup_old_backups_from_registry.
  assert (Hstale : List.length stale
                   = List.length (filter (fun b => is_stale strptime_timestamp cutoff (snd b))
                                    (get_all_backups read_file st))).
  { unfold stale, before. rewrite <- filter_snd, length_map. reflexivity. }
  assert (Hfresh : fresh
                   = map snd (filter (fun b => is_kept strptime_timestamp cutoff (snd b))
                                (get_all_backups read_file st))).
  { unfold fresh, before. rewrite filter_snd. reflexivity. }
  assert (Htext : text
                  = rewritten (filter (fun b => is_kept strptime_timestamp cutoff (snd b))
                                 (get_all_backups read_file st))).
  { unfold text. rewrite rewritten_of_entries, <- Hfresh. reflexivity. }
  assert (Hall : stale = [] ->
                 Forall (fun e => is_kept strptime_timestamp cutoff e = true) before).
  { intros E. apply filter_none_all. exact E. }
  clearbody text.
  destruct (get_all_backups read_file st) as [| b bs] eqn:G.
  - exists st. split; [reflexivity |]. split; [reflexivity |].
    split; [intros N; exfalso; apply N; reflexivity |].
    intros _. rewrite G. constructor.
  - rewrite Hcut. unfold bind. rewrite prune_loop_spec. rewrite <- Hstale.
    destruct stale as [| s0 stale'] eqn:Es.
    + cbn [List.length Z.of_nat Z.ltb Z.compare].
      exists st. split; [reflexivity |]. split; [reflexivity |].
      split; [intros N; exfalso; apply N; reflexivity |].
      intros _. rewrite G. apply Hall. reflexivity.
    + replace (0 <? Z.of_nat (List.length (s0 :: stale'))) with true
        by (symmetry; apply Z.ltb_lt; cbn [List.length]; lia).
      unfold backup_registry.
      assert (Hfile : exists content, registry_file st = Some content).
      { unfold get_all_backups in G.
        destruct (registry_file st); [eauto | discriminate]. }
      destruct Hfile as (content & Hfile). rewrite Hfile. rewrite <- Htext.
      eexists. split; [reflexivity |].
      split; [discriminate |].
      assert (Hkept : Forall readable
                (map snd (filter (fun b0 => is_kept strptime_timestamp cutoff (snd b0))
                            (b :: bs)))).
      { rewrite filter_snd. apply Forall_filter. exact Hread. }
      assert (Hlist : forall snaps,
                read_file (utf8 text) = Ok text ->
                map snd (get_all_backups read_file
                  {| registry_file := Some (utf8 text); snapshots := snaps |})
                = map trimmed fresh).
      { intros snaps Hback. rewrite Htext in Hback |- *.
        rewrite (listing_of_rewritten read_file _ snaps Hkept Hback).
        rewrite Hfresh. reflexivity. }
      split.
      * intros _. exists content. split; [reflexivity |].
        cbn [registry_file snapshots].
        split; [reflexivity |]. split; [reflexivity |]. split.
        -- intros Hlen Hperm.
           apply (cleanup_keeps_few listdir _ _ Hlen Hperm).
           apply in_or_app. right. left. reflexivity.
        -- apply Hlist.
      * intros [Hnone | Hback]; [discriminate |].
        rewrite (Hlist _ Hback). rewrite Forall_forall. intros e He.
        apply in_map_iff in He. destruct He as (e' & <- & He').
        unfold fresh in He'. apply filter_In in He'. destruct He' as [_ K].
        exact K.
Qed.

(** C6, as the code has it.  The entries removed are those listed whose
    time parses and is not later than the cutoff, and their number is
    returned.  When there is none, nothing is written and no snapshot is
    taken.  When there is one, the registry is first copied to the
    snapshot of the moment, which takes the modification time of the
    registry; of the snapshots then in the directory the ten of the
    latest modification times stay, so that the copy stays when the
    directory then holds ten files or fewer.  Then the registry is
    rewritten with the lines of the entries that stay, in their old
    order.  When the reader decodes the rewritten file as it was written,
    listing it yields those entries, blanks at line ends trimmed, and no
    listed entry has a time at or before the cutoff. *)
Theorem prune_removes_stale_entries
    (read_file : bytes -> pyres pystr)
    (listdir : list snapshot -> list snapshot)
    (strptime_timestamp : pystr -> option Q) (now : Q) (stamp : pystr)
    (mtime : Q) (st : store) (max_age_days : Z) (cutoff : pyfloat) :
  cutoff_date now max_age_days = Ok cutoff ->
  let before := map snd (get_all_backups read_file st) in
  let stale := filter (is_stale strptime_timestamp cutoff) before in
  let fresh := filter (is_kept strptime_timestamp cutoff) before in
  let text := List.concat (map (fun e => format_entry e ++ newline) fresh) in
  exists st',
    cleanup_old_backups_from_registry read_file listdir strptime_timestamp
      now stamp mtime st max_age_days
    = Ok (st', Z.of_nat (List.length stale))
    /\ (stale = [] -> st' = st)
    /\ (stale <> [] ->
        exists content,
          registry_file st = Some content
          /\ let copy := {| snap_name := snapshot_name stamp;
                            snap_content := content;
                            snap_mtime := mtime |} in
             let files :=
               filter (fun f => negb (eqs (snap_name f) (snapshot_name stamp)))
                      (snapshots st) ++ [copy] in
             registry_file st' = Some (utf8 text)
             /\ snapshots st' = keep_last 10 (sort_by_mtime (listdir files))
             /\ ((List.length files <= 10)%nat ->
                 Permutation (listdir files) files ->
                 In copy (snapshots st'))
             /\ (read_file (utf8 text) = Ok text ->
                 map snd (get_all_backups read_file st') = map trimmed fresh))
    /\ (stale = [] \/ read_file (utf8 text) = Ok text ->
        Forall (fun e => is_kept strptime_timestamp cutoff e = true)
               (map snd (get_all_backups read_file st'))).
Proof.
  exact (prune_stale_spec read_file listdir strptime_timestamp now stamp mtime
           st max_age_days cutoff).
Qed.

Import RegistryScenario.

Lemma prune_removes_stale_entries_witness :
  exists st',
    cleanup_old_backups_from_registry as_written as_kept utc_timestamp
      noon noon_stamp morning (registry_of [daily_old; daily_new]) 30
    = Ok (st', 1)
    /\ registry_file st' = Some (format_entry daily_new ++ newline)
    /\ map snd (get_all_backups as_written st') = [daily_new]
    /\ In {| snap_name := snapshot_name noon_stamp;
             snap_content := format_entry daily_old ++ newline
                             ++ format_entry daily_new ++ newline;
             snap_mtime := morning |}
          (snapshots st').
Proof.
  destruct (prune_removes_stale_entries as_written as_kept utc_timestamp
              noon noon_stamp morning
              (registry_of [daily_old; daily_new]) 30
              (Fin (7192130774630400 # 4194304)))
    as (st' & E & _ & Hs & _).
  - vm_compute. reflexivity.
  - exists st'. split; [exact E |].
    destruct Hs as (content & Hc & Hf & _ & Hin & Hl); [vm_compute; discriminate |].
    split; [exact Hf |].
    split; [apply Hl; vm_compute; reflexivity |].
    injection Hc as <-.
    apply Hin; [vm_compute; lia | apply Permutation_refl].
Defined.

(** C6 as stated fails: with nothing old enough in the registry, pruning
    takes no snapshot (and writes nothing). *)
Lemma prune_without_snapshot :
  cleanup_old_backups_from_registry as_written as_kept utc_timestamp
    noon noon_stamp morning (registry_of [daily_new]) 365
  = Ok (registry_of [daily_new], 0)
  /\ snapshots (registry_of [daily_new]) = []
  /\ get_all_backups as_written (registry_of [daily_new]) = [(1%nat, daily_new)].
Proof. repeat split; vm_compute; reflexivity. Qed.

(** The copy takes the modification time of the registry, and the ten
    files of the latest times stay: beside ten snapshots of later times
    the copy just made is the file removed. *)
Lemma copy_of_old_registry_is_removed :
  exists st',
    cleanup_old_backups_from_registry as_written as_kept utc_timestamp
      noon noon_stamp january
      {| registry_file := registry_file (registry_of [daily_old; daily_new]);
         snapshots := may_snapshots |} 30
    = Ok (st', 1)
    /\ snapshots st' = may_snapshots
    /\ ~ In (snapshot_name noon_stamp) (map snap_name (snapshots st')).
Proof.
  eexists. split; [vm_compute; reflexivity |].
  split; [reflexivity |].
  cbn [snapshots]. vm_compute. intros H.
  repeat (destruct H as [H | H]; [discriminate H |]). exact H.
Qed.

End PruneFacts.

(** ** The status query of the tape drive *)

Module TapeFacts.

Import TapeDrive.

Lemma attempts_runs_bound (self : drive) (command : pystr) (retry : bool)
    (respond : nat -> run_outcome) (attempt remaining : nat) :
  (runs (snd (attempts self command retry respond attempt remaining))
   <= remaining)%nat.
Proof.
  revert attempt. induction remaining as [| k IH]; intros attempt; cbn [attempts].
  - cbn. lia.
  - destruct (respond attempt) as [code out err | |]; try (cbn; lia).
    destruct (code =? 0); [cbn; lia |].
    destruct (_ && _); [| cbn; lia].
    specialize (IH (S attempt)).
    destruct (attempts self command retry respond (S attempt) k) as [[ok o] tr].
    cbn in *. lia.
Qed.

Lemma get_status_trace (self : drive) (respond : nat -> run_outcome)
    (tapeinfo : run_outcome) :
  snd (get_status self respond tapeinfo)
  = snd (_execute_mt_command self (str "status") true respond).
Proof.
  unfold get_status.
  destruct (_execute_mt_command self (str "status") true respond) as [[ok o] tr].
  destruct ok; [destruct o |]; reflexivity.
Qed.

(** C7, as the code has it.  For a drive as the constructor builds it: a
    status command that times out, or cannot be run, is reported at once,
    after one run and no pause; one that exits with a non-zero code is run
    again after a pause of two seconds; there are never more than three
    runs; and when all three end with a non-zero code the query answers
    ERROR with the error text of the last. *)
Theorem status_retries_failed_exits (device_path : pystr)
    (respond : nat -> run_outcome) (tapeinfo : run_outcome) :
  let answer := get_status (new_drive device_path) respond tapeinfo in
  (respond 0%nat = TimeoutExpired \/ respond 0%nat = RunError ->
   snd answer = [Ran 0] /\ status (fst answer) = ERROR)
  /\ (forall code out err,
         respond 0%nat = Exited code out err -> code <> 0 ->
         exists rest, snd answer = Ran 0 :: Slept 2 :: Ran 1 :: rest)
  /\ (runs (snd answer) <= 3)%nat
  /\ (forall c0 o0 e0 c1 o1 e1 c2 o2 e2,
         respond 0%nat = Exited c0 o0 e0 -> c0 <> 0 ->
         respond 1%nat = Exited c1 o1 e1 -> c1 <> 0 ->
         respond 2%nat = Exited c2 o2 e2 -> c2 <> 0 ->
         snd answer = [Ran 0; Slept 2; Ran 1; Slept 2; Ran 2]
         /\ status (fst answer) = ERROR
         /\ last_error (fst answer) = Some (Stderr (strip e2))).
Proof.
  intros answer. unfold answer. repeat split.
  - unfold get_status, _execute_mt_command, new_drive. cbn.
    destruct H as [-> | ->]; reflexivity.
  - unfold get_status, _execute_mt_command, new_drive. cbn.
    destruct H as [-> | ->]; reflexivity.
  - intros code out err E Hc. rewrite get_status_trace.
    unfold _execute_mt_command, new_drive. cbn. rewrite E.
    destruct (Z.eqb_spec code 0); [contradiction |].
    destruct (respond 1%nat) as [c1 o1 e1 | |]; try (eexists; reflexivity).
    destruct (c1 =? 0); [eexists; reflexivity |].
    destruct (respond 2%nat) as [c2 o2 e2 | |]; try (eexists; reflexivity).
    destruct (c2 =? 0); eexists; reflexivity.
  - rewrite get_status_trace. apply attempts_runs_bound.
  - unfold get_status, _execute_mt_command, new_drive. cbn.
    rewrite H, H1, H3.
    destruct (Z.eqb_spec c0 0); [contradiction |].
    destruct (Z.eqb_spec c1 0); [contradiction |].
    destruct (Z.eqb_spec c2 0); [contradiction |]. reflexivity.
  - unfold get_status, _execute_mt_command, new_drive. cbn.
    rewrite H, H1, H3.
    destruct (Z.eqb_spec c0 0); [contradiction |].
    destruct (Z.eqb_spec c1 0); [contradiction |].
    destruct (Z.eqb_spec c2 0); [contradiction |]. reflexivity.
  - unfold get_status, _execute_mt_command, new_drive. cbn.
    rewrite H, H1, H3.
    destruct (Z.eqb_spec c0 0); [contradiction |].
    destruct (Z.eqb_spec c1 0); [contradiction |].
    destruct (Z.eqb_spec c2 0); [contradiction |]. reflexivity.
Qed.

Import TapeScenario.

Lemma status_retries_failed_exits_witness :
  snd (get_status (new_drive (str "/dev/nst0")) hanging no_tapeinfo) = [Ran 0]
  /\ status (fst (get_status (new_drive (str "/dev/nst0")) hanging no_tapeinfo))
     = ERROR.
Proof.
  apply (status_retries_failed_exits (str "/dev/nst0") hanging no_tapeinfo).
  left. reflexivity.
Defined.

(** C7 as stated fails for a command that ends with an error: the query
    runs it three times, with two pauses, before it reports; and when the
    second run works, the first failure is not reported at all. *)
Lemma status_is_reattempted :
  snd (get_status nst0 always_failing no_tapeinfo)
  = [Ran 0; Slept 2; Ran 1; Slept 2; Ran 2]
  /\ runs (snd (get_status nst0 always_failing no_tapeinfo)) = 3%nat
  /\ snd (get_status nst0 failing_once no_tapeinfo) = [Ran 0; Slept 2; Ran 1]
  /\ status (fst (get_status nst0 failing_once no_tapeinfo)) = READY
  /\ last_error (fst (get_status nst0 failing_once no_tapeinfo)) = None.
Proof. repeat split; vm_compute; reflexivity. Qed.

End TapeFacts.

(** ** Jobs, cancellation and the registry entry *)

Module JobFacts.

Import BackupJob.









Import JobScenario.




(** C4 on a running backup whose cancel lands before the second line is
    read: the pipeline is terminated and the job is marked cancelled when
    the loop is left, but the worker then records the pipeline's exit code
    as a failure, and the job ends failed. *)
Theorem cancelled_backup_ends_failed :
  let running := set_status (new_job BACKUP) RUNNING in
  let outcome := run (new_job BACKUP) backup_of_data calm (Some 1%nat) in
  monitor running (Some 1%nat) 0 (output calm) = (cancel running, true, [str "./a"])
  /\ status (cancel running) = CANCELLED
  /\ snd outcome = true
  /\ status (fst outcome) = FAILED
  /\ cancellation_event (fst outcome) = true
  /\ result (fst outcome)
     = Some (failed_result BACKUP (PipelineFailed (-15) [str "./a"])).
Proof. repeat split; vm_compute; reflexivity. Qed.

End JobFacts.

(** * Further facts *)

(** ** Exact results of binary64 operations *)

Module Float64Exact.

Import Float64Facts.

Lemma rne_multiple (den k : Z) : 0 < den -> rne (den * k) den = k.
Proof.
  intros Hd. unfold rne.
  rewrite (Z.mul_comm den k), Z.div_mul, Z.mod_mul by lia.
  replace (2 * 0 ?= den) with Lt by (symmetry; apply Z.compare_lt_iff; lia).
  reflexivity.
Qed.

(** An integer below [2^53] is a double. *)
Lemma round_pos_integer (n : Z) (d : positive) (z : Z) :
  0 < n -> n = z * Zpos d -> z < 2 ^ 53 ->
  exists r, round_pos n d = Some r /\ (r == inject_Z z)%Q.
Proof.
  intros Hn Hz Hlt.
  assert (Hz0 : 0 < z) by nia.
  pose proof (floor_log2_lower n d Hn) as L. cbv zeta in L.
  assert (He0 : floor_log2 n d <= 52).
  { destruct (Z_le_gt_dec (floor_log2 n d) 52) as [| Hbig]; [assumption | exfalso].
    rewrite Z.max_r in L by lia. rewrite Z.max_l in L by lia.
    rewrite Z.pow_0_r in L.
    assert (2 ^ 53 <= 2 ^ floor_log2 n d) by (apply Z.pow_le_mono_r; lia).
    nia. }
  unfold round_pos, significand.
  assert (He : ulp_exp n d <= 0) by (unfold ulp_exp; lia).
  set (e := ulp_exp n d) in *.
  destruct (Z.ltb_spec 971 e); [lia |].
  destruct (Z.eqb_spec e 971); [lia |]. cbn [orb andb].
  rewrite (Z.max_l 0 e) by lia. rewrite (Z.max_r 0 (- e)) by lia.
  rewrite Z.pow_0_r, Z.mul_1_r.
  replace (n * 2 ^ (- e)) with (Zpos d * (z * 2 ^ (- e))) by (rewrite Hz; ring).
  rewrite rne_multiple by lia.
  eexists. split; [reflexivity |].
  assert (P : 0 < 2 ^ (- e)) by (apply Z.pow_pos_nonneg; lia).
  clearbody e.
  destruct (Z.eq_dec e 0) as [E0 | Hne].
  - subst e. change (2 ^ (- 0)) with 1. change (pow2 0) with 1%Q.
    rewrite Z.mul_1_r, Qmult_1_r. reflexivity.
  - rewrite pow2_neg_exp by lia. unfold Qeq, Qmult. cbn [Qnum Qden inject_Z].
    rewrite Pos2Z.inj_mul, Z2Pos.id by exact P.
    change (Z.pos 1) with 1. nia.
Qed.

Lemma round_integer (q : Q) (z : Z) :
  (q == inject_Z z)%Q -> 0 <= z < 2 ^ 53 ->
  exists r, round q = Fin r /\ (r == inject_Z z)%Q.
Proof.
  intros Hq [H0 H1]. destruct q as [n d]. unfold Qeq in Hq.
  cbn [Qnum Qden inject_Z] in Hq. rewrite Z.mul_1_r in Hq.
  unfold round. cbn [Qnum Qden].
  destruct n as [| p | p].
  - exists 0%Q. split; [reflexivity |].
    assert (z = 0) by nia. subst z. reflexivity.
  - destruct (round_pos_integer (Zpos p) d z) as (r & -> & Hr); try lia.
    exists r. auto.
  - exfalso. pose proof (Pos2Z.neg_is_neg p). nia.
Qed.

Lemma trunc_integer (r : Q) (z : Z) : (r == inject_Z z)%Q -> trunc r = z.
Proof.
  intros H. unfold trunc. unfold Qeq in H. cbn [Qnum Qden inject_Z] in H.
  rewrite Z.mul_1_r in H. rewrite H. apply Z.quot_mul. discriminate.
Qed.

(** The product of two integers held as doubles is exact below [2^53]. *)
Lemma mul_integers (a b : Q) (x y : Z) :
  (a == inject_Z x)%Q -> (b == inject_Z y)%Q -> 0 <= x * y < 2 ^ 53 ->
  exists r, mul (Fin a) (Fin b) = Fin r /\ (r == inject_Z (x * y))%Q.
Proof.
  intros Ha Hb H. cbn [mul]. apply round_integer; [| exact H].
  rewrite Ha, Hb, inject_Z_mult. reflexivity.
Qed.

End Float64Exact.

(** ** Sizes written in digits *)

Module SizeFacts.

Import Float64Exact SizeText.

Lemma digit_code (c : ascii) : isdigit c = true -> 48 <= code c <= 57.
Proof. unfold isdigit. lia. Qed.

Lemma digit_differs (c x : ascii) :
  isdigit c = true -> isdigit x = false -> eqc c x = false.
Proof.
  intros Hc Hx. destruct (eqc c x) eqn:E; [| reflexivity].
  apply Ascii.eqb_eq in E. subst x. congruence.
Qed.

Lemma digit_not_space (c : ascii) : isdigit c = true -> isspace c = false.
Proof. intros H. apply digit_code in H. unfold isspace. lia. Qed.

Lemma digit_not_blank (c : ascii) : isdigit c = true -> isblank c = false.
Proof. intros H. apply digit_code in H. unfold isblank. lia. Qed.

Lemma digit_value_range (c : ascii) : isdigit c = true -> 0 <= digit_value c <= 9.
Proof. intros H. apply digit_code in H. unfold digit_value. lia. Qed.

Lemma upper_digit (c : ascii) : isdigit c = true -> upper_char c = [c].
Proof.
  intros H. apply digit_code in H. unfold upper_char.
  replace ((97 <=? code c) && (code c <=? 122)
           || (224 <=? code c) && (code c <=? 254) && negb (code c =? 247))
    with false by lia.
  replace (code c =? 223) with false by lia. reflexivity.
Qed.

Lemma lower_digit (c : ascii) : isdigit c = true -> lower_char c = c.
Proof.
  intros H. apply digit_code in H. unfold lower_char.
  replace ((65 <=? code c) && (code c <=? 90)) with false by lia. reflexivity.
Qed.

Lemma upper_digits (s : pystr) :
  Forall (fun c => isdigit c = true) s -> upper s = s.
Proof.
  unfold upper. induction 1 as [| c s Hc Hs IH]; [reflexivity |].
  cbn [flat_map]. rewrite (upper_digit c Hc), IH. reflexivity.
Qed.

(** A text that starts and ends with something else than blanks is left
    alone by the stripping of blanks; likewise for white space. *)
Lemma dropwhile_ends (p : ascii -> bool) (s : pystr) :
  Forall (fun c => p c = false) s ->
  rev (dropwhile p (rev (dropwhile p s))) = s.
Proof.
  intros H. destruct s as [| c t]; [reflexivity |].
  inversion H as [| c' t' Hc Ht]; subst.
  rewrite (StrFacts.dropwhile_stop p c t Hc).
  pose proof (Forall_rev H) as Hr.
  destruct (rev (c :: t)) as [| x r] eqn:E.
  - apply (f_equal (@rev ascii)) in E. rewrite rev_involutive in E. exact (eq_sym E).
  - inversion Hr as [| x' r' Hx Hr']; subst.
    rewrite (StrFacts.dropwhile_stop p x r Hx), <- E. apply rev_involutive.
Qed.

Lemma strip_digits (s : pystr) :
  Forall (fun c => isdigit c = true) s -> strip s = s.
Proof.
  intros H. apply (dropwhile_ends isspace).
  revert H. apply Forall_impl. exact digit_not_space.
Qed.

Lemma strip_blanks_digits (s : pystr) :
  Forall (fun c => isdigit c = true) s -> strip_blanks s = s.
Proof.
  intros H. apply (dropwhile_ends isblank).
  revert H. apply Forall_impl. exact digit_not_blank.
Qed.

Lemma digitpart_digits (s : pystr) :
  Forall (fun c => isdigit c = true) s ->
  digitpart s = (map digit_value s, []).
Proof.
  induction 1 as [| c t Hc Ht IH]; [reflexivity |].
  cbn [digitpart map]. rewrite Hc.
  destruct t as [| u t']; [reflexivity |].
  inversion Ht as [| u' t'' Hu Ht']; subst.
  rewrite (digit_differs u "_"%char Hu eq_refl).
  rewrite IH. reflexivity.
Qed.

Lemma take_sign_digits (s : pystr) :
  Forall (fun c => isdigit c = true) s -> take_sign s = (false, s).
Proof.
  intros H. destruct s as [| c t]; [reflexivity |].
  inversion H as [| c' t' Hc Ht]; subst. cbn [take_sign].
  rewrite (digit_differs c "-"%char Hc eq_refl).
  rewrite (digit_differs c "+"%char Hc eq_refl). reflexivity.
Qed.

Lemma digits_value_nonneg (ds : list Z) (acc : Z) :
  Forall (fun d => 0 <= d) ds -> 0 <= acc ->
  0 <= fold_left (fun a d => 10 * a + d) ds acc.
Proof.
  intros H. revert acc.
  induction H as [| d ds Hd Hds IH]; intros acc Ha; cbn [fold_left].
  - exact Ha.
  - apply IH. cbv beta in Hd. lia.
Qed.

Lemma number_of_nonneg (s : pystr) :
  Forall (fun c => isdigit c = true) s -> 0 <= number_of s.
Proof.
  intros H. unfold number_of, digits_value. apply digits_value_nonneg; [| lia].
  apply Forall_map. revert H. apply Forall_impl.
  intros c Hc. apply digit_value_range in Hc. lia.
Qed.

(** [int] on a text of digits: the number, unless there are more than
    4300 of them. *)
Lemma py_int_digits_capped (s : pystr) :
  digits s ->
  py_int s = if Nat.ltb MAX_STR_DIGITS (List.length s) then Raise ValueError
             else Ok (number_of s).
Proof.
  intros [Hne H]. unfold py_int.
  rewrite (strip_blanks_digits s H), (take_sign_digits s H), (digitpart_digits s H).
  rewrite length_map.
  destruct s as [| c t]; [congruence | reflexivity].
Qed.

Lemma py_int_digits (s : pystr) :
  digits s -> (List.length s <= MAX_STR_DIGITS)%nat -> py_int s = Ok (number_of s).
Proof.
  intros Hd Hlen. rewrite (py_int_digits_capped s Hd).
  destruct (Nat.ltb_spec MAX_STR_DIGITS (List.length s)); [lia | reflexivity].
Qed.

(** [float] on a text of digits that write a number below [2^53]. *)
Lemma py_float_digits (s : pystr) :
  digits s -> number_of s < 2 ^ 53 ->
  exists r, py_float s = Ok (Fin r) /\ (r == inject_Z (number_of s))%Q.
Proof.
  intros [Hne H] Hlt. unfold py_float.
  rewrite (strip_blanks_digits s H), (take_sign_digits s H).
  destruct s as [| c t]; [congruence |].
  inversion H as [| c' t' Hc Ht]; subst.
  assert (W : forall word, eqs (map lower_char (c :: t)) (str word) = false
                           \/ word = EmptyString
                           \/ exists x w, word = String x w /\ isdigit x = true).
  { intros [| x w]; [right; left; reflexivity |].
    destruct (isdigit x) eqn:Ex; [right; right; eauto |].
    left. cbn [map str list_ascii_of_string eqs].
    rewrite (lower_digit c Hc), (digit_differs c x Hc Ex). reflexivity. }
  destruct (W "inf"%string) as [-> | [E | (x & w & E & Hx)]];
    [| discriminate | injection E as <- _; discriminate].
  destruct (W "infinity"%string) as [-> | [E | (x & w & E & Hx)]];
    [| discriminate | injection E as <- _; discriminate].
  destruct (W "nan"%string) as [-> | [E | (x & w & E & Hx)]];
    [| discriminate | injection E as <- _; discriminate].
  cbn [orb]. unfold float_literal.
  rewrite (digitpart_digits (c :: t) H). rewrite app_nil_r.
  cbn [map exponent_part List.length Z.of_nat].
  unfold decimal. change (0 - 0) with 0. change (0 <=? 0) with true. cbv iota.
  change (map digit_value (c :: t)) with (digit_value c :: map digit_value t).
  destruct (round_integer (inject_Z (digits_value (digit_value c :: map digit_value t) * 10 ^ 0))
              (number_of (c :: t))) as (r & -> & Hr).
  - change (10 ^ 0) with 1. rewrite Z.mul_1_r. reflexivity.
  - split; [apply number_of_nonneg; exact H | exact Hlt].
  - exists r. auto.
Qed.

Lemma startswith_nil (s : pystr) : startswith s [] = true.
Proof. destruct s; reflexivity. Qed.

Lemma endswith_last (s : pystr) (c x : ascii) :
  endswith (s ++ [c]) [x] = eqc x c.
Proof.
  unfold endswith. rewrite rev_app_distr. cbn [rev app startswith].
  rewrite startswith_nil. apply andb_true_r.
Qed.

Lemma digits_last (s : pystr) :
  digits s -> exists s' c, s = s' ++ [c] /\ isdigit c = true.
Proof.
  intros [Hne H]. destruct (exists_last Hne) as (s' & c & ->).
  exists s', c. split; [reflexivity |].
  apply Forall_app in H. destruct H as [_ H]. inversion H; assumption.
Qed.

Lemma endswith_letter_digits (s : pystr) (x : ascii) :
  digits s -> isdigit x = false -> endswith s [x] = false.
Proof.
  intros Hd Hx. destruct (digits_last s Hd) as (s' & c & -> & Hc).
  rewrite endswith_last. destruct (eqc x c) eqn:E; [| reflexivity].
  apply Ascii.eqb_eq in E. subst x. congruence.
Qed.

(** X1.  A size written in digits alone is the number of bytes they write,
    as long as there are at most 4300 digits; with more digits [int]
    refuses the text and the parser answers with its default of 2 GiB. *)
Theorem parse_plain_digits (s : pystr) :
  digits s ->
  _parse_mbuffer_size s
  = Ok (if Nat.leb (List.length s) MAX_STR_DIGITS then number_of s
        else DEFAULT_SIZE).
Proof.
  intros Hd. pose proof Hd as [_ H]. unfold _parse_mbuffer_size.
  rewrite (upper_digits s H), (strip_digits s H).
  unfold multipliers. cbn [suffix_loop].
  change (str "K") with ["K"%char]. change (str "M") with ["M"%char].
  change (str "G") with ["G"%char]. change (str "T") with ["T"%char].
  rewrite !(endswith_letter_digits s) by (exact Hd || reflexivity).
  rewrite (py_int_digits_capped s Hd).
  destruct (Nat.ltb_spec MAX_STR_DIGITS (List.length s)) as [Hbig | Hfit];
    destruct (Nat.leb_spec (List.length s) MAX_STR_DIGITS); try lia; reflexivity.
Qed.

Lemma parse_plain_digits_witness :
  _parse_mbuffer_size (str "1048576")
  = Ok (if Nat.leb (List.length (str "1048576")) MAX_STR_DIGITS
        then number_of (str "1048576") else DEFAULT_SIZE).
Proof.
  apply (parse_plain_digits (str "1048576")).
  split; [discriminate |]. repeat (apply Forall_cons; [reflexivity |]).
  apply Forall_nil.
Defined.

Lemma of_int_exact (z : Z) :
  0 <= z < 2 ^ 53 -> exists r, of_int z = Ok (Fin r) /\ (r == inject_Z z)%Q.
Proof.
  intros H. unfold of_int.
  destruct (round_integer (inject_Z z) z) as (r & -> & Hr);
    [reflexivity | exact H |].
  exists r. auto.
Qed.

(** The body under a suffix, for digits and a product below [2^53]. *)
Lemma suffix_body_digits (s : pystr) (multiplier : Z) :
  digits s -> 1 <= multiplier < 2 ^ 53 ->
  number_of s * multiplier < 2 ^ 53 ->
  suffix_body s multiplier = Ok (number_of s * multiplier).
Proof.
  intros Hd Hm Hlt. pose proof Hd as [_ H].
  pose proof (number_of_nonneg s H) as Hv.
  assert (Hv' : number_of s <= number_of s * multiplier) by nia.
  assert (Hp0 : 0 <= number_of s * multiplier) by nia.
  unfold suffix_body, scaled_number.
  destruct (py_float_digits s Hd) as (r & -> & Hr); [lia |].
  destruct (of_int_exact multiplier) as (mq & -> & Hmq); [lia |].
  unfold bind.
  destruct (mul_integers r mq (number_of s) multiplier Hr Hmq) as (p & -> & Hp);
    [lia |].
  cbn [to_int]. rewrite (trunc_integer p _ Hp). reflexivity.
Qed.

Lemma strip_digits_letter (s : pystr) (x : ascii) :
  Forall (fun c => isdigit c = true) s -> isspace x = false ->
  strip (s ++ [x]) = s ++ [x].
Proof.
  intros H Hx. apply (dropwhile_ends isspace). apply Forall_app. split.
  - revert H. apply Forall_impl. exact digit_not_space.
  - constructor; [exact Hx | constructor].
Qed.

Lemma upper_digits_letter (s : pystr) (x : ascii) :
  Forall (fun c => isdigit c = true) s ->
  upper (s ++ [x]) = s ++ upper_char x.
Proof.
  intros H. unfold upper. rewrite flat_map_app. fold (upper s).
  rewrite (upper_digits s H). cbn [flat_map]. rewrite app_nil_r. reflexivity.
Qed.

(** X2.  A size written in digits and one suffix letter, of either case, is
    the number times the multiplier of the letter, as long as the product
    is below [2^53]. *)
Theorem parse_digits_with_suffix (s : pystr) (letter : ascii) (multiplier : Z) :
  digits s ->
  In (letter, multiplier) suffix_letters ->
  number_of s * multiplier < 2 ^ 53 ->
  _parse_mbuffer_size (s ++ [letter]) = Ok (number_of s * multiplier).
Proof.
  intros Hd Hin Hlt. pose proof Hd as [_ H].
  unfold _parse_mbuffer_size. rewrite (upper_digits_letter s letter H).
  unfold suffix_letters in Hin. cbn [In] in Hin.
  repeat (destruct Hin as [E | Hin];
    [injection E as <- <-;
     match goal with
     | |- context [upper_char ?c] =>
         let u := eval vm_compute in (upper_char c) in
         change (upper_char c) with u
     end;
     match goal with
     | |- context [strip (s ++ [?c])] =>
         rewrite (strip_digits_letter s c H eq_refl)
     end;
     unfold multipliers; cbn [suffix_loop];
     change (str "K") with ["K"%char]; change (str "M") with ["M"%char];
     change (str "G") with ["G"%char]; change (str "T") with ["T"%char];
     rewrite !endswith_last; cbn [eqc Ascii.eqb Bool.eqb andb];
     unfold drop_last; rewrite removelast_last;
     rewrite (suffix_body_digits s _ Hd)
       by (first [exact Hlt | split; [discriminate | reflexivity]]);
     reflexivity |]).
  contradiction.
Qed.

Lemma parse_digits_with_suffix_witness :
  _parse_mbuffer_size (str "512m") = Ok (512 * (1024 * 1024)).
Proof.
  apply (parse_digits_with_suffix (str "512") "m"%char (1024 * 1024)).
  - split; [discriminate |]. repeat (apply Forall_cons; [reflexivity |]).
    apply Forall_nil.
  - cbn. tauto.
  - vm_compute. reflexivity.
Defined.

End SizeFacts.

(** ** The resource checks and the planner, for any sample *)

Module CheckFacts.

Import Float64Facts MonitorFacts MBufferOptimizer.

Lemma disk_status_spec (d : disk_usage) (required_space : option Z) :
  let required := match required_space with
                  | Some r => r
                  | None => MIN_DISK_SPACE_FOR_TEMP
                  end in
  0 <= du_free d < LIMIT -> required < LIMIT ->
  check_disk_space (Some d) required_space
  = if du_free d <? required then CRITICAL
    else if du_free d <? required * 2 then WARNING
    else OK.
Proof.
  intros required Hf Hr. unfold check_disk_space. fold required.
  destruct (format_bytes_ok (du_free d) Hf) as (a & ->). unfold bind at 1 3 4.
  destruct (Z.ltb_spec (du_free d) required) as [Hlow |].
  - destruct (format_bytes_ok required) as (b & ->); [lia |]. reflexivity.
  - destruct (du_free d <? required * 2); reflexivity.
Qed.

(** X3.  The disk check on a readable disk: formatting the figures does not
    fail, so the answer is decided by the two thresholds alone and is
    never UNKNOWN. *)
Theorem disk_status_by_thresholds (d : disk_usage) (required_space : option Z) :
  let required := match required_space with
                  | Some r => r
                  | None => MIN_DISK_SPACE_FOR_TEMP
                  end in
  0 <= du_free d < LIMIT -> required < LIMIT ->
  check_disk_space (Some d) required_space
  = if du_free d <? required then CRITICAL
    else if du_free d <? required * 2 then WARNING
    else OK.
Proof. exact (disk_status_spec d required_space). Qed.

Lemma disk_status_by_thresholds_witness :
  check_disk_space (Some {| du_free := 1610612736; du_percent := Fin 50 |}) None
  = WARNING.
Proof.
  apply (disk_status_by_thresholds
           {| du_free := 1610612736; du_percent := Fin 50 |} None).
  - vm_compute. split; [discriminate | reflexivity].
  - vm_compute. reflexivity.
Defined.

(** The memory check on any sample in range: what it returns, branch by
    branch. *)
Lemma memory_check_cases (self : monitor) (metrics : ResourceMetrics) :
  0 <= memory_available metrics < LIMIT ->
  0 <= mbuffer_size self < LIMIT ->
  exists ratio, memory_usage_ratio metrics = Ok ratio /\
  ((memory_available metrics < MIN_MEMORY_FOR_MBUFFER
    /\ exists msg, check_memory_for_mbuffer self metrics = Ok (CRITICAL, msg, 0))
   \/ (MIN_MEMORY_FOR_MBUFFER <= memory_available metrics
       /\ memory_available metrics - MIN_MEMORY_FOR_MBUFFER < mbuffer_size self
       /\ exists msg z,
            0 <= z <= memory_available metrics - MIN_MEMORY_FOR_MBUFFER
            /\ check_memory_for_mbuffer self metrics
               = Ok (shortage_status ratio, msg, Z.max MIN_MEMORY_FOR_MBUFFER z))
   \/ (MIN_MEMORY_FOR_MBUFFER <= memory_available metrics
       /\ mbuffer_size self <= memory_available metrics - MIN_MEMORY_FOR_MBUFFER
       /\ exists msg,
            check_memory_for_mbuffer self metrics
            = Ok (if gtb ratio CRITICAL_MEMORY_THRESHOLD then CRITICAL
                  else if gtb ratio WARNING_MEMORY_THRESHOLD then WARNING
                  else OK, msg, mbuffer_size self))).
Proof.
  intros Ha Hr. pose proof MIN_lt_LIMIT as L.
  assert (M0 : 0 < MIN_MEMORY_FOR_MBUFFER) by (vm_compute; reflexivity).
  unfold check_memory_for_mbuffer.
  destruct (memory_usage_ratio_ok metrics Ha) as (ratio & ->).
  exists ratio. split; [reflexivity |].
  unfold bind at 1 3 5.
  destruct (Z.ltb_spec (memory_available metrics) MIN_MEMORY_FOR_MBUFFER) as [Hlow | Hhigh].
  - left. split; [exact Hlow |].
    destruct (format_bytes_ok (memory_available metrics) Ha) as (a & ->).
    destruct (format_bytes_ok MIN_MEMORY_FOR_MBUFFER) as (b & ->); [lia |].
    unfold bind. eauto.
  - right.
    set (am := memory_available metrics - MIN_MEMORY_FOR_MBUFFER) in *.
    assert (Ham : 0 <= am < LIMIT) by (unfold am; lia).
    destruct (format_bytes_ok am Ham) as (a & Ea).
    destruct (Z.ltb_spec am (mbuffer_size self)) as [Hred | Hfit].
    + left. split; [exact Hhigh |]. split; [exact Hred |].
      destruct (reduced_size_spec am Ham) as (z & Ez & Bz & ->).
      unfold bind at 1. rewrite Ea. unfold bind at 1.
      destruct (format_bytes_ok (mbuffer_size self)) as (b & ->); [lia |].
      unfold bind at 1.
      destruct (format_bytes_ok (Z.max MIN_MEMORY_FOR_MBUFFER z)) as (c & ->); [lia |].
      unfold bind at 1. eexists. exists z. split; [exact Bz | reflexivity].
    + right. split; [exact Hhigh |]. split; [exact Hfit |].
      rewrite Ea. unfold bind.
      destruct (gtb ratio CRITICAL_MEMORY_THRESHOLD);
        [| destruct (gtb ratio WARNING_MEMORY_THRESHOLD)]; eauto.
Qed.

Lemma shortage_not_ok (ratio : pyfloat) :
  shortage_status ratio = CRITICAL \/ shortage_status ratio = WARNING.
Proof.
  unfold shortage_status.
  destruct (gtb ratio CRITICAL_MEMORY_THRESHOLD); [left; reflexivity |].
  destruct (gtb ratio WARNING_MEMORY_THRESHOLD); right; reflexivity.
Qed.

(** X4.  The memory check answers OK only when the whole request fits into the
    memory left above the 512 MiB floor, and then it recommends the size
    that was asked for.  It returns for every sample in range and never
    answers UNKNOWN. *)
Theorem memory_ok_means_request_fits (self : monitor) (metrics : ResourceMetrics) :
  0 <= memory_available metrics < LIMIT ->
  0 <= mbuffer_size self < LIMIT ->
  exists status msg recommended,
    check_memory_for_mbuffer self metrics = Ok (status, msg, recommended)
    /\ status <> UNKNOWN
    /\ (status = OK ->
        mbuffer_size self <= memory_available metrics - MIN_MEMORY_FOR_MBUFFER
        /\ recommended = mbuffer_size self).
Proof.
  intros Ha Hr.
  destruct (memory_check_cases self metrics Ha Hr)
    as (ratio & _ & [(_ & msg & E) | [(_ & _ & msg & z & _ & E) | (_ & Hfit & msg & E)]]).
  - do 3 eexists. split; [exact E |]. split; discriminate.
  - do 3 eexists. split; [exact E |].
    destruct (shortage_not_ok ratio) as [-> | ->]; split; discriminate.
  - do 3 eexists. split; [exact E |]. split.
    + destruct (gtb ratio CRITICAL_MEMORY_THRESHOLD);
        [| destruct (gtb ratio WARNING_MEMORY_THRESHOLD)]; discriminate.
    + intros _. split; [exact Hfit | reflexivity].
Qed.

Lemma memory_ok_means_request_fits_witness :
  exists status msg recommended,
    check_memory_for_mbuffer {| mbuffer_size := 1073741824 |}
      (Scenario.snapshot 8589934592 4294967296) = Ok (status, msg, recommended)
    /\ status <> UNKNOWN
    /\ (status = OK ->
        1073741824 <= 4294967296 - MIN_MEMORY_FOR_MBUFFER
        /\ recommended = 1073741824).
Proof.
  apply (memory_ok_means_request_fits {| mbuffer_size := 1073741824 |}
           (Scenario.snapshot 8589934592 4294967296)).
  - vm_compute. split; [discriminate | reflexivity].
  - vm_compute. split; [discriminate | reflexivity].
Defined.

(** X5.  Once the sample is at or above the floor, the recommended size is the
    floor itself or fits into the memory left above the floor: it never
    exceeds the larger of the two. *)
Theorem recommendation_fits_above_floor (self : monitor) (metrics : ResourceMetrics) :
  MIN_MEMORY_FOR_MBUFFER <= memory_available metrics < LIMIT ->
  0 <= mbuffer_size self < LIMIT ->
  exists status msg recommended,
    check_memory_for_mbuffer self metrics = Ok (status, msg, recommended)
    /\ recommended
       <= Z.max MIN_MEMORY_FOR_MBUFFER
                (memory_available metrics - MIN_MEMORY_FOR_MBUFFER)
    /\ recommended <= Z.max MIN_MEMORY_FOR_MBUFFER (mbuffer_size self).
Proof.
  intros Ha Hr.
  assert (M0 : 0 < MIN_MEMORY_FOR_MBUFFER) by (vm_compute; reflexivity).
  destruct (memory_check_cases self metrics) as
    (ratio & _ & [(Hlow & _) | [(_ & Hred & msg & z & Bz & E) | (_ & Hfit & msg & E)]]);
    [lia | exact Hr | lia | |].
  - do 3 eexists. split; [exact E |]. lia.
  - do 3 eexists. split; [exact E |]. lia.
Qed.

Lemma recommendation_fits_above_floor_witness :
  exists status msg recommended,
    check_memory_for_mbuffer {| mbuffer_size := 104857600 |}
      (Scenario.snapshot 8589934592 629145600) = Ok (status, msg, recommended)
    /\ recommended <= Z.max MIN_MEMORY_FOR_MBUFFER (629145600 - MIN_MEMORY_FOR_MBUFFER)
    /\ recommended <= Z.max MIN_MEMORY_FOR_MBUFFER 104857600.
Proof.
  apply (recommendation_fits_above_floor {| mbuffer_size := 104857600 |}
           (Scenario.snapshot 8589934592 629145600)).
  - vm_compute. split; [discriminate | reflexivity].
  - vm_compute. split; [discriminate | reflexivity].
Defined.

(** [int(a * c)] for a double [c] between 0 and 0.9 exists and does not
    exceed [a]. *)
Lemma scaled_down (a : Z) (c : Q) :
  0 <= a < LIMIT -> (0 <= c)%Q -> (c <= 9 # 10)%Q ->
  exists z, (f <- int_mul a (Fin c) ;; to_int f) = Ok z /\ 0 <= z <= a.
Proof.
  intros H C0 C1. unfold int_mul.
  destruct (of_int_nonneg a H) as (r & -> & R0 & R1). unfold bind. unfold mul.
  assert (P0 : (0 <= r * c)%Q) by (apply Qmult_le_0_compat; assumption).
  assert (P2 : (r * c <= r * (9 # 10))%Q).
  { rewrite (Qmult_comm r c), (Qmult_comm r (9 # 10)).
    apply Qmult_le_compat_r; assumption. }
  assert (P1 : (r * c < inject_Z a + 1)%Q).
  { revert R0 R1 P2. generalize (r * c)%Q (inject_Z a). clear. intros. lra. }
  destruct (round_nonneg_spec (r * c)) as (r2 & -> & S0 & S1).
  - exact P0.
  - eapply Qlt_le_trans; [exact P1 |].
    change 1%Q with (inject_Z 1). rewrite <- inject_Z_plus. rewrite <- Zle_Qle.
    fold LIMIT. lia.
  - exists (trunc r2). split; [reflexivity |].
    apply trunc_le; [exact S0 |].
    rewrite inject_Z_plus. change (inject_Z 1) with 1%Q.
    rewrite eps_value in S1. pose proof tiny_le_quarter as T.
    assert (A0 : (0 <= inject_Z a)%Q).
    { change 0%Q with (inject_Z 0). rewrite <- Zle_Qle. lia. }
    revert R0 R1 S1 T A0 P2 P0.
    generalize (pow2 (-1074)) (r * c)%Q (inject_Z a). clear.
    intros. lra.
Qed.

Lemma lit_half : exists c, lit (5 # 10) = Fin c /\ (0 <= c)%Q /\ (c <= 9 # 10)%Q.
Proof.
  eexists. split; [vm_compute; reflexivity |].
  split; unfold Qle; vm_compute; discriminate.
Qed.

Lemma lit_three_quarters :
  exists c, lit (75 # 100) = Fin c /\ (0 <= c)%Q /\ (c <= 9 # 10)%Q.
Proof.
  eexists. split; [vm_compute; reflexivity |].
  split; unfold Qle; vm_compute; discriminate.
Qed.

(** The planner's size never exceeds a recommendation that is itself
    within a request of at least the floor. *)
Lemma plan_buffer_size_bound (status : ResourceStatus) (recommended request : Z) :
  0 <= recommended <= request -> MIN_MEMORY_FOR_MBUFFER <= request < LIMIT ->
  exists b, plan_buffer_size status recommended = Ok b /\ 0 <= b <= request.
Proof.
  intros Hrec Hreq.
  assert (M0 : 0 < MIN_MEMORY_FOR_MBUFFER) by (vm_compute; reflexivity).
  assert (Hin : 0 <= recommended < LIMIT) by lia.
  unfold plan_buffer_size. destruct status.
  - exists recommended. split; [reflexivity | lia].
  - destruct lit_three_quarters as (c & -> & C0 & C1).
    destruct (scaled_down recommended c Hin C0 C1) as (z & -> & Bz).
    exists z. split; [reflexivity | lia].
  - destruct lit_half as (c & -> & C0 & C1).
    destruct (scaled_down recommended c Hin C0 C1) as (z & Ez & Bz).
    exists (Z.max MIN_MEMORY_FOR_MBUFFER z). split; [| lia].
    destruct (int_mul recommended (Fin c)) as [f |]; [| discriminate].
    cbn [bind] in *. rewrite Ez. reflexivity.
  - exists recommended. split; [reflexivity | lia].
Qed.

Lemma size_string_ok (b : Z) : 0 <= b < LIMIT -> exists s, size_string b = Ok s.
Proof.
  intros H. unfold size_string.
  destruct (GiB <=? b); [| destruct (MiB <=? b)];
    match goal with
    | |- context [int_truediv b ?d] =>
        destruct (int_truediv_ok b d H) as (r & ->); [reflexivity |]
    end; unfold bind; eauto.
Qed.

Lemma planned_size_bound_aux (self : monitor) (metrics : ResourceMetrics) :
  0 <= memory_available metrics < LIMIT ->
  MIN_MEMORY_FOR_MBUFFER <= mbuffer_size self < LIMIT ->
  exists status msg recommended planned,
    check_memory_for_mbuffer self metrics = Ok (status, msg, recommended)
    /\ plan_buffer_size status recommended = Ok planned
    /\ 0 <= planned <= mbuffer_size self.
Proof.
  intros Ha Hr.
  assert (M0 : 0 < MIN_MEMORY_FOR_MBUFFER) by (vm_compute; reflexivity).
  assert (Hr' : 0 <= mbuffer_size self < LIMIT) by lia.
  destruct (memory_check_cases self metrics Ha Hr')
    as (ratio & _ & [(_ & msg & E) | [(_ & Hred & msg & z & Bz & E) | (_ & Hfit & msg & E)]]).
  - destruct (plan_buffer_size_bound CRITICAL 0 (mbuffer_size self)) as (b & Eb & Bb);
      [lia | exact Hr |].
    do 4 eexists. split; [exact E |]. split; [exact Eb | exact Bb].
  - destruct (plan_buffer_size_bound (shortage_status ratio)
                (Z.max MIN_MEMORY_FOR_MBUFFER z) (mbuffer_size self))
      as (b & Eb & Bb); [lia | exact Hr |].
    do 4 eexists. split; [exact E |]. split; [exact Eb | exact Bb].
  - match type of E with
    | _ = Ok (?st, _, _) =>
        destruct (plan_buffer_size_bound st (mbuffer_size self) (mbuffer_size self))
          as (b & Eb & Bb); [lia | exact Hr |]
    end.
    do 4 eexists. split; [exact E |]. split; [exact Eb | exact Bb].
Qed.

(** X6.  For a request of at least the floor the size the planner settles on
    is never more than the request, whatever the sample. *)
Theorem planned_size_within_request (self : monitor) (metrics : ResourceMetrics) :
  0 <= memory_available metrics < LIMIT ->
  MIN_MEMORY_FOR_MBUFFER <= mbuffer_size self < LIMIT ->
  exists status msg recommended planned,
    check_memory_for_mbuffer self metrics = Ok (status, msg, recommended)
    /\ plan_buffer_size status recommended = Ok planned
    /\ 0 <= planned <= mbuffer_size self.
Proof. exact (planned_size_bound_aux self metrics). Qed.

Lemma planned_size_within_request_witness :
  exists status msg recommended planned,
    check_memory_for_mbuffer {| mbuffer_size := 4294967296 |}
      (Scenario.snapshot 8589934592 2147483648) = Ok (status, msg, recommended)
    /\ plan_buffer_size status recommended = Ok planned
    /\ 0 <= planned <= 4294967296.
Proof.
  apply (planned_size_within_request {| mbuffer_size := 4294967296 |}
           (Scenario.snapshot 8589934592 2147483648)).
  - vm_compute. split; [discriminate | reflexivity].
  - vm_compute. split; [discriminate | reflexivity].
Defined.

(** X7.  The planner given a monitor whose request is at least the floor
    returns a plan for every sample in range.  The plan has 512k blocks
    exactly when the disk check is CRITICAL, 1M blocks only for a request
    above 2 GiB, and carries the warning text exactly when the memory
    status is not "ok". *)
Theorem planner_returns_a_plan
    (size_text : option pystr) (self : monitor) (sys : system_state) :
  0 <= memory_available (sampled sys) < LIMIT ->
  MIN_MEMORY_FOR_MBUFFER <= mbuffer_size self < LIMIT ->
  exists p,
    get_optimal_mbuffer_params size_text (Some self) sys = Ok p
    /\ (block_size p = str "512k"
        <-> check_disk_space (temp_disk sys) None = CRITICAL)
    /\ (block_size p = str "1M" -> 2 * GiB < mbuffer_size self)
    /\ (warning p = None <-> memory_status p = str "ok").
Proof.
  intros Ha Hr.
  destruct (planned_size_bound_aux self (sampled sys) Ha Hr)
    as (status & msg & recommended & b & E & Eb & Bb).
  unfold get_optimal_mbuffer_params, check_all_resources.
  unfold bind at 1 2 3. rewrite E. unfold bind at 2. cbn [res_memory res_disk].
  rewrite Eb. unfold bind at 1.
  destruct (size_string_ok b) as (s & ->); [lia |]. unfold bind.
  eexists. split; [reflexivity |].
  cbn [block_size warning memory_status]. unfold block_size_for.
  split; [| split].
  - destruct (check_disk_space (temp_disk sys) None);
      try (destruct (2 * GiB <? b)); split; (reflexivity || discriminate).
  - destruct (check_disk_space (temp_disk sys) None); try discriminate;
      (destruct (Z.ltb_spec (2 * GiB) b); [intros _; lia | discriminate]).
  - destruct status; split; (reflexivity || discriminate).
Qed.

Lemma planner_returns_a_plan_witness :
  exists p,
    get_optimal_mbuffer_params None (Some {| mbuffer_size := 4294967296 |})
      (Scenario.machine 8589934592 2147483648) = Ok p
    /\ (block_size p = str "512k"
        <-> check_disk_space (temp_disk (Scenario.machine 8589934592 2147483648)) None
            = CRITICAL)
    /\ (block_size p = str "1M" -> 2 * GiB < 4294967296)
    /\ (warning p = None <-> memory_status p = str "ok").
Proof.
  apply (planner_returns_a_plan None {| mbuffer_size := 4294967296 |}
           (Scenario.machine 8589934592 2147483648)).
  - vm_compute. split; [discriminate | reflexivity].
  - vm_compute. split; [discriminate | reflexivity].
Defined.

(** X8.  A sample below the 512 MiB floor: whatever was requested, the planner
    still hands out a buffer of the floor size, "512M" at 70% fill, with
    the status "critical" and the warning text. *)
Theorem plan_below_floor_is_512M
    (size_text : option pystr) (self : monitor) (sys : system_state) :
  0 <= memory_available (sampled sys) < MIN_MEMORY_FOR_MBUFFER ->
  exists msg,
    get_optimal_mbuffer_params size_text (Some self) sys
    = Ok {| size := str "512M"; fill_percent := str "70%";
            block_size := disk_block sys;
            memory_status := str "critical"; warning := Some msg |}.
Proof.
  intros Ha. pose proof MIN_lt_LIMIT as L.
  unfold get_optimal_mbuffer_params, check_all_resources, check_memory_for_mbuffer.
  destruct (memory_usage_ratio_ok (sampled sys)) as (ratio & ->); [lia |].
  unfold bind at 1 2 3 4.
  destruct (Z.ltb_spec (memory_available (sampled sys)) MIN_MEMORY_FOR_MBUFFER); [| lia].
  destruct (format_bytes_ok (memory_available (sampled sys))) as (a & ->); [lia |].
  destruct (format_bytes_ok MIN_MEMORY_FOR_MBUFFER) as (b & ->).
  { split; [vm_compute; discriminate | exact L]. }
  unfold bind at 1 2. cbn [res_memory res_disk].
  replace (plan_buffer_size CRITICAL 0) with (Ok (A := Z) 536870912)
    by (vm_compute; reflexivity).
  unfold bind at 1.
  replace (size_string 536870912) with (Ok (str "512M"))
    by (vm_compute; reflexivity).
  unfold bind. eexists.
  unfold block_size_for, disk_block.
  destruct (check_disk_space (temp_disk sys) None); reflexivity.
Qed.

Lemma plan_below_floor_is_512M_witness :
  exists msg,
    get_optimal_mbuffer_params None (Some {| mbuffer_size := 4294967296 |})
      (Scenario.machine 8589934592 268435456)
    = Ok {| size := str "512M"; fill_percent := str "70%";
            block_size := disk_block (Scenario.machine 8589934592 268435456);
            memory_status := str "critical"; warning := Some msg |}.
Proof.
  apply (plan_below_floor_is_512M None {| mbuffer_size := 4294967296 |}
           (Scenario.machine 8589934592 268435456)).
  vm_compute. split; [discriminate | reflexivity].
Defined.

End CheckFacts.

(** ** Listing, finding and pruning, for any registry *)

Module ListingFacts.

Import StrFacts Registry RegistryFacts PruneFacts RegistryScenario.

Lemma collect_app (n : nat) (ls rest : list pystr) :
  collect n (ls ++ rest) = collect n ls ++ collect (n + List.length ls) rest.
Proof.
  revert n. induction ls as [| l ls IH]; intros n; cbn [app collect List.length].
  - rewrite Nat.add_0_r. reflexivity.
  - rewrite IH. replace (S n + List.length ls)%nat with (n + S (List.length ls))%nat by lia.
    destruct (parse_line l); reflexivity.
Qed.

Lemma listing_after_append (read_file : bytes -> pyres pystr) (st : store)
    (e : entry) (before : pystr) :
  representable e ->
  reads_as read_file st before ->
  reads_as read_file (fst (add_registry_entry st e))
           (before ++ format_entry e ++ newline) ->
  on_boundary before = true ->
  get_all_backups read_file (fst (add_registry_entry st e))
  = get_all_backups read_file st
    ++ [(S (List.length (registry_lines read_file st)), e)].
Proof.
  intros R Hold Hnew Hb. rewrite !get_all_backups_lines.
  rewrite (lines_after_append read_file st e before R Hnew Hb).
  rewrite (registry_lines_of read_file st before Hold), collect_app.
  cbn [collect]. rewrite (parse_format_entry e R). reflexivity.
Qed.

(** X9.  Appending an entry and listing the registry, when the reader makes
    of the file after the append the text it made before, followed by the
    line of the entry: the old list comes back unchanged, followed by the
    new entry under the number of its line. *)
Theorem append_then_list (read_file : bytes -> pyres pystr) (st : store)
    (e : entry) (before : pystr) :
  representable e ->
  reads_as read_file st before ->
  reads_as read_file (fst (add_registry_entry st e))
           (before ++ format_entry e ++ newline) ->
  on_boundary before = true ->
  get_all_backups read_file (fst (add_registry_entry st e))
  = get_all_backups read_file st
    ++ [(S (List.length (registry_lines read_file st)), e)].
Proof. exact (listing_after_append read_file st e before). Qed.

Lemma append_then_list_witness :
  get_all_backups as_written (fst (add_registry_entry (registry_of [weekly]) daily_old))
  = get_all_backups as_written (registry_of [weekly])
    ++ [(S (List.length (registry_lines as_written (registry_of [weekly]))),
         daily_old)].
Proof.
  apply (append_then_list as_written (registry_of [weekly]) daily_old
           (format_entry weekly ++ newline)).
  - unfold daily_old, backup_entry. representable_text.
  - vm_compute. reflexivity.
  - vm_compute. reflexivity.
  - reflexivity.
Defined.

(** X10.  [find_backup_by_label] gives nothing exactly when every line that
    contains the text has fewer than five fields; in particular for a
    missing or empty registry, for a file that cannot be read, and for a
    text that no line contains.  The lines are those that the reader
    yields, whatever it makes of the file. *)
Theorem find_none_iff (read_file : bytes -> pyres pystr) (st : store)
    (lbl : pystr) :
  find_backup_by_label read_file st lbl = None
  <-> (forall line, In line (registry_lines read_file st) ->
                    contains lbl line = true -> parse_line line = None).
Proof. rewrite find_scans_lines. apply scan_none. Qed.

(** X11.  A hit of [find_backup_by_label] is the first line, of those that
    the reader yields, that contains the text and has five fields: it
    carries the number of that line, and every line before it lacks the
    text or has too few fields. *)
Theorem find_is_first_match (read_file : bytes -> pyres pystr) (st : store)
    (lbl : pystr) (f : found) :
  find_backup_by_label read_file st lbl = Some f ->
  exists before line after,
    registry_lines read_file st = before ++ line :: after
    /\ line_number f = S (List.length before)
    /\ contains lbl line = true
    /\ parse_line line = Some (fields f)
    /\ raw_line f = strip line
    /\ (forall l, In l before ->
                  contains lbl l = false \/ parse_line l = None).
Proof.
  rewrite find_scans_lines. intros H. exact (scan_first _ _ _ _ H).
Qed.

Lemma find_is_first_match_witness :
  exists before line after,
    registry_lines as_written (registry_of [weekly; daily_old; daily_new])
    = before ++ line :: after
    /\ line_number {| line_number := 2; fields := daily_old;
                      raw_line := format_entry daily_old |}
       = S (List.length before)
    /\ contains (str "Daily") line = true
    /\ parse_line line = Some daily_old
    /\ format_entry daily_old = strip line
    /\ (forall l, In l before ->
                  contains (str "Daily") l = false \/ parse_line l = None).
Proof.
  apply (find_is_first_match as_written
           (registry_of [weekly; daily_old; daily_new])
           (str "Daily")
           {| line_number := 2; fields := daily_old;
              raw_line := format_entry daily_old |}).
  vm_compute. reflexivity.
Defined.

End ListingFacts.

(** ** Pruning twice *)

Module PruneAgain.

Import StrFacts Registry RegistryFacts PruneFacts RegistryScenario.

Section Again.

Variable read_file : bytes -> pyres pystr.
Variable listdir : list snapshot -> list snapshot.
Variable strptime_timestamp : pystr -> option Q.

Lemma prune_loop_all_kept (cutoff : pyfloat) (backups : list (nat * entry)) :
  Forall (fun e => is_kept strptime_timestamp cutoff e = true) (map snd backups) ->
  prune_loop strptime_timestamp cutoff backups = (backups, 0).
Proof.
  induction backups as [| b rest IH]; cbn [map prune_loop]; [reflexivity |].
  intros H. inversion H as [| e es He Hes]; subst.
  rewrite (IH Hes), He. reflexivity.
Qed.

(** A registry whose listed entries all pass the test is left as it is. *)
Lemma cleanup_nothing_stale (now : Q) (stamp : pystr) (mtime : Q) (st : store)
    (max_age_days : Z) (cutoff : pyfloat) :
  cutoff_date now max_age_days = Ok cutoff ->
  Forall (fun e => is_kept strptime_timestamp cutoff e = true)
         (map snd (get_all_backups read_file st)) ->
  cleanup_old_backups_from_registry read_file listdir strptime_timestamp
    now stamp mtime st max_age_days
  = Ok (st, 0).
Proof.
  intros Hcut Hall. unfold cleanup_old_backups_from_registry.
  destruct (get_all_backups read_file st) as [| b bs] eqn:G; [reflexivity |].
  rewrite Hcut. unfold bind. rewrite (prune_loop_all_kept cutoff (b :: bs) Hall).
  reflexivity.
Qed.

(** X12.  Pruning is idempotent when the reader decodes the rewritten
    registry as it was written: a second pruning at the same moment and
    with the same maximum age then removes nothing and leaves the files as
    the first one left them; no further snapshot is taken. *)
Theorem prune_again_removes_nothing (now : Q) (stamp stamp' : pystr)
    (mtime mtime' : Q) (st st' : store) (max_age_days n : Z)
    (cutoff : pyfloat) :
  cutoff_date now max_age_days = Ok cutoff ->
  let fresh := filter (is_kept strptime_timestamp cutoff)
                      (map snd (get_all_backups read_file st)) in
  let text := List.concat (map (fun e => format_entry e ++ newline) fresh) in
  cleanup_old_backups_from_registry read_file listdir strptime_timestamp
    now stamp mtime st max_age_days
  = Ok (st', n) ->
  (0 < n -> read_file (utf8 text) = Ok text) ->
  cleanup_old_backups_from_registry read_file listdir strptime_timestamp
    now stamp' mtime' st' max_age_days
  = Ok (st', 0).
Proof.
  intros Hcut fresh text Hfirst Hback.
  pose proof (prune_stale_spec read_file listdir strptime_timestamp now stamp
                mtime st max_age_days cutoff Hcut)
    as (st1 & E1 & Hsame & _ & Hkept).
  rewrite E1 in Hfirst. injection Hfirst as <- <-.
  apply (cleanup_nothing_stale now stamp' mtime' st1 max_age_days cutoff Hcut).
  apply Hkept.
  destruct (filter (is_stale strptime_timestamp cutoff)
              (map snd (get_all_backups read_file st))) as [| s0 rest];
    [left; reflexivity | right].
  apply Hback. cbn [List.length]. lia.
Qed.

End Again.

Lemma prune_again_removes_nothing_witness :
  exists st',
    cleanup_old_backups_from_registry as_written as_kept utc_timestamp
      noon noon_stamp morning (registry_of [daily_old; daily_new]) 30
    = Ok (st', 1)
    /\ cleanup_old_backups_from_registry as_written as_kept utc_timestamp
         noon (str "20240602_120001") noon st' 30
       = Ok (st', 0).
Proof.
  exists (match cleanup_old_backups_from_registry as_written as_kept
                  utc_timestamp noon noon_stamp morning
                  (registry_of [daily_old; daily_new]) 30 with
          | Ok (s, _) => s
          | Raise _ => empty_store
          end).
  split; [vm_compute; reflexivity |].
  apply (prune_again_removes_nothing as_written as_kept utc_timestamp
           noon noon_stamp (str "20240602_120001") morning noon
           (registry_of [daily_old; daily_new]) _ 30 1
           (Fin (7192130774630400 # 4194304))).
  - vm_compute. reflexivity.
  - vm_compute. reflexivity.
  - intros _. vm_compute. reflexivity.
Defined.

End PruneAgain.

(** ** Verifying the registry *)

Module VerifyFacts.

Import StrFacts Registry RegistryFacts PruneFacts RegistryScenario RegistryRecovery.

(** What verification asks of an entry. *)
Lemma check_line_clean (path_exists : pystr -> bool) (n : nat) (l : pystr) :
  stripped l -> l <> [] ->
  check_line path_exists n l = Ok [] ->
  exists e, parse_line l = Some e
            /\ nonempty (label e) = true
            /\ path_exists (strip (manifest e)) = true
            /\ exists z, py_int (file_index e) = Ok z.
Proof.
  intros Hs Hn. unfold check_line, parse_line. rewrite (stripped_strip l Hs).
  destruct l as [| x t]; [congruence |].
  destruct (split ";"%char (x :: t)) as [| p0 [| p1 [| p2 [| p3 [| p4 ps]]]]];
    try discriminate.
  destruct (path_exists (strip p4)) eqn:E.
  - destruct (nonempty p1) eqn:L.
    + destruct (py_int p3) as [z | []] eqn:I; try discriminate.
      intros _. eexists. split; [reflexivity |]. cbn. eauto.
    + destruct (py_int p3) as [z | []]; discriminate.
  - destruct (py_int p3) as [z | []]; discriminate.
Qed.

Lemma check_lines_clean (path_exists : pystr -> bool) (lines : list pystr) (n : nat) :
  (forall l, In l lines -> stripped l /\ l <> []) ->
  check_lines path_exists n lines = Ok [] ->
  map fst (collect n lines) = seq n (List.length lines)
  /\ Forall (fun e => nonempty (label e) = true
                      /\ path_exists (strip (manifest e)) = true
                      /\ exists z, py_int (file_index e) = Ok z)
            (map snd (collect n lines)).
Proof.
  revert n. induction lines as [| l ls IH]; intros n Hl; cbn [check_lines collect].
  - intros _. split; [reflexivity | constructor].
  - destruct (check_line path_exists n l) as [here |] eqn:Eh; [| discriminate].
    cbn [bind].
    destruct (check_lines path_exists (S n) ls) as [later |] eqn:El; [| discriminate].
    cbn [bind]. intros [= E]. apply app_eq_nil in E. destruct E as [-> ->].
    destruct (Hl l (or_introl eq_refl)) as [Hs Hn].
    destruct (check_line_clean path_exists n l Hs Hn Eh) as (e & -> & He).
    destruct (IH (S n)) as [Hnum Hall].
    + intros l' Hin. apply Hl. right. exact Hin.
    + exact El.
    + cbn [map fst snd List.length seq]. split.
      * rewrite Hnum. reflexivity.
      * constructor; assumption.
Qed.

(** X13.  A registry that passes verification is listed line for line: every
    line that the reader yields is an entry of [get_all_backups], under
    its own number, with a label that is not empty, a manifest that exists
    and a file index that reads as an integer. *)
Theorem verified_registry_is_listed
    (read_file : bytes -> pyres pystr)
    (path_exists : pystr -> bool) (st : store) (msgs : list report) :
  verify_registry read_file path_exists st = (true, msgs) ->
  map fst (get_all_backups read_file st)
  = seq 1 (List.length (registry_lines read_file st))
  /\ Forall (fun e => nonempty (label e) = true
                      /\ path_exists (strip (manifest e)) = true
                      /\ exists z, py_int (file_index e) = Ok z)
            (map snd (get_all_backups read_file st)).
Proof.
  unfold verify_registry, get_all_backups, registry_lines, read_lines.
  destruct (registry_file st) as [content |]; [| discriminate].
  destruct (read_file content) as [text | err]; cbn [bind]; [| discriminate].
  destruct (check_lines path_exists 1 (text_lines text)) as [[| i more] |] eqn:E;
    try discriminate.
  intros _. apply (check_lines_clean path_exists); [| exact E].
  intros l Hl. destruct (text_lines_member text l Hl) as (Hs & _ & Hn).
  split; assumption.
Qed.

Lemma verified_registry_is_listed_witness :
  map fst (get_all_backups as_written (registry_of [weekly; daily_old])) = seq 1 2
  /\ Forall (fun e => nonempty (label e) = true
                      /\ (fun _ : pystr => true) (strip (manifest e)) = true
                      /\ exists z, py_int (file_index e) = Ok z)
            (map snd (get_all_backups as_written (registry_of [weekly; daily_old]))).
Proof.
  apply (verified_registry_is_listed as_written (fun _ => true)
           (registry_of [weekly; daily_old]) [VerifiedOk]).
  vm_compute. reflexivity.
Defined.

Lemma check_lines_app (path_exists : pystr -> bool) (ls rest : list pystr) (n : nat) :
  check_lines path_exists n ls = Ok [] ->
  check_lines path_exists n (ls ++ rest)
  = check_lines path_exists (n + List.length ls) rest.
Proof.
  revert n. induction ls as [| l ls IH]; intros n; cbn [app check_lines List.length].
  - intros _. rewrite Nat.add_0_r. reflexivity.
  - destruct (check_line path_exists n l) as [here |]; [| discriminate].
    cbn [bind].
    destruct (check_lines path_exists (S n) ls) as [later |] eqn:El; [| discriminate].
    cbn [bind]. intros [= E]. apply app_eq_nil in E. destruct E as [-> ->].
    rewrite (IH (S n) El).
    replace (S n + List.length ls)%nat with (n + S (List.length ls))%nat by lia.
    destruct (check_lines _ _ rest); reflexivity.
Qed.

(** The line of a representable entry passes the checks when its label
    is not empty, its manifest exists and its file index is a number. *)
Lemma check_line_formatted (path_exists : pystr -> bool) (n : nat) (e : entry) :
  representable e ->
  nonempty (label e) = true ->
  path_exists (strip (manifest e)) = true ->
  (exists z, py_int (file_index e) = Ok z) ->
  check_line path_exists n (format_entry e) = Ok [].
Proof.
  intros R Hl Hm (z & Hz). pose proof R as (H0 & H1 & H2 & H3 & H4 & _ & _).
  unfold check_line. rewrite (stripped_format_entry e R).
  destruct (format_entry_nonempty e) as (x & t & Ex).
  destruct (format_entry e) as [| x' t'] eqn:Ef; [discriminate |].
  rewrite <- Ef. fold semi. rewrite (split_format_entry e H0 H1 H2 H3 H4).
  rewrite Hm, Hl, Hz. reflexivity.
Qed.

(** The outcome of verification, by what the checks make of the lines. *)
Lemma verify_by_lines (read_file : bytes -> pyres pystr)
    (path_exists : pystr -> bool) (st : store) (text : pystr) :
  registry_file st <> None ->
  reads_as read_file st text ->
  verify_registry read_file path_exists st
  = match check_lines path_exists 1 (text_lines text) with
    | Ok [] => (true, [VerifiedOk])
    | Ok issues => (false, issues)
    | Raise e => (false, [ReadingFailed e])
    end.
Proof.
  unfold verify_registry, reads_as, read_lines.
  destruct (registry_file st) as [content |]; [| congruence].
  intros _ ->. reflexivity.
Qed.

Lemma verified_after_append (read_file : bytes -> pyres pystr)
    (path_exists : pystr -> bool) (st : store) (e : entry) (before : pystr)
    (msgs : list report) :
  verify_registry read_file path_exists st = (true, msgs) ->
  representable e ->
  reads_as read_file st before ->
  reads_as read_file (fst (add_registry_entry st e))
           (before ++ format_entry e ++ newline) ->
  on_boundary before = true ->
  nonempty (label e) = true ->
  path_exists (strip (manifest e)) = true ->
  (exists z, py_int (file_index e) = Ok z) ->
  verify_registry read_file path_exists (fst (add_registry_entry st e))
  = (true, [VerifiedOk]).
Proof.
  intros Hv R Hold Hnew Hb Hl Hm Hz.
  pose proof R as (H0 & H1 & H2 & H3 & H4 & _ & _).
  assert (Hfile : registry_file st <> None).
  { unfold verify_registry in Hv. destruct (registry_file st); [discriminate |].
    discriminate. }
  rewrite (verify_by_lines read_file path_exists st before Hfile Hold) in Hv.
  assert (Hfile' : registry_file (fst (add_registry_entry st e)) <> None)
    by (cbn; discriminate).
  rewrite (verify_by_lines read_file path_exists _ _ Hfile' Hnew).
  destruct (format_entry_nonempty e) as (x & t & Ex).
  rewrite text_lines_app_line;
    [| exact Hb | apply format_entry_unbroken; assumption
     | apply stripped_format_entry; exact R | rewrite Ex; discriminate].
  destruct (check_lines path_exists 1 (text_lines before)) as [[| i more] |] eqn:E;
    try discriminate.
  rewrite (check_lines_app path_exists _ _ 1 E). cbn [check_lines].
  rewrite (check_line_formatted path_exists _ e R Hl Hm Hz). reflexivity.
Qed.

(** X14.  Verification survives an append: a registry that passes, extended by
    a representable entry with a label, an existing manifest and a file
    index that reads as an integer, passes again, when the reader makes of
    the file after the append the text it made before, followed by the
    line of the entry. *)
Theorem verification_survives_append (read_file : bytes -> pyres pystr)
    (path_exists : pystr -> bool) (st : store) (e : entry) (before : pystr)
    (msgs : list report) :
  verify_registry read_file path_exists st = (true, msgs) ->
  representable e ->
  reads_as read_file st before ->
  reads_as read_file (fst (add_registry_entry st e))
           (before ++ format_entry e ++ newline) ->
  on_boundary before = true ->
  nonempty (label e) = true ->
  path_exists (strip (manifest e)) = true ->
  (exists z, py_int (file_index e) = Ok z) ->
  verify_registry read_file path_exists (fst (add_registry_entry st e))
  = (true, [VerifiedOk]).
Proof. exact (verified_after_append read_file path_exists st e before msgs). Qed.

Lemma verification_survives_append_witness :
  verify_registry as_written (fun _ => true)
    (fst (add_registry_entry (registry_of [weekly]) daily_old))
  = (true, [VerifiedOk]).
Proof.
  apply (verification_survives_append as_written (fun _ => true)
           (registry_of [weekly]) daily_old (format_entry weekly ++ newline)
           [VerifiedOk]).
  - vm_compute. reflexivity.
  - unfold daily_old, backup_entry. representable_text.
  - vm_compute. reflexivity.
  - vm_compute. reflexivity.
  - reflexivity.
  - reflexivity.
  - reflexivity.
  - exists 3. vm_compute. reflexivity.
Defined.

End VerifyFacts.

(** ** Rebuilding the registry from the manifests *)

Module RebuildFacts.

Import StrFacts Registry RegistryFacts PruneFacts RegistryScenario RegistryRecovery.

Lemma without_ext_txt (a : pystr) : without_ext (a ++ str ".txt") = a.
Proof.
  unfold without_ext. rewrite length_app. change (List.length (str ".txt")) with 4%nat.
  replace (List.length a + 4 - 4)%nat with (List.length a + 0)%nat by lia.
  rewrite firstn_app_2. cbn [firstn]. apply app_nil_r.
Qed.

Lemma endswith_app (a p : pystr) : endswith (a ++ p) p = true.
Proof. unfold endswith. rewrite rev_app_distr. apply startswith_app. Qed.

Lemma manifest_name_parts (day time lbl : pystr) :
  manifest_name (day ++ str "_" ++ time) lbl
  = (day ++ underscore :: time ++ underscore :: lbl) ++ str ".txt".
Proof.
  unfold manifest_name. change (str "_") with [underscore].
  repeat (first [rewrite <- app_assoc | progress cbn [app]]). reflexivity.
Qed.

Lemma manifest_label_of_name (day time lbl : pystr) :
  free_of underscore day -> free_of underscore time ->
  manifest_label (manifest_name (day ++ str "_" ++ time) lbl)
  = Some (day ++ str "_" ++ time, lbl).
Proof.
  intros Hd Ht. unfold manifest_label. rewrite manifest_name_parts.
  rewrite endswith_app, without_ext_txt.
  replace (contains (str "_") _) with true.
  - cbn [andb]. fold underscore.
    rewrite (split_field underscore day _ Hd), (split_field underscore time _ Ht).
    destruct (split underscore lbl) as [| p ps] eqn:S;
      [exfalso; exact (split_nonempty _ _ S) |].
    cbv iota beta. rewrite <- S.
    change (str (String underscore EmptyString)) with [underscore].
    rewrite join_split. reflexivity.
  - symmetry. change (str "_") with [underscore].
    rewrite <- app_assoc.
    change (underscore :: time ++ underscore :: lbl)
      with ([underscore] ++ time ++ underscore :: lbl).
    rewrite <- app_assoc. apply contains_infix.
Qed.

(** X15.  The label comes back from the name of a manifest: from
    [<day>_<time>_<label>.txt], with no underscore in the day and the
    time, the rebuild reads the date [<day>_<time>] and the very label,
    underscores, dots and all. *)
Theorem manifest_label_round_trip (day time lbl : pystr) :
  free_of underscore day -> free_of underscore time ->
  manifest_label (manifest_name (day ++ str "_" ++ time) lbl)
  = Some (day ++ str "_" ++ time, lbl).
Proof. exact (manifest_label_of_name day time lbl). Qed.

Lemma manifest_label_round_trip_witness :
  manifest_label (manifest_name (str "20240602" ++ str "_" ++ str "1200")
                                (str "Weekly_001.txt_old"))
  = Some (str "20240602" ++ str "_" ++ str "1200", str "Weekly_001.txt_old").
Proof.
  apply (manifest_label_round_trip (str "20240602") (str "1200")
           (str "Weekly_001.txt_old"));
    unfold free_of; repeat (apply Forall_cons; [reflexivity |]); apply Forall_nil.
Defined.

(** A manifest that a job named for the given label. *)
Lemma gather_named (clock : nat -> pystr) (files : list manifest_file)
    (labels : list pystr) (n : nat) :
  Forall2 (fun f lbl => exists day time,
             free_of underscore day /\ free_of underscore time
             /\ file_name f = manifest_name (day ++ str "_" ++ time) lbl)
          files labels ->
  gather clock n files
  = map (fun x => {| timestamp := clock (fst x); label := snd (snd x);
                     tapes := str "[N/A]"; file_index := str "0";
                     manifest := file_path (fst (snd x)) |})
        (combine (seq n (List.length files)) (combine files labels)).
Proof.
  intros H. revert n. induction H as [| f lbl fs ls (day & time & Hd & Ht & E) _ IH];
    intros n; [reflexivity |].
  cbn [gather List.length seq combine map fst snd].
  rewrite E, (manifest_label_of_name day time lbl Hd Ht), IH. reflexivity.
Qed.

Lemma representable_readable (e : entry) : representable e -> readable e.
Proof. intros (H0 & H1 & H2 & H3 & H4 & L & _). repeat split; assumption. Qed.

(** A text written from representable entries holds their lines. *)
Lemma lines_of_entries (entries : list entry) :
  Forall representable entries ->
  text_lines (registry_text entries) = map format_entry entries.
Proof.
  intros H. unfold registry_text.
  rewrite <- (map_map format_entry (fun l => l ++ newline)).
  apply text_lines_of_lines.
  rewrite Forall_map. revert H. apply Forall_impl. intros e R.
  pose proof R as (H0 & H1 & H2 & H3 & H4 & _ & _).
  split; [apply format_entry_unbroken; assumption |].
  split; [apply stripped_format_entry; exact R |].
  destruct (format_entry_nonempty e) as (x & t & ->). discriminate.
Qed.

Lemma collect_of_entries (entries : list entry) (n : nat) :
  Forall representable entries ->
  collect n (map format_entry entries)
  = combine (seq n (List.length entries)) entries.
Proof.
  intros H. revert n. induction H as [| e es He _ IH]; intros n; [reflexivity |].
  cbn [map collect List.length seq combine].
  rewrite (parse_format_entry e He), IH. reflexivity.
Qed.

Lemma check_lines_of_entries (path_exists : pystr -> bool) (entries : list entry)
    (n : nat) :
  Forall representable entries ->
  Forall (fun e => nonempty (label e) = true
                   /\ path_exists (strip (manifest e)) = true
                   /\ exists z, py_int (file_index e) = Ok z) entries ->
  check_lines path_exists n (map format_entry entries) = Ok [].
Proof.
  intros H. revert n. induction H as [| e es He _ IH]; intros n Hall; [reflexivity |].
  inversion Hall as [| e' es' (Hl & Hm & Hz) Hrest]; subst.
  cbn [map check_lines].
  rewrite (VerifyFacts.check_line_formatted path_exists n e He Hl Hm Hz).
  cbn [bind]. rewrite (IH (S n) Hrest). reflexivity.
Qed.

(** What a rebuild writes, whenever it finds an entry. *)
Lemma rebuild_outcome (files : list manifest_file) (clock : nat -> pystr)
    (stamp : pystr) (st : store) :
  gather clock 0 files <> [] ->
  rebuild_registry_from_manifests (Some files) clock stamp st
  = ({| registry_file :=
          Some (utf8 (registry_text (gather clock 0 files)));
        snapshots := snapshots st |},
     match registry_file st with
     | Some content => Some (str ".bak." ++ stamp, content)
     | None => None
     end, true).
Proof.
  intros H. unfold rebuild_registry_from_manifests.
  destruct files as [| f fs]; [exfalso; apply H; reflexivity |].
  destruct (gather clock 0 (f :: fs)); [congruence | reflexivity].
Qed.

Lemma rebuilt_entries_representable (clock : nat -> pystr)
    (files : list manifest_file) (labels : list pystr) (n : nat) :
  Forall2 (fun f lbl => exists day time,
             free_of underscore day /\ free_of underscore time
             /\ file_name f = manifest_name (day ++ str "_" ++ time) lbl)
          files labels ->
  (forall i, plain (clock i) /\ lstrip (clock i) = clock i) ->
  Forall plain labels ->
  Forall (fun f => plain (file_path f) /\ rstrip (file_path f) = file_path f) files ->
  Forall representable (gather clock n files).
Proof.
  intros H Hc. revert n.
  induction H as [| f lbl fs ls (day & time & Hd & Ht & E) _ IH];
    intros n Hl Hp; cbn [gather]; [constructor |].
  rewrite E, (manifest_label_of_name day time lbl Hd Ht).
  inversion Hl as [| ? ? Hl1 Hl2]; subst. inversion Hp as [| ? ? [Hp1 Hp1'] Hp2]; subst.
  constructor; [| exact (IH (S n) Hl2 Hp2)].
  destruct (Hc n) as [Hc1 Hc2].
  unfold representable. cbn [timestamp label tapes file_index manifest].
  repeat split; try assumption; plain_text.
Qed.

Lemma numbered_from (A : Type) (F : nat * A -> entry) (k : nat) :
  forall (n : nat) (pairs : list A),
    combine (seq (S n) (List.length (map F (combine (seq n k) pairs))))
            (map F (combine (seq n k) pairs))
    = map (fun x => (S (fst x), F x)) (combine (seq n k) pairs).
Proof.
  induction k as [| k IH]; intros n pairs; cbn [seq combine]; [reflexivity |].
  destruct pairs as [| p ps]; [reflexivity |].
  cbn [combine map List.length seq fst]. f_equal. apply IH.
Qed.

(** X16.  Rebuilding from manifests that jobs named: the old registry is set
    aside, and the new one, when the reader decodes it as it was written,
    lists one entry per manifest, in their order and numbered from one,
    each with the label read from the name, the path of the manifest, the
    time of its handling, no tapes and the file index 0. *)
Theorem rebuild_lists_every_manifest
    (read_file : bytes -> pyres pystr)
    (files : list manifest_file) (labels : list pystr) (clock : nat -> pystr)
    (stamp : pystr) (st : store) :
  files <> [] ->
  Forall2 (fun f lbl => exists day time,
             free_of underscore day /\ free_of underscore time
             /\ file_name f = manifest_name (day ++ str "_" ++ time) lbl)
          files labels ->
  (forall i, plain (clock i) /\ lstrip (clock i) = clock i) ->
  Forall plain labels ->
  Forall (fun f => plain (file_path f) /\ rstrip (file_path f) = file_path f) files ->
  read_file (utf8 (registry_text (gather clock 0 files)))
  = Ok (registry_text (gather clock 0 files)) ->
  exists st',
    rebuild_registry_from_manifests (Some files) clock stamp st
    = (st',
       match registry_file st with
       | Some content => Some (str ".bak." ++ stamp, content)
       | None => None
       end, true)
    /\ registry_file st' = Some (utf8 (registry_text (gather clock 0 files)))
    /\ get_all_backups read_file st'
       = map (fun x => (S (fst x),
                        {| timestamp := clock (fst x); label := snd (snd x);
                           tapes := str "[N/A]"; file_index := str "0";
                           manifest := file_path (fst (snd x)) |}))
             (combine (seq 0 (List.length files)) (combine files labels)).
Proof.
  intros Hne Hnamed Hclock Hlabels Hpaths Hback.
  pose proof (rebuilt_entries_representable clock files labels 0
                Hnamed Hclock Hlabels Hpaths) as Hrep.
  pose proof (gather_named clock files labels 0 Hnamed) as Hg.
  assert (Hlen : List.length files = List.length labels)
    by exact (Forall2_length Hnamed).
  assert (Hsome : gather clock 0 files <> []).
  { rewrite Hg. destruct files as [| f fs]; [congruence |].
    destruct labels as [| l ls]; [discriminate |]. discriminate. }
  eexists. split; [exact (rebuild_outcome files clock stamp st Hsome) |].
  split; [reflexivity |].
  unfold get_all_backups. cbn [registry_file].
  rewrite (read_lines_of read_file _ _ Hback).
  rewrite (lines_of_entries _ Hrep), (collect_of_entries _ 1 Hrep).
  rewrite Hg.
  exact (numbered_from _ (fun x => {| timestamp := clock (fst x);
                                      label := snd (snd x);
                                      tapes := str "[N/A]"; file_index := str "0";
                                      manifest := file_path (fst (snd x)) |})
           (List.length files) 0 (combine files labels)).
Qed.

Lemma rebuild_lists_every_manifest_witness :
  exists st',
    rebuild_registry_from_manifests
      (Some [{| file_name := str "20240602_1200_Weekly_001.txt";
                file_path := str "./manifests/20240602_1200_Weekly_001.txt" |}])
      (fun _ => str "2024-06-03 08:00:00") (str "20240603_080000")
      (registry_of [daily_old])
    = (st',
       match registry_file (registry_of [daily_old]) with
       | Some content => Some (str ".bak." ++ str "20240603_080000", content)
       | None => None
       end, true)
    /\ registry_file st'
       = Some (utf8 (registry_text
                       (gather (fun _ => str "2024-06-03 08:00:00") 0
                          [{| file_name := str "20240602_1200_Weekly_001.txt";
                              file_path :=
                                str "./manifests/20240602_1200_Weekly_001.txt" |}])))
    /\ get_all_backups as_written st'
       = [(1%nat, {| timestamp := str "2024-06-03 08:00:00";
                    label := str "Weekly_001";
                    tapes := str "[N/A]"; file_index := str "0";
                    manifest := str "./manifests/20240602_1200_Weekly_001.txt" |})].
Proof.
  apply (rebuild_lists_every_manifest as_written
           [{| file_name := str "20240602_1200_Weekly_001.txt";
               file_path := str "./manifests/20240602_1200_Weekly_001.txt" |}]
           [str "Weekly_001"]
           (fun _ => str "2024-06-03 08:00:00") (str "20240603_080000")
           (registry_of [daily_old])).
  - discriminate.
  - constructor; [| constructor].
    exists (str "20240602"), (str "1200").
    split; [| split; [| reflexivity]];
      unfold free_of; repeat (apply Forall_cons; [reflexivity |]); apply Forall_nil.
  - intros i. split; [plain_text | reflexivity].
  - constructor; [plain_text | constructor].
  - constructor; [split; [plain_text | reflexivity] | constructor].
  - vm_compute. reflexivity.
Defined.

Lemma rebuilt_entries_checked (path_exists : pystr -> bool) (clock : nat -> pystr)
    (files : list manifest_file) (labels : list pystr) (n : nat) :
  Forall2 (fun f lbl => exists day time,
             free_of underscore day /\ free_of underscore time
             /\ file_name f = manifest_name (day ++ str "_" ++ time) lbl)
          files labels ->
  Forall (fun lbl => nonempty lbl = true) labels ->
  Forall (fun f => path_exists (strip (file_path f)) = true) files ->
  Forall (fun e => nonempty (label e) = true
                   /\ path_exists (strip (manifest e)) = true
                   /\ exists z, py_int (file_index e) = Ok z)
         (gather clock n files).
Proof.
  intros H. revert n.
  induction H as [| f lbl fs ls (day & time & Hd & Ht & E) _ IH];
    intros n Hl Hp; cbn [gather]; [constructor |].
  rewrite E, (manifest_label_of_name day time lbl Hd Ht).
  inversion Hl as [| ? ? Hl1 Hl2]; subst. inversion Hp as [| ? ? Hp1 Hp2]; subst.
  constructor; [| exact (IH (S n) Hl2 Hp2)].
  cbn [label manifest file_index]. split; [exact Hl1 |]. split; [exact Hp1 |].
  exists 0. reflexivity.
Qed.

(** X17.  A registry rebuilt from manifests that jobs named passes
    verification, as long as the labels are not empty, the manifests are
    still where they were found, and the reader decodes the new registry
    as it was written. *)
Theorem rebuilt_registry_passes_verification
    (read_file : bytes -> pyres pystr)
    (path_exists : pystr -> bool)
    (files : list manifest_file) (labels : list pystr) (clock : nat -> pystr)
    (stamp : pystr) (st : store) :
  files <> [] ->
  Forall2 (fun f lbl => exists day time,
             free_of underscore day /\ free_of underscore time
             /\ file_name f = manifest_name (day ++ str "_" ++ time) lbl)
          files labels ->
  (forall i, plain (clock i) /\ lstrip (clock i) = clock i) ->
  Forall (fun lbl => plain lbl /\ nonempty lbl = true) labels ->
  Forall (fun f => plain (file_path f) /\ rstrip (file_path f) = file_path f
                   /\ path_exists (strip (file_path f)) = true) files ->
  read_file (utf8 (registry_text (gather clock 0 files)))
  = Ok (registry_text (gather clock 0 files)) ->
  verify_registry read_file path_exists
    (fst (fst (rebuild_registry_from_manifests (Some files) clock stamp st)))
  = (true, [VerifiedOk]).
Proof.
  intros Hne Hnamed Hclock Hlabels Hpaths Hback.
  assert (Hl1 : Forall plain labels)
    by (revert Hlabels; apply Forall_impl; intros a H; exact (proj1 H)).
  assert (Hl2 : Forall (fun lbl => nonempty lbl = true) labels)
    by (revert Hlabels; apply Forall_impl; intros a H; exact (proj2 H)).
  assert (Hp1 : Forall (fun f => plain (file_path f)
                                 /\ rstrip (file_path f) = file_path f) files)
    by (revert Hpaths; apply Forall_impl; intros a (A & B & _); split; assumption).
  assert (Hp2 : Forall (fun f => path_exists (strip (file_path f)) = true) files)
    by (revert Hpaths; apply Forall_impl; intros a (_ & _ & C); exact C).
  pose proof (rebuilt_entries_representable clock files labels 0
                Hnamed Hclock Hl1 Hp1) as Hrep.
  pose proof (rebuilt_entries_checked path_exists clock files labels 0
                Hnamed Hl2 Hp2) as Hchk.
  assert (Hsome : gather clock 0 files <> []).
  { rewrite (gather_named clock files labels 0 Hnamed).
    pose proof (Forall2_length Hnamed) as Hlen.
    destruct files as [| f fs]; [congruence |].
    destruct labels as [| l ls]; discriminate. }
  rewrite (rebuild_outcome files clock stamp st Hsome). cbn [fst].
  unfold verify_registry. cbn [registry_file].
  rewrite (read_lines_of read_file _ _ Hback). cbn [bind].
  rewrite (lines_of_entries _ Hrep).
  rewrite (check_lines_of_entries path_exists _ 1 Hrep Hchk). reflexivity.
Qed.

Lemma rebuilt_registry_passes_verification_witness :
  verify_registry as_written (fun _ => true)
    (fst (fst (rebuild_registry_from_manifests
                 (Some [{| file_name := str "20240602_1200_Weekly_001.txt";
                           file_path := str "./manifests/20240602_1200_Weekly_001.txt" |}])
                 (fun _ => str "2024-06-03 08:00:00") (str "20240603_080000")
                 empty_store)))
  = (true, [VerifiedOk]).
Proof.
  apply (rebuilt_registry_passes_verification as_written (fun _ => true)
           [{| file_name := str "20240602_1200_Weekly_001.txt";
               file_path := str "./manifests/20240602_1200_Weekly_001.txt" |}]
           [str "Weekly_001"]).
  - discriminate.
  - constructor; [| constructor].
    exists (str "20240602"), (str "1200").
    split; [| split; [| reflexivity]];
      unfold free_of; repeat (apply Forall_cons; [reflexivity |]); apply Forall_nil.
  - intros i. split; [plain_text | reflexivity].
  - constructor; [split; [plain_text | reflexivity] | constructor].
  - constructor; [split; [plain_text | split; reflexivity] | constructor].
  - vm_compute. reflexivity.
Defined.

End RebuildFacts.

(** ** The command runner of the tape drive, for any command *)

Module RunnerFacts.

Import StrFacts TapeDrive TapeScenario TapePositioning.

Lemma attempts_first_success (self : drive) (command : pystr)
    (respond : nat -> run_outcome) (out err : pystr) (k : nat) :
  forall attempt remaining : nat,
    (k < remaining)%nat ->
    (attempt + k < max_retries self)%nat ->
    (forall i, (attempt <= i < attempt + k)%nat ->
               exists code o e, respond i = Exited code o e /\ code <> 0) ->
    respond (attempt + k)%nat = Exited 0 out err ->
    attempts self command true respond attempt remaining
    = (true, Stdout out,
       flat_map (fun i => [Ran i; Slept 2]) (seq attempt k) ++ [Ran (attempt + k)]).
Proof.
  induction k as [| k IH]; intros attempt remaining Hrem Hmax Hfail Hok.
  - destruct remaining as [| m]; [lia |]. cbn [attempts seq flat_map app].
    rewrite Nat.add_0_r in *. rewrite Hok. reflexivity.
  - destruct remaining as [| m]; [lia |]. cbn [attempts seq flat_map app].
    destruct (Hfail attempt) as (code & o & e & -> & Hc); [lia |].
    destruct (Z.eqb_spec code 0); [contradiction |].
    replace (Z.of_nat attempt <? Z.of_nat (max_retries self) - 1) with true
      by (symmetry; apply Z.ltb_lt; lia).
    cbn [andb]. rewrite (IH (S attempt) m).
    + replace (S attempt + k)%nat with (attempt + S k)%nat by lia. reflexivity.
    + lia.
    + lia.
    + intros i Hi. apply Hfail. lia.
    + replace (S attempt + k)%nat with (attempt + S k)%nat by lia. exact Hok.
Qed.

(** X18.  The runner answers with the output of the first run that exits with
    zero: when the [k] runs before it exit with an error and [k] is below
    the number of retries, each of them is followed by a pause of two
    seconds, their error texts are dropped, and nothing is run after the
    success. *)
Theorem runner_returns_first_success (self : drive) (command : pystr)
    (respond : nat -> run_outcome) (out err : pystr) (k : nat) :
  (k < max_retries self)%nat ->
  (forall i, (i < k)%nat ->
             exists code o e, respond i = Exited code o e /\ code <> 0) ->
  respond k = Exited 0 out err ->
  _execute_mt_command self command true respond
  = (true, Stdout out, flat_map (fun i => [Ran i; Slept 2]) (seq 0 k) ++ [Ran k]).
Proof.
  intros Hk Hfail Hok. unfold _execute_mt_command.
  apply (attempts_first_success self command respond out err k 0 (max_retries self)).
  - exact Hk.
  - exact Hk.
  - intros i Hi. apply Hfail. lia.
  - exact Hok.
Qed.

Lemma runner_returns_first_success_witness :
  _execute_mt_command nst0 (str "rewind") true failing_once
  = (true,
     Stdout (str "SCSI 2 tape drive: file number=3 block number=0 General status bits on (41010000): BOT ONLINE IM_REP_EN"),
     flat_map (fun i => [Ran i; Slept 2]) (seq 0 1) ++ [Ran 1]).
Proof.
  apply (runner_returns_first_success nst0 (str "rewind") failing_once _ [] 1).
  - cbn. lia.
  - intros i Hi. assert (i = 0%nat) as -> by lia.
    exists 2, [], (str "mt: /dev/nst0: Input/output error").
    split; [reflexivity | discriminate].
  - reflexivity.
Defined.

Lemma attempts_never_exceeded (self : drive) (command : pystr) (retry : bool)
    (respond : nat -> run_outcome) :
  forall remaining attempt : nat,
    remaining <> 0%nat ->
    (retry = true -> (attempt + remaining)%nat = max_retries self) ->
    snd (fst (attempts self command retry respond attempt remaining))
    <> RetriesExceeded.
Proof.
  induction remaining as [| k IH]; intros attempt Hne Hinv; [congruence |].
  cbn [attempts].
  destruct (respond attempt) as [code o e | |]; try (cbn; discriminate).
  destruct (code =? 0); [cbn; discriminate |].
  destruct (Z.ltb_spec (Z.of_nat attempt) (Z.of_nat (max_retries self) - 1)) as [Hlt |];
    [| cbn; discriminate].
  destruct retry; [| cbn; discriminate]. cbn [andb].
  specialize (Hinv eq_refl).
  specialize (IH (S attempt)).
  destruct (attempts self command true respond (S attempt) k) as [[ok o'] tr].
  cbn [fst snd] in *. apply IH; [lia | intros _; lia].
Qed.

(** X19.  The answer "out of attempts" is given exactly when the runner may
    retry and the drive allows no attempt at all; then nothing is run.  A
    drive as the constructor builds it, with its three attempts, never
    gives it. *)
Theorem out_of_attempts_only_without_attempts (self : drive) (command : pystr)
    (retry : bool) (respond : nat -> run_outcome) :
  (snd (fst (_execute_mt_command self command retry respond)) = RetriesExceeded
   <-> retry = true /\ max_retries self = 0%nat)
  /\ (retry = true -> max_retries self = 0%nat ->
      _execute_mt_command self command retry respond = (false, RetriesExceeded, [])).
Proof.
  unfold _execute_mt_command. split; [split |].
  - intros H. destruct retry.
    + split; [reflexivity |].
      destruct (max_retries self) as [| m] eqn:M; [reflexivity | exfalso].
      revert H. rewrite <- M. apply attempts_never_exceeded; [lia |].
      intros _. reflexivity.
    + exfalso. revert H. apply attempts_never_exceeded; [lia | discriminate].
  - intros [-> ->]. reflexivity.
  - intros -> ->. reflexivity.
Qed.

Lemma contains_prefix (p q hay : pystr) :
  contains (p ++ q) hay = true -> contains p hay = true.
Proof.
  assert (S : forall s, startswith s (p ++ q) = true -> startswith s p = true).
  { induction p as [| x p IH]; intros s; cbn [app startswith].
    - intros _. destruct s; reflexivity.
    - destruct s as [| y s]; [discriminate |]. cbn [startswith].
      intros H. apply andb_true_iff in H. destruct H as [-> H].
      exact (IH s H). }
  induction hay as [| y hay IH]; cbn [contains].
  - rewrite !orb_false_r. apply S.
  - intros H. apply orb_true_iff in H. destruct H as [H | H].
    + rewrite (S _ H). reflexivity.
    + rewrite (IH H). apply orb_true_r.
Qed.

(** X20.  For a drive that reports ONLINE, the write-protection test comes down
    to the words WRITE PROTECT: the second text it looks for, ON, is part
    of ONLINE.  So an online drive whose status mentions WRITE PROTECT in
    any way is refused for writing. *)
Theorem online_drive_write_protection (self : drive)
    (respond : nat -> run_outcome) (tapeinfo : run_outcome) (text err : pystr) :
  (0 < max_retries self)%nat ->
  respond 0%nat = Exited 0 text err ->
  contains (str "ONLINE") text = true ->
  is_write_protected (fst (get_status self respond tapeinfo))
  = contains (str "WRITE PROTECT") text
  /\ (contains (str "WRITE PROTECT") text = true ->
      fst (is_ready_for_write self respond tapeinfo) = false).
Proof.
  intros Hmax Hr Hon.
  assert (Hon' : contains (str "ON") text = true)
    by exact (contains_prefix (str "ON") (str "LINE") text Hon).
  assert (E : _execute_mt_command self (str "status") true respond
              = (true, Stdout text, [Ran 0])).
  { unfold _execute_mt_command. destruct (max_retries self) as [| m]; [lia |].
    cbn [attempts]. rewrite Hr. reflexivity. }
  unfold is_ready_for_write, get_status. rewrite E. cbn [fst is_write_protected].
  rewrite Hon, Hon', andb_true_r. split; [reflexivity |].
  intros ->. cbn [status cleaning_required is_write_protected].
  destruct tapeinfo as [code out e | |]; try reflexivity.
  destruct code as [| c | c]; try reflexivity.
  destruct (contains (str "Cleaning bit: yes") out); reflexivity.
Qed.

Lemma online_drive_write_protection_witness :
  is_write_protected
    (fst (get_status nst0
            (fun _ => Exited 0 (str "WRITE PROTECT OFF ONLINE") []) no_tapeinfo))
  = contains (str "WRITE PROTECT") (str "WRITE PROTECT OFF ONLINE")
  /\ (contains (str "WRITE PROTECT") (str "WRITE PROTECT OFF ONLINE") = true ->
      fst (is_ready_for_write nst0
             (fun _ => Exited 0 (str "WRITE PROTECT OFF ONLINE") []) no_tapeinfo)
      = false).
Proof.
  apply (online_drive_write_protection nst0
           (fun _ => Exited 0 (str "WRITE PROTECT OFF ONLINE") []) no_tapeinfo
           (str "WRITE PROTECT OFF ONLINE") []).
  - cbn. lia.
  - reflexivity.
  - reflexivity.
Defined.

(** X21.  Seeking a file: the tape is always rewound first, and it is spaced
    forward, by the number of the file, exactly when the rewind worked and
    the number is positive; nothing else is issued.  The seek succeeds
    only if the rewind did. *)
Theorem seek_rewinds_then_spaces (self : drive) (file_number : Z)
    (on_rewind on_fsf : nat -> run_outcome) :
  let rewound := fst (fst (_execute_mt_command self (str "rewind") true on_rewind)) in
  let spaced := fst (fst (_execute_mt_command self (str "fsf") true on_fsf)) in
  issued (snd (seek_to_file self file_number on_rewind on_fsf))
  = (str "rewind", [])
    :: (if rewound && (0 <? file_number)
        then [(str "fsf", Format.decimal_digits file_number)] else [])
  /\ fst (seek_to_file self file_number on_rewind on_fsf)
     = rewound && (if 0 <? file_number then spaced else true).
Proof.
  intros rewound spaced. unfold rewound, spaced.
  unfold seek_to_file, rewind, forward_space_file.
  destruct (_execute_mt_command self (str "rewind") true on_rewind) as [[r o] tr].
  cbn [fst snd]. destruct r; cbn [negb andb]; [| split; reflexivity].
  destruct (Z.ltb_spec 0 file_number) as [Hpos | Hnot]; [| split; reflexivity].
  destruct (Z.leb_spec file_number 0); [lia |].
  destruct (_execute_mt_command self (str "fsf") true on_fsf) as [[s o'] tr'].
  split; reflexivity.
Qed.

End RunnerFacts.

(** ** Jobs: control, the monitoring loop and the outcome *)

Module ControlFacts.

Import StrFacts BackupJob JobFacts JobScenario.

(** X22.  Pausing and resuming undo each other, and a cancel is final: once
    [cancel] has been called, a further [cancel], [pause] or [resume]
    changes nothing. *)
Theorem pause_resume_cancel_laws (j : job) :
  (status j = RUNNING -> resume (pause j) = j)
  /\ (status j = PAUSED -> pause (resume j) = j)
  /\ cancel (cancel j) = cancel j
  /\ pause (cancel j) = cancel j
  /\ resume (cancel j) = cancel j.
Proof.
  destruct j as [t s ev r]. unfold pause, resume, cancel, set_status.
  cbn [status job_type cancellation_event result].
  repeat split; try (intros ->; reflexivity); destruct s; reflexivity.
Qed.

Lemma monitor_without_cancel (lines : list pystr) (j : job) (round : nat) :
  cancellation_event j = false ->
  monitor j None round lines = (j, false, filter Registry.nonempty (map strip lines)).
Proof.
  intros He. revert round. induction lines as [| line rest IH]; intros round.
  - reflexivity.
  - cbn [monitor lands map filter]. rewrite He, IH.
    destruct (strip line); reflexivity.
Qed.

Lemma monitor_with_cancel (lines : list pystr) (j : job) (k round : nat) :
  status j = RUNNING \/ status j = PAUSED ->
  cancellation_event j = false ->
  (round <= k < round + List.length lines)%nat ->
  monitor j (Some k) round lines
  = (cancel j, true, filter Registry.nonempty (map strip (firstn (k - round) lines))).
Proof.
  intros Hs He. revert round.
  induction lines as [| line rest IH]; intros round Hk.
  - cbn in Hk. lia.
  - cbn [monitor lands]. destruct (Nat.eqb_spec k round) as [-> | Hne].
    + rewrite Nat.sub_diag. cbn [firstn map filter].
      assert (E : cancellation_event (cancel j) = true).
      { unfold cancel. destruct Hs as [-> | ->]; reflexivity. }
      rewrite E. reflexivity.
    + rewrite He. rewrite (IH (S round)) by (cbn in Hk; lia).
      replace (k - round)%nat with (S (k - S round)) by lia.
      cbn [firstn map filter]. destruct (strip line); reflexivity.
Qed.

(** X23.  The monitoring loop keeps, stripped and in order, the non-blank lines
    it reads.  Left alone it reads every line and does not terminate the
    pipeline, whatever the status of the job, paused included; a cancel
    that lands before round [k] terminates the pipeline and keeps the
    lines of the rounds before [k] only. *)
Theorem monitor_keeps_lines_until_cancel (lines : list pystr) (j : job) (k : nat) :
  cancellation_event j = false ->
  monitor j None 0 lines = (j, false, filter Registry.nonempty (map strip lines))
  /\ (status j = RUNNING \/ status j = PAUSED ->
      (k < List.length lines)%nat ->
      monitor j (Some k) 0 lines
      = (cancel j, true, filter Registry.nonempty (map strip (firstn k lines)))).
Proof.
  intros He. split.
  - exact (monitor_without_cancel lines j 0 He).
  - intros Hs Hk. rewrite (monitor_with_cancel lines j k 0 Hs He) by lia.
    rewrite Nat.sub_0_r. reflexivity.
Qed.

Lemma monitor_keeps_lines_until_cancel_witness :
  monitor (pause (set_status (new_job BACKUP) RUNNING)) None 0
          [str "./a  "; str "   "; str "./b"]
  = (pause (set_status (new_job BACKUP) RUNNING), false,
     filter Registry.nonempty (map strip [str "./a  "; str "   "; str "./b"]))
  /\ (status (pause (set_status (new_job BACKUP) RUNNING)) = RUNNING
      \/ status (pause (set_status (new_job BACKUP) RUNNING)) = PAUSED ->
      (2 < List.length [str "./a  "; str "   "; str "./b"])%nat ->
      monitor (pause (set_status (new_job BACKUP) RUNNING)) (Some 2%nat) 0
              [str "./a  "; str "   "; str "./b"]
      = (cancel (pause (set_status (new_job BACKUP) RUNNING)), true,
         filter Registry.nonempty
           (map strip (firstn 2 [str "./a  "; str "   "; str "./b"])))).
Proof.
  apply (monitor_keeps_lines_until_cancel
           [str "./a  "; str "   "; str "./b"]
           (pause (set_status (new_job BACKUP) RUNNING)) 2).
  reflexivity.
Defined.








End ControlFacts.

(** ** Numbers written out and read back *)

Module DecimalText.

Import StrFacts SizeText SizeFacts.

Lemma uint_digits (d : Decimal.uint) :
  Forall (fun c => isdigit c = true) (str (NilEmpty.string_of_uint d)).
Proof.
  induction d; cbn [NilEmpty.string_of_uint str list_ascii_of_string];
    [constructor | constructor; [reflexivity | exact IHd] ..].
Qed.

Lemma uint_value_acc (d : Decimal.uint) :
  forall acc : positive,
    fold_left (fun a x => 10 * a + x)
              (map digit_value (str (NilEmpty.string_of_uint d))) (Zpos acc)
    = Zpos (Pos.of_uint_acc d acc).
Proof.
  induction d; intros acc;
    cbn [NilEmpty.string_of_uint str list_ascii_of_string map fold_left
         Pos.of_uint_acc];
    [reflexivity | ..];
    match goal with
    | |- context [digit_value ?c] =>
        let v := eval vm_compute in (digit_value c) in
        change (digit_value c) with v
    end;
    match goal with
    | |- fold_left _ _ ?a = Zpos (Pos.of_uint_acc _ ?b) =>
        replace a with (Zpos b) by lia
    end; apply IHd.
Qed.

Lemma uint_value (d : Decimal.uint) :
  number_of (str (NilEmpty.string_of_uint d)) = Z.of_N (Pos.of_uint d).
Proof.
  unfold number_of, digits_value.
  induction d;
    cbn [NilEmpty.string_of_uint str list_ascii_of_string map fold_left Pos.of_uint];
    [reflexivity | ..];
    match goal with
    | |- context [digit_value ?c] =>
        let v := eval vm_compute in (digit_value c) in
        change (digit_value c) with v
    end;
    [exact IHd | ..];
    match goal with
    | |- fold_left _ _ ?a = Z.of_N (N.pos (Pos.of_uint_acc _ ?b)) =>
        change a with (Zpos b)
    end; apply uint_value_acc.
Qed.

Lemma decimal_digits_text (n : Z) :
  exists d, d <> Decimal.Nil
            /\ N.to_uint (Z.to_N n) = d
            /\ Format.decimal_digits n = str (NilEmpty.string_of_uint d).
Proof.
  exists (N.to_uint (Z.to_N n)). unfold Format.decimal_digits.
  assert (H : N.to_uint (Z.to_N n) <> Decimal.Nil).
  { destruct (Z.to_N n) as [| p]; [discriminate |].
    apply DecimalPos.Unsigned.to_uint_nonnil. }
  split; [exact H |]. split; [reflexivity |].
  destruct (N.to_uint (Z.to_N n)); [congruence | reflexivity ..].
Qed.

(** [str(n)] is a text of digits. *)
Lemma decimal_digits_digits (n : Z) : digits (Format.decimal_digits n).
Proof.
  destruct (decimal_digits_text n) as (d & Hd & _ & ->). split.
  - destruct d; [congruence | discriminate ..].
  - apply uint_digits.
Qed.

(** [int(str(n)) == n], within the limit on the number of digits. *)
Lemma py_int_decimal_digits (n : Z) :
  0 <= n ->
  (List.length (Format.decimal_digits n) <= MAX_STR_DIGITS)%nat ->
  py_int (Format.decimal_digits n) = Ok n.
Proof.
  intros Hn Hlen. rewrite (py_int_digits _ (decimal_digits_digits n) Hlen). f_equal.
  destruct (decimal_digits_text n) as (d & _ & E & ->).
  rewrite uint_value, <- E.
  change (Pos.of_uint (N.to_uint (Z.to_N n))) with (N.of_uint (N.to_uint (Z.to_N n))).
  rewrite DecimalN.Unsigned.of_to. apply Z2N.id. exact Hn.
Qed.

End DecimalText.

(** ** What a backup job leaves for the registry *)

Module OutcomeFacts.

Import StrFacts SizeText SizeFacts DecimalText.
Import Registry RegistryFacts RegistryRecovery.
Import TapeDrive BackupJob JobFacts JobScenario RegistryScenario.
Import MonitorFacts CheckFacts.




Lemma take_digits_nonneg (s : pystr) : Forall (fun d => 0 <= d) (take_digits s).
Proof.
  induction s as [| c t IH]; cbn [take_digits]; [constructor |].
  destruct (isdigit c) eqn:D; [| constructor].
  constructor; [| exact IH]. apply digit_value_range in D. lia.
Qed.

Lemma search_number_nonneg (key text : pystr) (z : Z) :
  search_number key text = Some z -> 0 <= z.
Proof.
  assert (Here : forall t,
             (if startswith t key
              then match take_digits (skipn (List.length key) t) with
                   | [] => None
                   | ds => Some (digits_value ds)
                   end
              else None) = Some z -> 0 <= z).
  { intros t. destruct (startswith t key); [| discriminate].
    pose proof (take_digits_nonneg (skipn (List.length key) t)) as H.
    destruct (take_digits _) as [| d ds]; [discriminate |].
    intros [= <-]. unfold digits_value. apply digits_value_nonneg; [exact H | lia]. }
  induction text as [| c t IH]; cbn [search_number].
  - intros H. apply (Here []).
    destruct (if startswith [] key then _ else None); [exact H | discriminate].
  - destruct (if startswith (c :: t) key then _ else None) as [v |] eqn:E.
    + intros [= <-]. exact (Here _ E).
    + exact IH.
Qed.

Lemma file_number_nonneg (self : drive) (respond : nat -> run_outcome)
    (tapeinfo : run_outcome) :
  0 <= file_number (fst (get_status self respond tapeinfo)).
Proof.
  unfold get_status.
  destruct (_execute_mt_command self (str "status") true respond) as [[ok o] tr].
  destruct ok; [destruct o |]; cbn [fst file_number]; try lia.
  destruct (search_number (str "file number=") text) as [z |] eqn:E; cbn [or_zero];
    [exact (search_number_nonneg _ _ _ E) | lia].
Qed.

(** The entry of a completed backup, field by field. *)
Lemma execute_backup_entry (j : job) (p : params) (w : world) (c : cancel_time)
    (j' : job) (r : JobResult) (terminated : bool) (e : entry) :
  _execute_backup j p w c = (j', Some r, terminated) ->
  registry_entry r = Some e ->
  missing (label p) = false
  /\ manifest_path r = Registry.manifest e
  /\ e = {| Registry.timestamp := entry_time w;
            Registry.label := text_of (BackupJob.label p);
            Registry.tapes := str "[N/A]";
            Registry.file_index :=
              Format.decimal_digits
                (file_number (fst (get_status (tape w) (status_after w)
                                              (tapeinfo_after w))));
            Registry.manifest :=
              path_join (manifest_dir w)
                        (manifest_name (manifest_stamp w)
                                       (text_of (BackupJob.label p))) |}.
Proof.
  unfold _execute_backup.
  destruct (missing (source p)); cbn [orb]; [intros [= _ <- _]; discriminate |].
  destruct (missing (BackupJob.label p)); [intros [= _ <- _]; discriminate |].
  destruct (negb (source_exists w)); [intros [= _ <- _]; discriminate |].
  destruct (negb (_check_system_readiness w)); [intros [= _ <- _]; discriminate |].
  destruct (is_ready_for_write _ _ _) as [ready why].
  destruct (negb ready); [intros [= _ <- _]; discriminate |].
  destruct (negb (makedirs_ok w)); [discriminate |].
  destruct (MBufferOptimizer.get_optimal_mbuffer_params _ _ _);
    [| intros [= _ <- _]; discriminate].
  destruct (negb (popen_ok w)); [intros [= _ <- _]; discriminate |].
  destruct (monitor j c 0 (output w)) as [[j2 term] lines].
  destruct (negb (_ =? 0)); intros [= _ <- _]; [discriminate |].
  cbn [registry_entry manifest_path]. intros [= <-].
  split; [reflexivity |]. split; reflexivity.
Qed.

Lemma run_backup_entry (p : params) (w : world) (c : cancel_time)
    (r : JobResult) (e : entry) :
  result (fst (run (new_job BACKUP) p w c)) = Some r ->
  registry_entry r = Some e ->
  exists j j' terminated, _execute_backup j p w c = (j', Some r, terminated).
Proof.
  unfold run, new_job. cbn [status job_type cancellation_event result].
  unfold _execute_task.
  change (job_type (set_status _ RUNNING)) with BACKUP. cbv iota.
  set (j0 := set_status _ RUNNING).
  destruct (_execute_backup j0 p w c) as [[j1 [r0 |]] term] eqn:E.
  - cbn [fst]. intros H He. exists j0, j1, term.
    assert (r0 = r) as ->; [| exact E].
    destruct (result_status r0); cbn in H; congruence.
  - cbn. intros [= <-]. discriminate.
Qed.

Lemma path_join_plain (dir file : pystr) :
  plain dir -> plain file -> plain (path_join dir file).
Proof.
  intros Hd Hf. unfold path_join. destruct dir as [| x t]; [exact Hf |].
  destruct (endswith (x :: t) (str "/")).
  - apply plain_app; assumption.
  - apply plain_app; [exact Hd |]. apply plain_app; [plain_text | exact Hf].
Qed.

Lemma path_join_ends (dir file : pystr) (x : ascii) :
  exists s, path_join dir (file ++ [x]) = s ++ [x].
Proof.
  unfold path_join. destruct dir as [| y t].
  - exists file. reflexivity.
  - destruct (endswith (y :: t) (str "/")).
    + exists ((y :: t) ++ file). rewrite app_assoc. reflexivity.
    + exists ((y :: t) ++ str "/" ++ file). rewrite <- !app_assoc. reflexivity.
Qed.

Lemma manifest_name_plain (stamp lbl : pystr) :
  plain stamp -> plain lbl -> plain (manifest_name stamp lbl).
Proof.
  intros Hs Hl. unfold manifest_name.
  apply plain_app; [exact Hs |]. apply plain_app; [plain_text |].
  apply plain_app; [exact Hl | plain_text].
Qed.

Lemma digits_plain (s : pystr) :
  Forall (fun c => isdigit c = true) s -> plain s.
Proof.
  apply Forall_impl. intros c Hc. split.
  - apply digit_differs; [exact Hc | reflexivity].
  - apply digit_code in Hc. unfold islinebreak. lia.
Qed.

(** X26.  From a completed backup to the registry: under a label, a manifest
    directory and a time stamp without separator or line break, and a
    file index within the limit of digits of an integer, the entry the job
    hands over can be appended to a registry that passes verification;
    when the reader makes of the file after the append the text it made
    before, followed by the line of the entry, the registry then still
    passes, and lists the old entries followed by this one, unchanged,
    under the job's label. *)
Theorem completed_backup_entry_keeps_registry_verified
    (read_file : bytes -> pyres pystr)
    (p : params) (w : world) (c : cancel_time) (r : JobResult) (e : entry)
    (path_exists : pystr -> bool) (st : store) (before : pystr)
    (msgs : list report) :
  result (fst (run (new_job BACKUP) p w c)) = Some r ->
  registry_entry r = Some e ->
  plain (text_of (BackupJob.label p)) ->
  plain (manifest_dir w) -> plain (manifest_stamp w) ->
  plain (entry_time w) -> lstrip (entry_time w) = entry_time w ->
  (List.length (Registry.file_index e) <= MAX_STR_DIGITS)%nat ->
  path_exists (strip (manifest_path r)) = true ->
  verify_registry read_file path_exists st = (true, msgs) ->
  reads_as read_file st before ->
  reads_as read_file (fst (add_registry_entry st e))
           (before ++ format_entry e ++ newline) ->
  on_boundary before = true ->
  verify_registry read_file path_exists (fst (add_registry_entry st e))
  = (true, [VerifiedOk])
  /\ get_all_backups read_file (fst (add_registry_entry st e))
     = get_all_backups read_file st
       ++ [(S (List.length (registry_lines read_file st)), e)]
  /\ Registry.label e = text_of (BackupJob.label p).
Proof.
  intros Hres He Hl Hd Hs Ht Ht' Hcap Hm Hv Hold Hnew Hb.
  destruct (run_backup_entry p w c r e Hres He) as (j & j' & term & Hx).
  destruct (execute_backup_entry j p w c j' r term e Hx He) as (Hlab & Hpath & E).
  set (n := file_number (fst (get_status (tape w) (status_after w)
                                         (tapeinfo_after w)))) in E.
  assert (Hn : 0 <= n) by apply file_number_nonneg.
  assert (R : representable e).
  { rewrite E. unfold representable.
    cbn [Registry.timestamp Registry.label Registry.tapes Registry.file_index Registry.manifest].
    split; [exact Ht |]. split; [exact Hl |]. split; [plain_text |].
    split; [apply digits_plain, (proj2 (decimal_digits_digits n)) |].
    split; [apply path_join_plain; [exact Hd | apply manifest_name_plain; assumption] |].
    split; [exact Ht' |].
    unfold manifest_name. change (str ".txt") with (str ".tx" ++ ["t"%char]).
    rewrite !app_assoc.
    destruct (path_join_ends (manifest_dir w)
                (((manifest_stamp w ++ str "_") ++ text_of (BackupJob.label p))
                 ++ str ".tx") "t"%char) as (s & ->).
    rewrite rstrip_after by reflexivity. reflexivity. }
  split; [| split].
  - apply (VerifyFacts.verified_after_append read_file path_exists st e before
             msgs Hv R Hold Hnew Hb).
    + rewrite E. cbn [Registry.label]. unfold missing in Hlab.
      destruct (BackupJob.label p) as [[| x t] |]; try discriminate. reflexivity.
    + rewrite <- Hpath. exact Hm.
    + exists n. rewrite E in Hcap |- *. cbn [Registry.file_index] in Hcap |- *.
      apply py_int_decimal_digits; assumption.
  - exact (ListingFacts.listing_after_append read_file st e before R Hold Hnew Hb).
  - rewrite E. reflexivity.
Qed.

Lemma completed_backup_entry_keeps_registry_verified_witness :
  verify_registry as_written (fun _ => true)
    (fst (add_registry_entry (registry_of [weekly]) MoreScenarios.weekly_001))
  = (true, [VerifiedOk])
  /\ get_all_backups as_written
       (fst (add_registry_entry (registry_of [weekly]) MoreScenarios.weekly_001))
     = get_all_backups as_written (registry_of [weekly])
       ++ [(S (List.length (registry_lines as_written (registry_of [weekly]))),
            MoreScenarios.weekly_001)]
  /\ Registry.label MoreScenarios.weekly_001 = text_of (BackupJob.label backup_of_data).
Proof.
  apply (completed_backup_entry_keeps_registry_verified as_written
           backup_of_data calm None
           MoreScenarios.weekly_001_result MoreScenarios.weekly_001
           (fun _ => true) (registry_of [weekly])
           (format_entry weekly ++ newline) [VerifiedOk]).
  - vm_compute. reflexivity.
  - reflexivity.
  - plain_text.
  - plain_text.
  - plain_text.
  - plain_text.
  - reflexivity.
  - vm_compute. lia.
  - reflexivity.
  - vm_compute. reflexivity.
  - vm_compute. reflexivity.
  - vm_compute. reflexivity.
  - reflexivity.
Defined.

Lemma execute_backup_completed (j : job) (p : params) (w : world) (c : cancel_time)
    (j' : job) (r : JobResult) (terminated : bool) :
  _execute_backup j p w c = (j', Some r, terminated) ->
  result_status r = COMPLETED ->
  missing (source p) = false /\ missing (BackupJob.label p) = false
  /\ source_exists w = true
  /\ _check_system_readiness w = true
  /\ fst (is_ready_for_write (tape w) (status_before w) (tapeinfo_before w)) = true
  /\ makedirs_ok w = true /\ popen_ok w = true
  /\ (if terminated then returncode_terminated w else returncode w) = 0
  /\ exists e, registry_entry r = Some e.
Proof.
  unfold _execute_backup.
  destruct (missing (source p)); cbn [orb]; [intros [= _ <- _]; discriminate |].
  destruct (missing (BackupJob.label p)); [intros [= _ <- _]; discriminate |].
  destruct (source_exists w); cbn [negb]; [| intros [= _ <- _]; discriminate].
  destruct (_check_system_readiness w); cbn [negb];
    [| intros [= _ <- _]; discriminate].
  destruct (is_ready_for_write _ _ _) as [ready why].
  destruct ready; cbn [negb]; [| intros [= _ <- _]; discriminate].
  destruct (makedirs_ok w); cbn [negb]; [| discriminate].
  destruct (MBufferOptimizer.get_optimal_mbuffer_params _ _ _);
    [| intros [= _ <- _]; discriminate].
  destruct (popen_ok w); cbn [negb]; [| intros [= _ <- _]; discriminate].
  destruct (monitor j c 0 (output w)) as [[j2 term] lines].
  destruct (Z.eqb_spec (if term then returncode_terminated w else returncode w) 0)
    as [E0 |]; cbn [negb]; intros [= _ <- <-]; [| discriminate].
  intros _. cbn [fst registry_entry]. repeat split; try reflexivity; try exact E0.
  eexists. reflexivity.
Qed.

(** X27.  A backup is reported COMPLETED only after every check: source and
    label were given, the source exists, neither memory nor disk was
    critical, the tape was ready for writing, the pipeline was started and
    the exit code that was read is zero.  Its result then carries a
    registry entry. *)
Theorem completed_backup_passed_every_check
    (p : params) (w : world) (c : cancel_time) :
  status (fst (run (new_job BACKUP) p w c)) = COMPLETED ->
  missing (source p) = false /\ missing (BackupJob.label p) = false
  /\ source_exists w = true
  /\ _check_system_readiness w = true
  /\ fst (is_ready_for_write (tape w) (status_before w) (tapeinfo_before w)) = true
  /\ makedirs_ok w = true /\ popen_ok w = true
  /\ (if snd (run (new_job BACKUP) p w c)
      then returncode_terminated w else returncode w) = 0
  /\ entries_produced (fst (run (new_job BACKUP) p w c)) = 1%nat.
Proof.
  unfold run, new_job. cbn [status job_type cancellation_event result].
  unfold _execute_task.
  change (job_type (set_status _ RUNNING)) with BACKUP. cbv iota.
  set (j0 := set_status _ RUNNING).
  destruct (_execute_backup j0 p w c) as [[j1 [r |]] term] eqn:E.
  - cbn [fst snd]. intros H.
    assert (Hc : result_status r = COMPLETED).
    { destruct (result_status r); cbn in H; congruence. }
    destruct (execute_backup_completed j0 p w c j1 r term E Hc)
      as (A1 & A2 & A3 & A4 & A5 & A6 & A7 & A8 & e & He).
    repeat (split; [assumption |]).
    rewrite Hc. unfold entries_produced. cbn. rewrite He. reflexivity.
  - cbn. discriminate.
Qed.

Lemma completed_backup_passed_every_check_witness :
  missing (source backup_of_data) = false
  /\ missing (BackupJob.label backup_of_data) = false
  /\ source_exists calm = true
  /\ _check_system_readiness calm = true
  /\ fst (is_ready_for_write (tape calm) (status_before calm) (tapeinfo_before calm))
     = true
  /\ makedirs_ok calm = true /\ popen_ok calm = true
  /\ (if snd (run (new_job BACKUP) backup_of_data calm None)
      then returncode_terminated calm else returncode calm) = 0
  /\ entries_produced (fst (run (new_job BACKUP) backup_of_data calm None)) = 1%nat.
Proof.
  apply (completed_backup_passed_every_check backup_of_data calm None).
  vm_compute. reflexivity.
Defined.

End OutcomeFacts.

(** ** Byte counts in words *)

Module FormatFacts.

Import Float64Facts Float64Exact SizeText SizeFacts.

(** A whole number printed with one decimal. *)
Lemma fixed1_integer (r : Q) (k : Z) :
  (r == inject_Z k)%Q -> 0 <= k ->
  Format.fixed 1 (Fin r) = Format.decimal_digits k ++ str ".0".
Proof.
  intros Hr Hk. destruct r as [n d]. unfold Qeq in Hr.
  cbn [Qnum Qden inject_Z] in Hr. rewrite Z.mul_1_r in Hr. subst n.
  unfold Format.fixed, Format.fixed_Q. cbn [Qnum Qden].
  change (10 ^ Z.of_nat 1) with 10.
  rewrite Z.abs_eq by nia.
  replace (k * Z.pos d * 10) with (Z.pos d * (k * 10)) by ring.
  rewrite rne_multiple by lia.
  replace (k * Z.pos d <? 0) with false by (symmetry; apply Z.ltb_ge; nia).
  rewrite Z.div_mul, Z.mod_mul by lia. reflexivity.
Qed.

Lemma below_1024 (r : Q) (z : Z) :
  (r == inject_Z z)%Q -> ltb (Fin r) (Fin 1024) = (z <? 1024).
Proof.
  intros Hr. unfold ltb, gtb.
  destruct (Z.ltb_spec z 1024) as [Hlt | Hge].
  - apply negb_true_iff. apply not_true_is_false. intros H.
    apply Qle_bool_iff in H. rewrite Hr in H.
    change 1024%Q with (inject_Z 1024) in H. rewrite <- Zle_Qle in H. lia.
  - apply negb_false_iff. apply Qle_bool_iff. rewrite Hr.
    change 1024%Q with (inject_Z 1024). rewrite <- Zle_Qle. exact Hge.
Qed.

Lemma div_1024_exact (r : Q) (z : Z) :
  (r == inject_Z (z * 1024))%Q -> 0 <= z < 2 ^ 53 ->
  exists r', div_by 1024 (Fin r) = Fin r' /\ (r' == inject_Z z)%Q.
Proof.
  intros Hr Hz. cbn [div_by]. apply round_integer; [| exact Hz].
  rewrite Hr, inject_Z_mult. change (inject_Z 1024) with 1024%Q. field.
Qed.

Lemma format_units_exact (k : Z) :
  1 <= k < 1024 ->
  forall (j : nat) (units : list pystr) (r : Q),
    (j < List.length units)%nat -> (j <= 4)%nat ->
    (r == inject_Z (k * 1024 ^ Z.of_nat j))%Q ->
    format_units units (Fin r)
    = Format.decimal_digits k ++ str ".0" ++ " "%char :: nth j units [].
Proof.
  intros Hk. induction j as [| j IH]; intros units r Hlen Hj Hr.
  - destruct units as [| u rest]; [cbn in Hlen; lia |].
    cbn [format_units nth]. change (1024 ^ Z.of_nat 0) with 1 in Hr.
    rewrite Z.mul_1_r in Hr. rewrite (below_1024 r k Hr).
    replace (k <? 1024) with true by (symmetry; apply Z.ltb_lt; lia).
    rewrite (fixed1_integer r k Hr) by lia. rewrite <- app_assoc. reflexivity.
  - destruct units as [| u rest]; [cbn in Hlen; lia |].
    cbn [format_units nth].
    assert (P : 0 < 1024 ^ Z.of_nat j) by (apply Z.pow_pos_nonneg; lia).
    assert (B : 1024 ^ Z.of_nat j <= 1073741824)
      by (change 1073741824 with (1024 ^ 3); apply Z.pow_le_mono_r; lia).
    assert (E : k * 1024 ^ Z.of_nat (S j) = k * 1024 ^ Z.of_nat j * 1024).
    { rewrite Nat2Z.inj_succ, Z.pow_succ_r by lia. ring. }
    rewrite E in Hr.
    rewrite (below_1024 r _ Hr).
    replace (k * 1024 ^ Z.of_nat j * 1024 <? 1024) with false
      by (symmetry; apply Z.ltb_ge; nia).
    destruct (div_1024_exact r (k * 1024 ^ Z.of_nat j) Hr) as (r' & -> & Hr').
    { change (2 ^ 53) with 9007199254740992. nia. }
    apply IH; [cbn in Hlen; lia | lia | exact Hr'].
Qed.

(** X28.  A byte count that is a whole number of units prints as that number
    with ".0" and the unit: [k * 1024^i] bytes, for [k] from 1 to 1023 and
    [i] up to 4, give [k].0 followed by B, KB, MB, GB or TB.  The units
    are binary ones under decimal names. *)
Theorem format_bytes_of_whole_units (k : Z) (i : nat) :
  1 <= k < 1024 -> (i <= 4)%nat ->
  _format_bytes (k * 1024 ^ Z.of_nat i)
  = Ok (Format.decimal_digits k ++ str ".0 " ++ nth i unit_names []).
Proof.
  intros Hk Hi. unfold _format_bytes.
  assert (P : 0 < 1024 ^ Z.of_nat i) by (apply Z.pow_pos_nonneg; lia).
  assert (B : 1024 ^ Z.of_nat i <= 1099511627776)
    by (change 1099511627776 with (1024 ^ 4); apply Z.pow_le_mono_r; lia).
  destruct (of_int_exact (k * 1024 ^ Z.of_nat i)) as (r & -> & Hr).
  { change (2 ^ 53) with 9007199254740992. nia. }
  cbn [bind]. destruct i as [| j].
  - change (1024 ^ Z.of_nat 0) with 1 in *. rewrite Z.mul_1_r in *.
    replace (k <? 1024) with true by (symmetry; apply Z.ltb_lt; lia).
    rewrite (fixed1_integer r k Hr) by lia. rewrite <- app_assoc. reflexivity.
  - assert (Pj : 0 < 1024 ^ Z.of_nat j) by (apply Z.pow_pos_nonneg; lia).
    assert (Bj : 1024 ^ Z.of_nat j <= 1073741824)
      by (change 1073741824 with (1024 ^ 3); apply Z.pow_le_mono_r; lia).
    assert (E : k * 1024 ^ Z.of_nat (S j) = k * 1024 ^ Z.of_nat j * 1024).
    { rewrite Nat2Z.inj_succ, Z.pow_succ_r by lia. ring. }
    rewrite E in *.
    replace (k * 1024 ^ Z.of_nat j * 1024 <? 1024) with false
      by (symmetry; apply Z.ltb_ge; nia).
    destruct (div_1024_exact r (k * 1024 ^ Z.of_nat j) Hr) as (r' & -> & Hr').
    { change (2 ^ 53) with 9007199254740992. nia. }
    rewrite (format_units_exact k Hk j _ r'); [| cbn; lia | lia | exact Hr'].
    reflexivity.
Qed.

Lemma format_bytes_of_whole_units_witness :
  _format_bytes (512 * 1024 ^ Z.of_nat 2)
  = Ok (Format.decimal_digits 512 ++ str ".0 " ++ nth 2 unit_names []).
Proof.
  apply (format_bytes_of_whole_units 512 2); [lia | lia].
Defined.

End FormatFacts.

(** ** The labels the engine puts into manifest names *)

Module SafeLabelFacts.

Import StrFacts Registry RegistryFacts RegistryRecovery RebuildFacts EngineManifest.

Lemma eqc_code (a b : ascii) : eqc a b = true -> code a = code b.
Proof. intros H. apply eqc_true in H. subst. reflexivity. Qed.

Lemma safe_code (c : ascii) :
  is_safe c = true ->
  48 <= code c <= 57 \/ 65 <= code c <= 90 \/ 97 <= code c <= 122
  \/ 170 <= code c <= 255 \/ code c = 95 \/ code c = 45.
Proof.
  unfold is_safe. intros H. apply orb_true_iff in H. destruct H as [H | H].
  - apply orb_true_iff in H. destruct H as [H | H].
    + unfold isalnum in H. lia.
    + apply eqc_code in H. change (code "_"%char) with 95 in H. lia.
  - apply eqc_code in H. change (code "-"%char) with 45 in H. lia.
Qed.

Lemma safe_is_plain (c : ascii) :
  is_safe c = true ->
  eqc c semi = false /\ islinebreak c = false /\ isspace c = false
  /\ eqc c "/"%char = false /\ eqc c "."%char = false.
Proof.
  intros H. apply safe_code in H.
  assert (D : forall x, code c <> code x -> eqc c x = false).
  { intros x Hx. destruct (eqc c x) eqn:E; [| reflexivity].
    apply eqc_code in E. contradiction. }
  split; [apply D; change (code semi) with 59; lia |].
  split; [unfold islinebreak; lia |].
  split; [unfold isspace; lia |].
  split; apply D; [change (code "/"%char) with 47 | change (code "."%char) with 46]; lia.
Qed.

Lemma filter_idem {A : Type} (p : A -> bool) (l : list A) :
  filter p (filter p l) = filter p l.
Proof.
  induction l as [| x l IH]; [reflexivity |]. cbn [filter].
  destruct (p x) eqn:E; [| exact IH]. cbn [filter]. rewrite E, IH. reflexivity.
Qed.

(** X29.  The label that goes into the engine's manifest name is clean and
    comes back: it holds no separator, line break, blank, slash or dot, so
    it fits a registry field as it stands; cleaning it again changes
    nothing; and from the manifest's name the rebuild reads this cleaned
    label, not the one that was asked for. *)
Theorem safe_label_is_clean_and_read_back (day time label : pystr) :
  free_of underscore day -> free_of underscore time ->
  plain (safe_label label)
  /\ Forall (fun c => isspace c = false /\ eqc c "/"%char = false
                      /\ eqc c "."%char = false) (safe_label label)
  /\ safe_label (safe_label label) = safe_label label
  /\ manifest_label (manifest_file_name (day ++ str "_" ++ time) label)
     = Some (day ++ str "_" ++ time, safe_label label).
Proof.
  intros Hd Ht.
  assert (S : Forall (fun c => is_safe c = true) (safe_label label)).
  { unfold safe_label. rewrite Forall_forall. intros c Hc.
    apply filter_In in Hc. exact (proj2 Hc). }
  split; [| split; [| split]].
  - revert S. apply Forall_impl. intros c Hc.
    destruct (safe_is_plain c Hc) as (A & B & _). split; assumption.
  - revert S. apply Forall_impl. intros c Hc.
    destruct (safe_is_plain c Hc) as (_ & _ & A & B & C). repeat split; assumption.
  - apply filter_idem.
  - exact (manifest_label_of_name day time (safe_label label) Hd Ht).
Qed.

Lemma safe_label_is_clean_and_read_back_witness :
  plain (safe_label (str "Weekly 01; full/2024.tar"))
  /\ Forall (fun c => isspace c = false /\ eqc c "/"%char = false
                      /\ eqc c "."%char = false)
            (safe_label (str "Weekly 01; full/2024.tar"))
  /\ safe_label (safe_label (str "Weekly 01; full/2024.tar"))
     = safe_label (str "Weekly 01; full/2024.tar")
  /\ manifest_label
       (manifest_file_name (str "20240602" ++ str "_" ++ str "120000")
                           (str "Weekly 01; full/2024.tar"))
     = Some (str "20240602" ++ str "_" ++ str "120000",
             safe_label (str "Weekly 01; full/2024.tar")).
Proof.
  apply (safe_label_is_clean_and_read_back (str "20240602") (str "120000")
           (str "Weekly 01; full/2024.tar"));
    unfold free_of; repeat (apply Forall_cons; [reflexivity |]); apply Forall_nil.
Defined.

End SafeLabelFacts.
